(** * PLN_II: retrieval-augmented chat scripts (TP-2, TP-3)

    A shallow embedding of the three Python scripts

      - [TP-2/vector_db.py]  (index bootstrap, [search_similar], search loop)
      - [TP-2/chat_groq.py]  ([ChatSession], chat loop)
      - [TP-3/cv_agent.py]   ([search_similar], the three tools, [CVChatAgent], [main])

    Python [str] values are sequences of Unicode code points; remote
    services (Pinecone, Groq) are an interface of state-passing oracles over
    an abstract [world]; logging, console output and the conversation
    history are fields of an explicit program state; exceptions are values
    of an error monad that keeps the state reached when they were raised. *)

From Stdlib Require Import List NArith ZArith Bool Lia.
From Stdlib Require QArith_base.
From Stdlib Require Import Ascii String.
Import ListNotations.

Set Implicit Arguments.

(** ** Python strings *)

Module Str.

(** A [str] is the list of its code points. *)
Definition str := list N.

Definition eqb (a b : str) : bool :=
  if list_eq_dec N.eq_dec a b then true else false.

(** UTF-8 decoding of a source literal (the scripts are UTF-8 files). *)
Fixpoint decode (fuel : nat) (bs : list N) : str :=
  match fuel with
  | O => []
  | S fuel' =>
    match bs with
    | [] => []
    | b0 :: r0 =>
      if (b0 <? 128)%N then b0 :: decode fuel' r0
      else if (b0 <? 224)%N then
        match r0 with
        | b1 :: r1 => ((b0 - 192) * 64 + (b1 - 128))%N :: decode fuel' r1
        | _ => []
        end
      else if (b0 <? 240)%N then
        match r0 with
        | b1 :: b2 :: r2 =>
          ((b0 - 224) * 4096 + (b1 - 128) * 64 + (b2 - 128))%N :: decode fuel' r2
        | _ => []
        end
      else
        match r0 with
        | b1 :: b2 :: b3 :: r3 =>
          ((b0 - 240) * 262144 + (b1 - 128) * 4096 + (b2 - 128) * 64 + (b3 - 128))%N
            :: decode fuel' r3
        | _ => []
        end
    end
  end.

Definition bytes_of (s : string) : list N :=
  map N_of_ascii (list_ascii_of_string s).

Definition lit (s : string) : str :=
  decode (String.length s) (bytes_of s).

(** [str.isspace] on one code point ([_PyUnicode_IsWhitespace]). *)
Definition is_space (c : N) : bool :=
  ((9 <=? c) && (c <=? 13) || (28 <=? c) && (c <=? 32)
   || (c =? 133) || (c =? 160) || (c =? 5760)
   || (8192 <=? c) && (c <=? 8202)
   || (c =? 8232) || (c =? 8233) || (c =? 8239) || (c =? 8287)
   || (c =? 12288))%N.

Fixpoint lstrip (s : str) : str :=
  match s with
  | c :: r => if is_space c then lstrip r else s
  | [] => []
  end.

Definition rstrip (s : str) : str := rev (lstrip (rev s)).

(** [s.strip()] *)
Definition strip (s : str) : str := rstrip (lstrip s).

(** [s.lower()], on the ASCII letters; other code points are kept. No code
    point outside ASCII lowers to one of the letters of "exit" or "quit",
    which is all the scripts compare a lowered string with. *)
Definition lower_char (c : N) : N :=
  if ((65 <=? c) && (c <=? 90))%N then (c + 32)%N else c.

Definition lower (s : str) : str := map lower_char s.

(** [sep.join(parts)] *)
Fixpoint join (sep : str) (parts : list str) : str :=
  match parts with
  | [] => []
  | [p] => p
  | p :: rest => p ++ sep ++ join sep rest
  end.

(** [sub in s] on strings *)
Fixpoint starts_with (p s : str) : bool :=
  match p, s with
  | [], _ => true
  | a :: p', b :: s' => (a =? b)%N && starts_with p' s'
  | _ :: _, [] => false
  end.

Fixpoint contains (s sub : str) : bool :=
  starts_with sub s ||
  match s with
  | [] => false
  | _ :: s' => contains s' sub
  end.

(** [s.ljust(w)], what the format spec [:<w] does to a string. *)
Definition ljust (w : nat) (s : str) : str :=
  s ++ repeat 32%N (w - List.length s).

(** [str(n)] for a non-negative integer. *)
Fixpoint digits (d : Decimal.uint) : str :=
  match d with
  | Decimal.Nil => []
  | Decimal.D0 r => 48%N :: digits r
  | Decimal.D1 r => 49%N :: digits r
  | Decimal.D2 r => 50%N :: digits r
  | Decimal.D3 r => 51%N :: digits r
  | Decimal.D4 r => 52%N :: digits r
  | Decimal.D5 r => 53%N :: digits r
  | Decimal.D6 r => 54%N :: digits r
  | Decimal.D7 r => 55%N :: digits r
  | Decimal.D8 r => 56%N :: digits r
  | Decimal.D9 r => 57%N :: digits r
  end.

Definition of_nat (n : nat) : str := digits (Nat.to_uint n).

(** Truthiness of a string: [if s:] *)
Definition truthy (s : str) : bool :=
  match s with [] => false | _ => true end.

End Str.

Abbreviation str := Str.str.
Notation "'u' s" := (Str.lit s%string) (at level 1, s at level 0, format "'u' s").

Definition nl : str := [10%N].

(** ** Exceptions and results *)

Inductive exn :=
| KeyError (key : str)
| IndexError
| AttributeError (msg : str)
| TypeError (msg : str)
| EOFError
| ServiceError (msg : str)   (* an Exception raised by a client library *)
| KeyboardInterrupt.         (* a BaseException that is not an Exception *)

(** [isinstance(e, Exception)]: what [except Exception] catches. *)
Definition is_Exception (e : exn) : bool :=
  match e with
  | KeyboardInterrupt => false
  | _ => true
  end.

(** [f"{e}"] *)
Definition exn_str (e : exn) : str :=
  match e with
  | KeyError k => u"'" ++ k ++ u"'"
  | IndexError => u"list index out of range"
  | AttributeError m => m
  | TypeError m => m
  | EOFError => u"EOF when reading a line"
  | ServiceError m => m
  | KeyboardInterrupt => []
  end.

Inductive res (A : Type) :=
| Ok (a : A)
| Raise (e : exn).
Arguments Ok {A} a.
Arguments Raise {A} e.

(** ** Floats

    The scripts only round a score to two places and print it; the float
    type is an interface with these operations. *)

Class PyFloat := {
  float : Type;
  float_zero : float;                      (* 0.0 *)
  round2 : float -> float;                 (* round(x, 2) *)
  float_str : float -> str;                (* format(x, "") *)
  round2_zero : round2 float_zero = float_zero
}.

(** ** Data model *)

Inductive role := system | user | assistant.

Record message := { msg_role : role; msg_content : str }.

Definition role_eqb (a b : role) : bool :=
  match a, b with
  | system, system | user, user | assistant, assistant => true
  | _, _ => false
  end.

Definition roles (h : list message) : list role := map msg_role h.

(** The payloads of the vector store have the shape that the docstring of
    [cv_agent.search_similar] gives,
    [{"result": {"hits": [{"_id", "_score", "fields": {"category", "chunk_text"}}]}}]:
    any key may be absent, and a value that is present is a string, or for
    the score a number or null. *)

Section Payloads.
Context {F : PyFloat}.

(** The ["_score"] of a hit, when the key is present: a number, or JSON
    null, on which [float()] and [round()] raise [TypeError]. *)
Inductive score_value :=
| ScoreNum (f : float)
| ScoreNull.

(** [hit["fields"]]; [None] is an absent key. *)
Record fields_t := {
  category : option str;
  chunk_text : option str
}.

(** One raw search hit; [None] is an absent key. *)
Record hit := {
  hit_id : option str;
  hit_score : option score_value;
  hit_fields : option fields_t
}.

(** The response of [index.search]: [{"result": {"hits": [...]}}], where
    either key may be absent. *)
Record result_t := { hits : option (list hit) }.
Record search_response := { result : option result_t }.

(** The normalized record built by [cv_agent.search_similar]. *)
Record entry := {
  e_id : str;
  e_score : float;
  e_category : str;
  e_text : str
}.

(** The record upserted by [load_data]. *)
Record chunk_record := {
  rec_id : str;
  rec_chunk_text : str;
  rec_category : str
}.
End Payloads.

(** A choice of a buffered completion: it has a [message] attribute, or
    else a [delta] attribute, or neither; [content] may be [None]. *)
Inductive choice :=
| ChoiceMessage (content : option str)
| ChoiceDelta (content : option str)
| ChoiceOther (repr : str).

(** [delta.content] of a streamed chunk. *)
Inductive delta_content :=
| NoAttr                  (* the delta has no [content] attribute *)
| IsNone                  (* content is None *)
| Content (s : str).

(** A choice of a streamed chunk; [None] when it has no [delta]. *)
Record stream_choice := { sc_delta : option delta_content }.
Record chunk := { chunk_choices : list stream_choice }.

(** A streamed completion: the chunks it yields, then either the end of
    the stream or an exception raised by the iterator. *)
Record stream := {
  stream_chunks : list chunk;
  stream_failure : option exn
}.

Record request := {
  req_model : str;
  req_messages : list message;
  req_temperature : QArith_base.Q;
  req_max_tokens : option nat;
  req_max_completion_tokens : option nat;
  req_top_p : option QArith_base.Q;
  req_stream : bool;
  req_stop : option str
}.

(** ** Remote services *)

(** Every remote operation takes the world and returns a result and the
    next world; it may raise any exception. [describe_index_stats] gives
    the statistics as they print. [read_and_chunk_sentences] is the function
    of [chunk.py] that [load_data] imports; it reads a file, so it is an
    operation on the world as well. *)
Class Services {F : PyFloat} := {
  world : Type;
  index : Type;                                       (* an index handle *)
  list_indexes : world -> res (list str) * world;     (* names, in listing order *)
  open_index : str -> world -> res index * world;     (* pinecone.Index(name) *)
  create_index_for_model : str -> world -> res unit * world;
  describe_index_stats : index -> world -> res str * world;
  index_search : index -> str -> nat -> str -> world -> res search_response * world;
  upsert_records : index -> str -> list chunk_record -> world -> res unit * world;
  read_and_chunk_sentences : str -> nat -> nat -> world -> res (list str) * world;
  completions_create : request -> world -> res (list choice) * world;
  completions_create_stream : request -> world -> res stream * world
}.

(** The remote calls a run performs, in order. *)
Inductive call :=
| CallListIndexes
| CallIndex (name : str)
| CallCreateIndex (name : str)
| CallDescribeStats
| CallSearch (namespace : str) (top_k : nat) (text : str)
| CallUpsert (id : str)
| CallReadChunks (path : str)
| CallCompletion (r : request).

Definition is_model_call (c : call) : bool :=
  match c with
  | CallCompletion _ => true
  | _ => false
  end.

(** ** Program state and the monad of the scripts *)

Inductive level := INFO | WARNING | ERROR.

Section Program.
Context {F : PyFloat} {S : Services}.

Inductive log_arg :=
| LogText (s : str)
| LogEntry (e : entry).        (* logging.info(entry) *)

Record state := {
  st_world : world;
  st_calls : list call;                   (* remote calls made so far *)
  st_log : list (level * log_arg);        (* logging records *)
  st_out : list str;                      (* what print and input() write *)
  st_err : list str;                      (* print(..., file=sys.stderr) *)
  st_messages : list message              (* self.messages *)
}.

Definition M (A : Type) : Type := state -> res A * state.

Definition ret {A} (a : A) : M A := fun s => (Ok a, s).

Definition bind {A B} (c : M A) (k : A -> M B) : M B :=
  fun s =>
    match c s with
    | (Ok a, s') => k a s'
    | (Raise e, s') => (Raise e, s')
    end.

Definition raise {A} (e : exn) : M A := fun s => (Raise e, s).

(** [try: body / except Exception as e: handler e] *)
Definition try_except {A} (body : M A) (handler : exn -> M A) : M A :=
  fun s =>
    match body s with
    | (Raise e, s') => if is_Exception e then handler e s' else (Raise e, s')
    | r => r
    end.

Definition remote {A} (c : call) (f : world -> res A * world) : M A :=
  fun s =>
    let (r, w) := f (st_world s) in
    (r, {| st_world := w; st_calls := st_calls s ++ [c]; st_log := st_log s;
           st_out := st_out s; st_err := st_err s; st_messages := st_messages s |}).

Definition log (l : level) (a : log_arg) : M unit :=
  fun s =>
    (Ok tt, {| st_world := st_world s; st_calls := st_calls s;
               st_log := st_log s ++ [(l, a)];
               st_out := st_out s; st_err := st_err s; st_messages := st_messages s |}).

Definition logging_info (s : str) : M unit := log INFO (LogText s).
Definition logging_warning (s : str) : M unit := log WARNING (LogText s).
Definition logging_error (s : str) : M unit := log ERROR (LogText s).

(** [print(s, end="")] *)
Definition write (t : str) : M unit :=
  fun s =>
    (Ok tt, {| st_world := st_world s; st_calls := st_calls s; st_log := st_log s;
               st_out := st_out s ++ [t]; st_err := st_err s;
               st_messages := st_messages s |}).

(** [print(s)] *)
Definition print (t : str) : M unit := write (t ++ nl).

(** [print(s, file=sys.stderr)] *)
Definition print_err (t : str) : M unit :=
  fun s =>
    (Ok tt, {| st_world := st_world s; st_calls := st_calls s; st_log := st_log s;
               st_out := st_out s; st_err := st_err s ++ [t ++ nl];
               st_messages := st_messages s |}).

(** [self.messages.append({"role": r, "content": c})] *)
Definition messages_append (r : role) (c : str) : M unit :=
  fun s =>
    (Ok tt, {| st_world := st_world s; st_calls := st_calls s; st_log := st_log s;
               st_out := st_out s; st_err := st_err s;
               st_messages := st_messages s ++ [{| msg_role := r; msg_content := c |}] |}).

Definition get_messages : M (list message) := fun s => (Ok (st_messages s), s).

(** [self.messages = []] *)
Definition messages_init : M unit :=
  fun s =>
    (Ok tt, {| st_world := st_world s; st_calls := st_calls s; st_log := st_log s;
               st_out := st_out s; st_err := st_err s; st_messages := [] |}).

(** Lifting a pure computation that may raise. *)
Definition lift {A} (r : res A) : M A := fun s => (r, s).

(** [time.sleep(t)] has no effect on the state. *)
Definition sleep : M unit := ret tt.

End Program.

Declare Scope py_scope.
Delimit Scope py_scope with py.
Notation "x <- c ;; k" := (bind c (fun x => k))
  (at level 61, c at next level, right associativity) : py_scope.
Notation "c ;; k" := (bind c (fun _ => k))
  (at level 61, right associativity) : py_scope.
Open Scope py_scope.

(** Console input: the lines typed, or Ctrl-C at a prompt; [input()] raises
    [EOFError] once the list is exhausted. *)
Inductive input_event :=
| Line (s : str)
| CtrlC.

(** How the process ends: [sys.exit(code)] or falling off the script
    ([Exit]), or a [KeyboardInterrupt] that no handler took. *)
Inductive status :=
| Exit (code : Z)
| Interrupted.

(** [x in [a, b, ...]] on strings *)
Definition str_in (x : str) (l : list str) : bool := existsb (Str.eqb x) l.

(** [d.get(k, default)] for a key that may be absent *)
Definition get_default {A} (o : option A) (d : A) : A :=
  match o with
  | Some a => a
  | None => d
  end.

(** [d[k]] for a key that may be absent *)
Definition subscript {A} (o : option A) (k : str) : res A :=
  match o with
  | Some a => Ok a
  | None => Raise (KeyError k)
  end.

(** * TP-2/vector_db.py *)

Module VectorDb.
Section Script.
Context {F : PyFloat} {S : Services}.

Definition INDEX_NAME : str := u"cv-index".
Definition NAMESPACE : str := u"cv-namespace".
Definition CHUNK_SIZE : nat := 3.
Definition CHUNK_OVERLAP : nat := 1.
Definition LOAD_DATA : bool := true.

(** [ensure_index(name)] *)
Definition ensure_index (name : str) : M index :=
  existing_indexes <- remote CallListIndexes list_indexes ;;
  (if negb (str_in name existing_indexes) then
     logging_info (u"Índice " ++ name ++ u" no encontrado. Creando...") ;;
     remote (CallCreateIndex name) (create_index_for_model name) ;;
     sleep ;;
     logging_info (u"Índice " ++ name ++ u" creado con éxito.")
   else
     logging_info (u"Índice " ++ name ++ u" ya existe.")) ;;
  remote (CallIndex name) (open_index name).

(** The body of [for i, chunk in enumerate(chunks)] in [load_data], from
    position [i]. *)
Fixpoint upload (idx : index) (i : nat) (chunks : list str) : M unit :=
  match chunks with
  | [] => ret tt
  | chunk :: rest =>
    let id := u"cv_chunk_" ++ Str.of_nat (i + 1) in
    let record := {| rec_id := id; rec_chunk_text := chunk; rec_category := u"cv" |} in
    remote (CallUpsert id) (upsert_records idx NAMESPACE [record]) ;;
    logging_info (u"Registro " ++ id ++ u" subido.") ;;
    upload idx (Datatypes.S i) rest
  end.

(** [load_data(index)] *)
Definition load_data (idx : index) : M unit :=
  logging_info u"Leyendo y dividiendo CV..." ;;
  chunks <- remote (CallReadChunks u"cv1.txt")
              (read_and_chunk_sentences u"cv1.txt" CHUNK_SIZE CHUNK_OVERLAP) ;;
  logging_info (Str.of_nat (List.length chunks) ++ u" chunks generados.") ;;
  upload idx 0 chunks ;;
  logging_info u"Carga de todos los registros completada." ;;
  sleep.

(** [round(hit['_score'], 2)] *)
Definition round_score (v : score_value) : res float :=
  match v with
  | ScoreNum f => Ok (round2 f)
  | ScoreNull =>
    Raise (TypeError u"type NoneType doesn't define __round__ method")
  end.

(** The line [tmp] built for one hit; every field is read by subscript. *)
Definition format_hit (h : hit) : res str :=
  match subscript (hit_id h) u"_id" with
  | Raise e => Raise e
  | Ok id =>
    match subscript (hit_score h) u"_score" with
    | Raise e => Raise e
    | Ok v =>
      match round_score v with
      | Raise e => Raise e
      | Ok score =>
        match subscript (hit_fields h) u"fields" with
        | Raise e => Raise e
        | Ok fields =>
          match subscript (category fields) u"category" with
          | Raise e => Raise e
          | Ok cat =>
            (* hit['fields'] is read again for the text *)
            match subscript (chunk_text fields) u"chunk_text" with
            | Raise e => Raise e
            | Ok text =>
              Ok (u"id: " ++ Str.ljust 10 id ++ u" | "
                  ++ u"score: " ++ Str.ljust 5 (float_str score) ++ u" | "
                  ++ u"category: " ++ Str.ljust 10 cat ++ u" | "
                  ++ u"text: " ++ firstn 80 text ++ u"...")
            end
          end
        end
      end
    end
  end.

(** The [for hit in ...] loop of [search_similar]; [data] is the list built
    so far. *)
Fixpoint format_hits (debug : bool) (hs : list hit) (data : list str) : M (list str) :=
  match hs with
  | [] => ret data
  | h :: rest =>
    tmp <- lift (format_hit h) ;;
    (if debug then print tmp else ret tt) ;;
    format_hits debug rest (data ++ [tmp])
  end.

(** [results["result"]["hits"]] *)
Definition get_hits (results : search_response) : res (list hit) :=
  match subscript (result results) u"result" with
  | Raise e => Raise e
  | Ok r => subscript (hits r) u"hits"
  end.

(** [search_similar(index, text, top_k=3, namespace=NAMESPACE, debug=True)] *)
Definition search_similar (idx : index) (text : str) (top_k : nat)
    (namespace : str) (debug : bool) : M (list str) :=
  stats <- remote CallDescribeStats (describe_index_stats idx) ;;
  logging_info (u"Estadísticas del índice: " ++ stats) ;;
  results <- remote (CallSearch namespace top_k text)
               (index_search idx namespace top_k text) ;;
  hs <- lift (get_hits results) ;;
  format_hits debug hs [].

(** The [while True] loop of the main block. *)
Fixpoint main_loop (dense_index : index) (inputs : list input_event) : M unit :=
  write u"Texto a buscar (Enter para salir): " ;;
  match inputs with
  | [] => raise EOFError
  | CtrlC :: _ => raise KeyboardInterrupt
  | Line l :: rest =>
    let msg := Str.strip l in
    if negb (Str.truthy msg) then
      logging_info u"Saliendo..."
    else
      search_similar dense_index msg 3 NAMESPACE true ;;
      main_loop dense_index rest
  end.

(** The body of the [try] of the main block. *)
Definition main_body (inputs : list input_event) : M unit :=
  dense_index <- ensure_index INDEX_NAME ;;
  (if LOAD_DATA then load_data dense_index else ret tt) ;;
  main_loop dense_index inputs.

(** The handlers of the main block, applied to the outcome of its [try]:
    the exit status of the process and its final state. *)
Definition main_handlers (r : res unit * state) : status * state :=
  match r with
  | (Ok _, s) => (Exit 0, s)
  | (Raise KeyboardInterrupt, s) =>
    (Exit 0, snd (logging_info u"Interrumpido por el usuario. Saliendo..." s))
  | (Raise e, s) =>
    (Exit 1, snd (logging_error (u"Error inesperado: " ++ exn_str e) s))
  end.

(** The main block. *)
Definition main (inputs : list input_event) (s : state) : status * state :=
  main_handlers (main_body inputs s).

(** The interactive part of the main block, entered with the index handle
    that start-up produced. *)
Definition interactive (dense_index : index) (inputs : list input_event)
    (s : state) : status * state :=
  main_handlers (main_loop dense_index inputs s).

End Script.
End VectorDb.

(** * TP-2/chat_groq.py *)

Module ChatGroq.
Section Script.
Context {F : PyFloat} {S : Services}.

Definition INDEX_NAME : str := u"cv-index".
Definition NAMESPACE : str := u"cv-namespace".
Definition MODEL_NAME : str := u"meta-llama/llama-4-scout-17b-16e-instruct".

(** [ChatSession.add_message] *)
Definition add_message (r : role) (content : str) : M unit :=
  messages_append r content.

(** [chunk.choices[0].delta.content or ""], unguarded *)
Definition chunk_delta (c : chunk) : res str :=
  match chunk_choices c with
  | [] => Raise IndexError
  | ch :: _ =>
    match sc_delta ch with
    | None => Raise (AttributeError u"'Choice' object has no attribute 'delta'")
    | Some NoAttr =>
      Raise (AttributeError u"'ChoiceDelta' object has no attribute 'content'")
    | Some IsNone => Ok []
    | Some (Content s) => Ok s
    end
  end.

(** The [for chunk in completion] loop of [chat]; [response] is the text
    accumulated so far. *)
Fixpoint consume (chunks : list chunk) (failure : option exn) (response : str) : M str :=
  match chunks with
  | [] =>
    match failure with
    | Some e => raise e
    | None => ret response
    end
  | c :: rest =>
    delta <- lift (chunk_delta c) ;;
    write delta ;;
    consume rest failure (response ++ delta)
  end.

(** The request of [chat] with its default parameters. *)
Definition chat_request (model : str) (messages : list message) : request :=
  {| req_model := model; req_messages := messages;
     req_temperature := QArith_base.Qmake 1 1;
     req_max_tokens := None;
     req_max_completion_tokens := Some 1024;
     req_top_p := Some (QArith_base.Qmake 1 1);
     req_stream := true; req_stop := None |}.

(** The message [chat] adds for the user. *)
Definition full_user_message (user_message : str) (context_docs : list str) : str :=
  user_message ++ nl ++ nl ++ u"Contexto: " ++ Str.join u" " context_docs.

(** [ChatSession.chat(user_message)] with the default parameters *)
Definition chat (dense_index : index) (model : str) (user_message : str) : M str :=
  context_docs <- VectorDb.search_similar dense_index user_message 3
                    VectorDb.NAMESPACE false ;;
  add_message user (full_user_message user_message context_docs) ;;
  messages <- get_messages ;;
  let req := chat_request model messages in
  completion <- remote (CallCompletion req) (completions_create_stream req) ;;
  response <- consume (stream_chunks completion) (stream_failure completion) [] ;;
  add_message assistant response ;;
  print [] ;;
  ret response.

(** The [while True] loop of the main block. *)
Fixpoint main_loop (dense_index : index) (inputs : list input_event) : M unit :=
  write u"Tú: " ;;
  match inputs with
  | [] => raise EOFError
  | CtrlC :: _ => raise KeyboardInterrupt
  | Line user_input :: rest =>
    if str_in (Str.lower user_input) [u"exit"; u"quit"] then ret tt
    else
      chat dense_index MODEL_NAME user_input ;;
      main_loop dense_index rest
  end.

(** The handlers of the main block; [finally: sys.exit(0)] gives the exit
    status on every path. *)
Definition main_handlers (r : res unit * state) : status * state :=
  match r with
  | (Ok _, s) => (Exit 0, s)
  | (Raise KeyboardInterrupt, s) =>
    (Exit 0, snd (print (nl ++ nl ++ u"Nos vemos la proxima.") s))
  | (Raise e, s) =>
    (Exit 0, snd (print (nl ++ u"Se ha producido un error inesperado: " ++ exn_str e) s))
  end.

(** [ChatSession.__init__]: the history starts empty; a failure to open the
    index ends the process with status 1. The two lines of its [try] are one
    remote step here, the opening of the index. *)
Definition ChatSession_init : M index :=
  messages_init ;;
  remote (CallIndex INDEX_NAME) (open_index INDEX_NAME).

(** The main block, after the session object exists. *)
Definition interactive (dense_index : index) (inputs : list input_event)
    (s : state) : status * state :=
  main_handlers
    ((print u"Iniciando sesión de chat. Escribe 'exit' o 'quit' para salir." ;;
      main_loop dense_index inputs) s).

(** The main block (lines 98 to 112), from the state [s] that the
    module-level code before it has left. That code is not part of [main]:
    the imports (line 8 imports [vector_db], whose module code configures
    logging with a handler on [sys.stdout], builds its own Pinecone client
    and logs "API KEY detectada...") and the creation of [groq_client]
    (lines 16 to 20). What [main] adds to [st_out], [st_log] and [st_calls]
    is therefore what the main block itself prints, logs and calls. *)
Definition main (inputs : list input_event) (s : state) : status * state :=
  match ChatSession_init s with
  | (Ok dense_index, s1) => interactive dense_index inputs s1
  | (Raise e, s1) =>
    if is_Exception e then
      (Exit 1, snd (print_err (u"Error al conectar con Pinecone: " ++ exn_str e) s1))
    else (Interrupted, s1)
  end.

End Script.
End ChatGroq.

(** * TP-3/cv_agent.py *)

Module CvAgent.
Section Script.
Context {F : PyFloat} {S : Services}.

Definition MODEL_NAME : str := u"meta-llama/llama-4-scout-17b-16e-instruct".
Definition NAMESPACE : str := u"cv-namespace".

(** [float(hit.get("_score", 0.0))] *)
Definition score_of (h : hit) : res float :=
  match get_default (hit_score h) (ScoreNum float_zero) with
  | ScoreNum f => Ok f
  | ScoreNull =>
    Raise (TypeError u"float() argument must be a string or a real number, not 'NoneType'")
  end.

(** The dict [entry] built for one hit. *)
Definition make_entry (h : hit) : res entry :=
  let id := get_default (hit_id h) [] in
  match score_of h with
  | Raise e => Raise e
  | Ok f =>
    let fields := get_default (hit_fields h) {| category := None; chunk_text := None |} in
    Ok {| e_id := id;
          e_score := round2 f;
          e_category := get_default (category fields) [];
          e_text := get_default (chunk_text fields) [] |}
  end.

(** The [for hit in ...] loop of [search_similar]. [data] is the list built
    so far; it is returned with the exception that stopped the loop, if
    one did. *)
Fixpoint parse_hits (debug : bool) (hs : list hit) (data : list entry)
    : M (list entry * option exn) :=
  match hs with
  | [] => ret (data, None)
  | h :: rest =>
    match make_entry h with
    | Raise e => ret (data, Some e)
    | Ok en =>
      (if debug then log INFO (LogEntry en) else ret tt) ;;
      parse_hits debug rest (data ++ [en])
    end
  end.

(** [search_similar(index, text, top_k=3, namespace=NAMESPACE, debug=True)] *)
Definition search_similar (idx : index) (text : str) (top_k : nat)
    (namespace : str) (debug : bool) : M (list entry) :=
  r <- try_except
         (results <- remote (CallSearch namespace top_k text)
                       (index_search idx namespace top_k text) ;;
          ret (Some results))
         (fun e => logging_error (u"Error en index.search: " ++ exn_str e) ;;
                   ret None) ;;
  match r with
  | None => ret []
  | Some results =>
    match VectorDb.get_hits results with
    | Raise e =>
      logging_error (u"Error parseando resultados de Pinecone: " ++ exn_str e) ;;
      ret []
    | Ok hs =>
      out <- parse_hits debug hs [] ;;
      match snd out with
      | Some e =>
        if is_Exception e then
          logging_error (u"Error parseando resultados de Pinecone: " ++ exn_str e) ;;
          ret (fst out)
        else raise e
      | None => ret (fst out)
      end
    end
  end.

(** [cv_chunks]: a dict in insertion order. *)
Definition dict := list (str * list str).

(** [d[k] = v] *)
Fixpoint dict_set (k : str) (v : list str) (d : dict) : dict :=
  match d with
  | [] => [(k, v)]
  | (k', v') :: r =>
    if Str.eqb k k' then (k, v) :: r else (k', v') :: dict_set k v r
  end.

(** [k in d] *)
Definition dict_mem (k : str) (d : dict) : bool :=
  existsb (fun kv => Str.eqb k (fst kv)) d.

Definition dict_keys (d : dict) : list str := map fst d.

(** The [for idx in indexes] loop of [CVSelectorTool.run]. *)
Fixpoint collect_chunks (query : str) (indexes : list str) (cv_chunks : dict) : M dict :=
  match indexes with
  | [] => ret cv_chunks
  | idx :: rest =>
    logging_info (u"🔍 Buscando en índice: " ++ idx) ;;
    r <- try_except
           (i <- remote (CallIndex idx) (open_index idx) ;; ret (Some i))
           (fun e => logging_error (u"No se pudo abrir el índice '" ++ idx ++ u"': "
                                     ++ exn_str e) ;;
                     ret None) ;;
    match r with
    | None => collect_chunks query rest cv_chunks
    | Some i =>
      sleep ;;
      results <- search_similar i query 3 NAMESPACE false ;;
      let chunk_texts := map e_text (filter (fun c => Str.truthy (e_text c)) results) in
      let chunk_texts :=
        match chunk_texts with
        | [] => [u"(sin coincidencias relevantes)"]
        | _ => chunk_texts
        end in
      collect_chunks query rest (dict_set idx chunk_texts cv_chunks)
    end
  end.

(** The prompt assembled from [cv_chunks]. *)
Definition selector_prompt (cv_chunks : dict) : str :=
  fold_left
    (fun system_prompt kv =>
       let snippets := Str.join u" | " (firstn 3 (snd kv)) in
       system_prompt ++ u"- Índice: " ++ fst kv ++ nl
                     ++ u"  Contenido: " ++ snippets ++ nl)
    cv_chunks
    (u"Tienes estos índices con sus contenidos más relevantes:" ++ nl)
  ++ nl ++ u"Instrucción: Dada la consulta del usuario, responde SOLO con el NOMBRE EXACTO "
  ++ u"del índice más relevante. No incluyas texto adicional.".

(** [content.strip()], where [content] may be [None] *)
Definition strip_content (content : option str) : res str :=
  match content with
  | Some c => Ok (Str.strip c)
  | None => Raise (AttributeError u"'NoneType' object has no attribute 'strip'")
  end.

(** The answer read from [completion.choices[0]]. *)
Definition selected_of (choices : list choice) : res str :=
  match choices with
  | [] => Raise IndexError
  | ChoiceMessage content :: _ => strip_content content
  | ChoiceDelta content :: _ => strip_content content
  | ChoiceOther repr :: _ => Ok (Str.strip repr)
  end.

Definition selector_request (model_name : str) (cv_chunks : dict) (query : str) : request :=
  {| req_model := model_name;
     req_messages := [ {| msg_role := system; msg_content := selector_prompt cv_chunks |};
                       {| msg_role := user; msg_content := query |} ];
     req_temperature := QArith_base.Qmake 0 1;
     req_max_tokens := Some 50;
     req_max_completion_tokens := None;
     req_top_p := None;
     req_stream := false; req_stop := None |}.

(** [CVSelectorTool.run(query)] *)
Definition CVSelectorTool_run (model_name : str) (query : str) : M str :=
  r <- try_except
         (indexes <- remote CallListIndexes list_indexes ;; ret (Some indexes))
         (fun e => logging_error (u"No fue posible listar índices de Pinecone: "
                                   ++ exn_str e) ;;
                   ret None) ;;
  match r with
  | None => ret []
  | Some [] =>
    logging_warning u"No hay índices disponibles en Pinecone." ;;
    ret []
  | Some indexes =>
    cv_chunks <- collect_chunks query indexes [] ;;
    let req := selector_request model_name cv_chunks query in
    r <- try_except
           (completion <- remote (CallCompletion req) (completions_create req) ;;
            selected_idx <- lift (selected_of completion) ;;
            print (u"Indice Seleccionado: " ++ selected_idx) ;;
            ret (Some selected_idx))
           (fun e => logging_error (u"Error llamando al LLM para seleccionar índice: "
                                     ++ exn_str e) ;;
                     ret None) ;;
    match r with
    | None => ret []
    | Some selected_idx =>
      logging_info (u"✅ Índice seleccionado por el LLM: " ++ selected_idx) ;;
      ret (if dict_mem selected_idx cv_chunks then selected_idx else [])
    end
  end.

(** [CVRetrieverTool.run(index_name, query, top_k=5)] *)
Definition CVRetrieverTool_run (index_name : str) (query : str) (top_k : nat)
    : M (list entry) :=
  r <- try_except
         (i <- remote (CallIndex index_name) (open_index index_name) ;; ret (Some i))
         (fun e => logging_error (u"No se pudo abrir el índice '" ++ index_name ++ u"': "
                                   ++ exn_str e) ;;
                   ret None) ;;
  match r with
  | None => ret []
  | Some i => search_similar i query top_k NAMESPACE false
  end.

(** [getattr(chunk.choices[0].delta, "content", "") or ""] inside
    [try/except Exception: pass], starting from [delta = ""] *)
Definition safe_delta (c : chunk) : str :=
  match chunk_choices c with
  | [] => []
  | ch :: _ =>
    match sc_delta ch with
    | None => []
    | Some NoAttr => []
    | Some IsNone => []
    | Some (Content s) => s
    end
  end.

(** The [for chunk in completion] loop of [LLMResponderTool.run]. *)
Fixpoint consume (chunks : list chunk) (failure : option exn) (response : str) : M str :=
  match chunks with
  | [] =>
    match failure with
    | Some e => raise e
    | None => ret response
    end
  | c :: rest =>
    let delta := safe_delta c in
    if Str.truthy delta then
      write delta ;;
      consume rest failure (response ++ delta)
    else consume rest failure response
  end.

Definition APOLOGY : str := u"Ocurrió un error generando la respuesta.".

Definition responder_request (model : str) (messages : list message) : request :=
  {| req_model := model;
     req_messages := messages;
     req_temperature := QArith_base.Qmake 7 10;
     req_max_tokens := Some 1024;
     req_max_completion_tokens := None;
     req_top_p := None;
     req_stream := true; req_stop := None |}.

(** [LLMResponderTool.run(messages)] with the default temperature and
    token limit *)
Definition LLMResponderTool_run (model : str) (messages : list message) : M str :=
  let req := responder_request model messages in
  r <- try_except
         (completion <- remote (CallCompletion req) (completions_create_stream req) ;;
          ret (Some completion))
         (fun e => logging_error (u"Error llamando al LLM para responder: " ++ exn_str e) ;;
                   ret None) ;;
  match r with
  | None => ret APOLOGY
  | Some completion =>
    response <- consume (stream_chunks completion) (stream_failure completion) [] ;;
    print [] ;;
    ret response
  end.

Definition NO_CV : str := u"No encontré un CV relevante para tu consulta.".

Definition system_msg : str :=
  u"Eres un asistente que responde preguntas basándote EXCLUSIVAMENTE en el contexto provisto. "
  ++ u"Si el contexto no contiene la respuesta, reconoce la limitación y sugiere preguntar de otra forma.".

(** [context_snippets]: the first 300 characters of each non-empty text
    among the first five documents. *)
Definition context_snippets (context_docs : list entry) : list str :=
  map (fun doc => firstn 300 (e_text doc))
      (filter (fun doc => Str.truthy (e_text doc)) (firstn 5 context_docs)).

Definition context_blob (context_docs : list entry) : str :=
  match context_snippets context_docs with
  | [] => u"(sin contexto relevante)"
  | snippets => Str.join (nl ++ u"- ") snippets
  end.

Definition user_msg (user_message target_index : str) (context_docs : list entry) : str :=
  u"Consulta del usuario: " ++ user_message ++ nl ++ nl
  ++ u"Índice seleccionado: " ++ target_index ++ nl
  ++ u"Contexto (fragmentos):" ++ nl ++ u"- " ++ context_blob context_docs ++ nl ++ nl
  ++ u"Responde de forma concisa y útil.".

(** [CVChatAgent.chat(user_message)]; [model] is the constructor's argument. *)
Definition chat (model : str) (user_message : str) : M str :=
  target_index <- CVSelectorTool_run MODEL_NAME user_message ;;
  if negb (Str.truthy target_index) then
    logging_warning u"No se pudo identificar el CV en la base de datos." ;;
    ret NO_CV
  else
    context_docs <- CVRetrieverTool_run target_index user_message 3 ;;
    messages_append system system_msg ;;
    messages_append user (user_msg user_message target_index context_docs) ;;
    messages <- get_messages ;;
    response <- LLMResponderTool_run model messages ;;
    messages_append assistant response ;;
    ret response.

(** The [while True] loop of [main]. *)
Fixpoint main_loop (inputs : list input_event) : M unit :=
  write u"Tú: " ;;
  match inputs with
  | [] => raise EOFError
  | CtrlC :: _ => raise KeyboardInterrupt
  | Line l :: rest =>
    let user_input := Str.strip l in
    if str_in (Str.lower user_input) [u"exit"; u"quit"] then ret tt
    else if negb (Str.truthy user_input) then main_loop rest
    else
      print (nl ++ u"--- Respuesta ---") ;;
      chat MODEL_NAME user_input ;;
      print (nl ++ u"-----------------" ++ nl) ;;
      main_loop rest
  end.

(** [main()]: [finally: sys.exit(0)] gives the exit status on every path. *)
Definition main (inputs : list input_event) (s : state) : status * state :=
  match (messages_init ;;
         print (u"Agente de consulta de CVs iniciado. Escribe 'exit' para salir." ++ nl) ;;
         main_loop inputs) s with
  | (Raise KeyboardInterrupt, s') =>
    (Exit 0, snd (print (nl ++ nl ++ u"Cerrando agente...") s'))
  | (_, s') => (Exit 0, s')
  end.

End Script.
End CvAgent.

(** * Sequences of turns *)

Section Turns.
Context {F : PyFloat} {S : Services}.

(** Successive calls of [ChatSession.chat], as the main loop makes them: the
    sequence ends at the first call that raises. *)
Fixpoint session_turns (dense_index : index) (model : str) (qs : list str) : M unit :=
  match qs with
  | [] => ret tt
  | q :: rest =>
    ChatGroq.chat dense_index model q ;;
    session_turns dense_index model rest
  end.

(** Successive calls of [CVChatAgent.chat]. *)
Fixpoint agent_turns (model : str) (qs : list str) : M unit :=
  match qs with
  | [] => ret tt
  | q :: rest =>
    CvAgent.chat model q ;;
    agent_turns model rest
  end.

End Turns.

(** [pat] repeated [k] times. *)
Fixpoint cycle (pat : list role) (k : nat) : list role :=
  match k with
  | O => []
  | Datatypes.S k' => pat ++ cycle pat k'
  end.

(** The pattern "user, assistant, user, assistant, ..." *)
Fixpoint alternates_from (expect : role) (rs : list role) : bool :=
  match rs with
  | [] => true
  | r :: rest =>
    role_eqb r expect &&
    alternates_from (match expect with user => assistant | _ => user end) rest
  end.

(** At most one leading system message, then user and assistant in turn. *)
Definition alternating (rs : list role) : bool :=
  match rs with
  | system :: rest => alternates_from user rest
  | _ => alternates_from user rs
  end.

(** * A scripted instance of the interfaces

    Scores in hundredths, and services whose answers are given by a script
    indexed by the number of remote calls made so far. *)

Module Scripted.

Definition cents_str (c : N) : str :=
  let r := (c mod 100)%N in
  Str.of_nat (N.to_nat (c / 100)) ++ u"."
  ++ (if (r mod 10 =? 0)%N then Str.of_nat (N.to_nat (r / 10))
      else (if (r <? 10)%N then u"0" else []) ++ Str.of_nat (N.to_nat r)).

Definition Cents : PyFloat :=
  {| float := N; float_zero := 0%N; round2 := fun c => c;
     float_str := cents_str; round2_zero := eq_refl |}.

Record script := {
  on_list : nat -> res (list str);
  on_open : nat -> str -> res unit;
  on_search : nat -> str -> str -> res (@search_response Cents);
  on_complete : nat -> request -> res (list choice);
  on_stream : nat -> request -> res stream
}.

Definition services (sc : script) : @Services Cents :=
  {| world := nat;
     index := str;
     list_indexes := fun w => (on_list sc w, Datatypes.S w);
     open_index := fun name w =>
       (match on_open sc w name with Ok _ => Ok name | Raise e => Raise e end,
        Datatypes.S w);
     create_index_for_model := fun _ w => (Ok tt, Datatypes.S w);
     describe_index_stats := fun _ w => (Ok u"{}", Datatypes.S w);
     index_search := fun i _ _ text w => (on_search sc w i text, Datatypes.S w);
     upsert_records := fun _ _ _ w => (Ok tt, Datatypes.S w);
     read_and_chunk_sentences := fun _ _ _ w => (Ok [], Datatypes.S w);
     completions_create := fun r w => (on_complete sc w r, Datatypes.S w);
     completions_create_stream := fun r w => (on_stream sc w r, Datatypes.S w) |}.

Definition start (sc : script) : @state Cents (services sc) :=
  @Build_state Cents (services sc) 0 [] [] [] [] [].

Definition a_hit (id : str) (score : N) (cat text : option str) : @hit Cents :=
  {| hit_id := Some id; hit_score := Some (@ScoreNum Cents score);
     hit_fields := Some {| category := cat; chunk_text := text |} |}.

Definition found (hs : list (@hit Cents)) : res (@search_response Cents) :=
  Ok {| result := Some {| hits := Some hs |} |}.

Definition says (fragments : list str) : stream :=
  {| stream_chunks :=
       map (fun f => {| chunk_choices := [ {| sc_delta := Some (Content f) |} ] |})
           fragments;
     stream_failure := None |}.

(** One index, "cv-index", holding one chunk; the model picks it and
    streams a two-fragment answer. *)
Definition healthy : script :=
  {| on_list := fun _ => Ok [u"cv-index"];
     on_open := fun _ _ => Ok tt;
     on_search := fun _ _ _ =>
       found [a_hit u"cv_chunk_1" 87 (Some u"cv") (Some u"Ingeniero de datos.")];
     on_complete := fun _ _ => Ok [ChoiceMessage (Some u" cv-index ")];
     on_stream := fun _ _ => Ok (says [u"Es "; u"ingeniero."]) |}.

(** Pinecone lists no index at all. *)
Definition no_indexes : script :=
  {| on_list := fun _ => Ok [];
     on_open := on_open healthy;
     on_search := on_search healthy;
     on_complete := on_complete healthy;
     on_stream := on_stream healthy |}.

(** The model answers with a name that is not an index. *)
Definition confused : script :=
  {| on_list := on_list healthy;
     on_open := on_open healthy;
     on_search := on_search healthy;
     on_complete := fun _ _ => Ok [ChoiceMessage (Some u"otro-cv")];
     on_stream := on_stream healthy |}.

(** The completion service is down when a streamed answer is asked for. *)
Definition groq_down : script :=
  {| on_list := on_list healthy;
     on_open := on_open healthy;
     on_search := on_search healthy;
     on_complete := on_complete healthy;
     on_stream := fun _ _ => Raise (ServiceError u"503 Service Unavailable") |}.

(** The only hit of every search has no "category" key. *)
Definition no_category : script :=
  {| on_list := on_list healthy;
     on_open := on_open healthy;
     on_search := fun _ _ _ =>
       found [a_hit u"cv_chunk_1" 87 None (Some u"Ingeniero de datos.")];
     on_complete := on_complete healthy;
     on_stream := on_stream healthy |}.

(** A hit with no key at all. *)
Definition bare_hit : @hit Cents :=
  {| hit_id := None; hit_score := None; hit_fields := None |}.

(** A chunk of 304 characters: 300 times "a", then " FIN". *)
Definition long_text : str := repeat 97%N 300 ++ u" FIN".

(** Every search finds the long chunk. *)
Definition wordy : script :=
  {| on_list := on_list healthy;
     on_open := on_open healthy;
     on_search := fun _ _ _ => found [a_hit u"cv_chunk_1" 87 (Some u"cv") (Some long_text)];
     on_complete := on_complete healthy;
     on_stream := on_stream healthy |}.

(** Every search fails. *)
Definition pinecone_down : script :=
  {| on_list := on_list healthy;
     on_open := on_open healthy;
     on_search := fun _ _ _ => Raise (ServiceError u"503 Service Unavailable");
     on_complete := on_complete healthy;
     on_stream := on_stream healthy |}.

(** The listing of indexes fails. *)
Definition listing_down : script :=
  {| on_list := fun _ => Raise (ServiceError u"503 Service Unavailable");
     on_open := on_open healthy;
     on_search := on_search healthy;
     on_complete := on_complete healthy;
     on_stream := on_stream healthy |}.

(** The streamed answer breaks after its first fragment. *)
Definition stream_breaks : script :=
  {| on_list := on_list healthy;
     on_open := on_open healthy;
     on_search := on_search healthy;
     on_complete := on_complete healthy;
     on_stream := fun _ _ =>
       Ok {| stream_chunks := stream_chunks (says [u"Es "]);
             stream_failure := Some (ServiceError u"connection reset") |} |}.

(** A corpus file of three chunks over an empty vector store; the upsert
    of the record named [fails], if any, raises. *)
Definition corpus (fails : option str) : @Services Cents :=
  {| world := nat;
     index := str;
     list_indexes := fun w => (Ok [], Datatypes.S w);
     open_index := fun name w => (Ok name, Datatypes.S w);
     create_index_for_model := fun _ w => (Ok tt, Datatypes.S w);
     describe_index_stats := fun _ w => (Ok u"{}", Datatypes.S w);
     index_search := fun _ _ _ _ w => (found [], Datatypes.S w);
     upsert_records := fun _ _ records w =>
       (match records, fails with
        | [r], Some bad =>
          if Str.eqb (rec_id r) bad then Raise (ServiceError u"429 Too Many Requests")
          else Ok tt
        | _, _ => Ok tt
        end, Datatypes.S w);
     read_and_chunk_sentences := fun _ _ _ w =>
       (Ok [u"Uno. Dos. Tres."; u"Tres. Cuatro. Cinco."; u"Cinco. Seis."], Datatypes.S w);
     completions_create := fun _ w => (Ok [], Datatypes.S w);
     completions_create_stream := fun _ w => (Ok (says []), Datatypes.S w) |}.

Definition corpus_start (fails : option str) : @state Cents (corpus fails) :=
  @Build_state Cents (corpus fails) 0 [] [] [] [] [].

(** The search answers with a payload that has no "result" key. *)
Definition empty_payload : script :=
  {| on_list := on_list healthy;
     on_open := on_open healthy;
     on_search := fun _ _ _ => Ok {| result := None |};
     on_complete := on_complete healthy;
     on_stream := on_stream healthy |}.

(** The second of three hits has a null score. *)
Definition null_score : script :=
  {| on_list := on_list healthy;
     on_open := on_open healthy;
     on_search := fun _ _ _ =>
       found [a_hit u"cv_chunk_1" 87 (Some u"cv") (Some u"Ingeniero de datos.");
              {| hit_id := Some u"cv_chunk_2"; hit_score := Some (@ScoreNull Cents);
                 hit_fields := None |};
              a_hit u"cv_chunk_3" 80 (Some u"cv") (Some u"Vive en Rosario.")];
     on_complete := on_complete healthy;
     on_stream := on_stream healthy |}.

(** No index can be opened. *)
Definition index_gone : script :=
  {| on_list := on_list healthy;
     on_open := fun _ _ => Raise (ServiceError u"404 Not Found");
     on_search := on_search healthy;
     on_complete := on_complete healthy;
     on_stream := on_stream healthy |}.


(** The second chunk of the streamed answer has no choice. *)
Definition empty_chunk : script :=
  {| on_list := on_list healthy;
     on_open := on_open healthy;
     on_search := on_search healthy;
     on_complete := on_complete healthy;
     on_stream := fun _ _ =>
       Ok {| stream_chunks :=
               stream_chunks (says [u"Es "]) ++ {| chunk_choices := [] |}
               :: stream_chunks (says [u"ingeniero."]);
             stream_failure := None |} |}.

End Scripted.

(** * Predicates of the statements *)

Section Predicates.
Context {F : PyFloat} {S : Services}.

Definition msg (r : role) (c : str) : message := {| msg_role := r; msg_content := c |}.

(** The computation leaves the conversation history as it is. *)
Definition keeps_history {A} (c : M A) : Prop :=
  forall s, st_messages (snd (c s)) = st_messages s.

(** [e] was raised by the iterator of a streamed completion that the
    completion service returned. *)
Definition broken_stream (e : exn) : Prop :=
  exists req w strm w',
    completions_create_stream req w = (Ok strm, w') /\ stream_failure strm = Some e.

(** The exceptions that no [except Exception] of the agent takes: those
    that are not an [Exception], and those raised while a stream is read. *)
Definition escapes (e : exn) : Prop :=
  is_Exception e = false \/ broken_stream e.

(** Whatever the computation raises is such an exception. *)
Definition contains_failures {A} (c : M A) : Prop :=
  forall s e s', c s = (Raise e, s') -> escapes e.

End Predicates.

(** * Predicates on the trace of remote calls and on the console *)

Section TracePredicates.
Context {F : PyFloat} {S : Services}.

(** Every remote call that the computation adds to the trace satisfies [P]. *)
Definition emits (P : call -> Prop) {A} (c : M A) : Prop :=
  forall s, exists new, st_calls (snd (c s)) = st_calls s ++ new /\ Forall P new.

(** The computation prints nothing: no [print], no prompt of [input]. *)
Definition keeps_output {A} (c : M A) : Prop :=
  forall s, st_out (snd (c s)) = st_out s.

(** The calls that only read: listing, opening an index, searching, asking
    for a completion. *)
Definition reads_only (c : call) : Prop :=
  match c with
  | CallListIndexes | CallIndex _ | CallSearch _ _ _ | CallCompletion _ => True
  | _ => False
  end.

(** A search, if the call is one, is for [q] with [top_k = 3] in the
    namespace "cv-namespace". *)
Definition searches_for (q : str) (c : call) : Prop :=
  match c with
  | CallSearch ns k text => ns = u"cv-namespace" /\ k = 3 /\ text = q
  | _ => True
  end.

(** The call is no request to the language model. *)
Definition no_model_call (c : call) : Prop := is_model_call c = false.

(** The computation adds at most [n] requests to the language model. *)
Definition adds_model_calls (n : nat) {A} (c : M A) : Prop :=
  forall s,
    List.length (filter is_model_call (st_calls (snd (c s))))
    <= List.length (filter is_model_call (st_calls s)) + n.

(** The texts kept for one index in [cv_chunks]: at least one, none empty. *)
Definition well_formed_texts (kv : str * list str) : Prop :=
  snd kv <> [] /\ Forall (fun t => Str.truthy t = true) (snd kv).

(** The identifiers [load_data] gives to [n] chunks, counting from [i]. *)
Definition chunk_ids (i n : nat) : list str :=
  map (fun k => u"cv_chunk_" ++ Str.of_nat (k + 1)) (seq i n).

(** The call asks the language model for a streamed answer: it is the
    generation request of a chat turn (the selector's request is not
    streamed). *)
Definition is_generation (c : call) : bool :=
  match c with
  | CallCompletion r => req_stream r
  | _ => false
  end.

(** The number of generation requests in a trace. *)
Definition generations (calls : list call) : nat :=
  List.length (filter is_generation calls).

(** What [search_similar] of the base script prints for the lines it
    returns: each line and a newline with [debug] on, nothing with it off. *)
Definition shown (debug : bool) (lines : list str) : list str :=
  if debug then map (fun l => l ++ nl) lines else [].

(** The state [s] once [load_data] has read the corpus file into [n] chunks:
    the read is added to the trace and the two records to the log, and [w]
    is the world the read left. *)
Definition chunks_read (s : state) (w : world) (n : nat) : state :=
  {| st_world := w;
     st_calls := st_calls s ++ [CallReadChunks u"cv1.txt"];
     st_log := st_log s ++ [(INFO, LogText u"Leyendo y dividiendo CV...");
                            (INFO, LogText (Str.of_nat n ++ u" chunks generados."))];
     st_out := st_out s;
     st_err := st_err s;
     st_messages := st_messages s |}.

(** The state [s] after a search of the base script that returned: the two
    remote calls and the log record of the statistics are added, [w] is the
    world the search left and [printed] is what [print] and the prompt of
    [input] wrote meanwhile. *)
Definition searched (s : state) (w : world) (ns : str) (top_k : nat) (text stats : str)
    (printed : list str) : state :=
  {| st_world := w;
     st_calls := st_calls s ++ [CallDescribeStats; CallSearch ns top_k text];
     st_log := st_log s ++ [(INFO, LogText (u"Estadísticas del índice: " ++ stats))];
     st_out := st_out s ++ printed;
     st_err := st_err s;
     st_messages := st_messages s |}.

End TracePredicates.

(** * Properties *)

Arguments Str.lit : simpl never.

Example decode_accent : u"é" = [233%N]. Proof. reflexivity. Qed.
Example decode_emoji : u"🔍" = [128269%N]. Proof. reflexivity. Qed.
Example strip_ex : Str.strip u"  cv1
 " = u"cv1". Proof. reflexivity. Qed.
Example lower_ex : Str.lower u"ExIt" = u"exit". Proof. reflexivity. Qed.
Example join_ex : Str.join u" | " [u"a"; u"b"; u"c"] = u"a | b | c". Proof. reflexivity. Qed.
Example of_nat_ex : Str.of_nat 12 = u"12". Proof. reflexivity. Qed.
Example ljust_ex : Str.ljust 5 u"ab" = u"ab   ". Proof. reflexivity. Qed.

(** * Strings: facts *)

Lemma eqb_eq (a b : str) : Str.eqb a b = true <-> a = b.
Proof.
  unfold Str.eqb. destruct (list_eq_dec N.eq_dec a b); split; congruence.
Qed.

Lemma str_in_In (x : str) (l : list str) : str_in x l = true <-> In x l.
Proof.
  unfold str_in. rewrite existsb_exists. split.
  - intros [y [Hy He]]. apply eqb_eq in He. now subst.
  - intros H. exists x. split; [assumption | now apply eqb_eq].
Qed.

Lemma lstrip_blank (s : str) : Str.lstrip s = [] <-> forallb Str.is_space s = true.
Proof.
  induction s as [|c r IH]; simpl.
  - tauto.
  - destruct (Str.is_space c); simpl.
    + exact IH.
    + split; discriminate.
Qed.

Lemma lstrip_suffix (s : str) : exists p, s = p ++ Str.lstrip s /\ forallb Str.is_space p = true.
Proof.
  induction s as [|c r [p [Hp Hs]]]; simpl.
  - exists []. auto.
  - destruct (Str.is_space c) eqn:Hc.
    + exists (c :: p). simpl. rewrite Hc, Hs. split; [now f_equal | reflexivity].
    + exists []. auto.
Qed.

Lemma lstrip_head (s : str) :
  match Str.lstrip s with
  | [] => True
  | c :: _ => Str.is_space c = false
  end.
Proof.
  induction s as [|c r IH]; simpl; [exact I|].
  destruct (Str.is_space c) eqn:Hc; [exact IH | exact Hc].
Qed.

Lemma forallb_rev {A} (f : A -> bool) (l : list A) : forallb f (rev l) = forallb f l.
Proof.
  induction l as [|a l IH]; simpl; [reflexivity|].
  rewrite forallb_app, IH. simpl. rewrite andb_true_r. apply andb_comm.
Qed.

(** [s.strip()] is empty exactly when [s] is empty or all whitespace. *)
Lemma strip_blank (s : str) : Str.strip s = [] <-> forallb Str.is_space s = true.
Proof.
  unfold Str.strip, Str.rstrip. split.
  - intros H.
    assert (H1 : Str.lstrip (rev (Str.lstrip s)) = []).
    { apply (f_equal (@rev N)) in H. rewrite rev_involutive in H. exact H. }
    apply lstrip_blank in H1. rewrite forallb_rev in H1.
    pose proof (lstrip_head s) as Hh.
    destruct (Str.lstrip s) as [|c r] eqn:Hl.
    + now apply lstrip_blank.
    + simpl in H1. rewrite Hh in H1. discriminate.
  - intros H. apply lstrip_blank in H. rewrite H. reflexivity.
Qed.

Lemma truthy_false (s : str) : Str.truthy s = false <-> s = [].
Proof. destruct s; simpl; split; congruence. Qed.

Lemma firstn_le_length {A} (n : nat) (l : list A) : List.length (firstn n l) <= n.
Proof. rewrite length_firstn. lia. Qed.

(** * The monad: stepping lemmas *)

Section Reasoning.
Context {F : PyFloat} {S : Services}.

Lemma bind_Ok {A B} (c : M A) (k : A -> M B) s a s' :
  c s = (Ok a, s') -> bind c k s = k a s'.
Proof. intros H. unfold bind. now rewrite H. Qed.

Lemma bind_Raise {A B} (c : M A) (k : A -> M B) s e s' :
  c s = (Raise e, s') -> bind c k s = (Raise e, s').
Proof. intros H. unfold bind. now rewrite H. Qed.

(** ** Computations that leave the history alone *)

Lemma keeps_ret {A} (a : A) : keeps_history (ret a).
Proof. intros s. reflexivity. Qed.

Lemma keeps_raise {A} (e : exn) : keeps_history (@raise _ _ A e).
Proof. intros s. reflexivity. Qed.

Lemma keeps_lift {A} (r : res A) : keeps_history (lift r).
Proof. intros s. reflexivity. Qed.

Lemma keeps_remote {A} (c : call) (f : world -> res A * world) : keeps_history (remote c f).
Proof. intros s. unfold remote. destruct (f (st_world s)). reflexivity. Qed.

Lemma keeps_log (l : level) (a : log_arg) : keeps_history (log l a).
Proof. intros s. reflexivity. Qed.

Lemma keeps_write (t : str) : keeps_history (write t).
Proof. intros s. reflexivity. Qed.

Lemma keeps_bind {A B} (c : M A) (k : A -> M B) :
  keeps_history c -> (forall a, keeps_history (k a)) -> keeps_history (bind c k).
Proof.
  intros Hc Hk s. unfold bind. specialize (Hc s).
  destruct (c s) as [[a|e] s1]; simpl in *.
  - now rewrite Hk.
  - exact Hc.
Qed.

Lemma keeps_try {A} (body : M A) (handler : exn -> M A) :
  keeps_history body -> (forall e, keeps_history (handler e)) ->
  keeps_history (try_except body handler).
Proof.
  intros Hb Hh s. unfold try_except. specialize (Hb s).
  destruct (body s) as [[a|e] s1]; simpl in *.
  - exact Hb.
  - destruct (is_Exception e); simpl; [now rewrite Hh | exact Hb].
Qed.

End Reasoning.

Create HintDb history.
#[global] Hint Resolve keeps_ret keeps_raise keeps_lift keeps_remote keeps_log
  keeps_write : history.

(** Walking down a computation: [leaf] closes the primitive steps,
    [bind_lem] and [try_lem] split a sequence and a handler, and tests on
    data are split by cases. *)
Ltac walk leaf bind_lem try_lem :=
  repeat first
    [ solve [leaf]
    | simple apply try_lem; intros
    | simple apply bind_lem; [| intros ? ]
    | match goal with
      | |- _ (if ?b then _ else _) => destruct b eqn:?
      | |- _ (match ?x with _ => _ end) => destruct x eqn:?
      end ].

Ltac keeps := walk ltac:(auto 1 with history nocore) keeps_bind keeps_try.

(** * The tools never touch the history *)

Section ToolsKeepHistory.
Context {F : PyFloat} {S : Services}.

Lemma keeps_print (t : str) : keeps_history (print t).
Proof. unfold print. keeps. Qed.

Lemma keeps_logging_info (t : str) : keeps_history (logging_info t).
Proof. unfold logging_info. keeps. Qed.

Lemma keeps_logging_warning (t : str) : keeps_history (logging_warning t).
Proof. unfold logging_warning. keeps. Qed.

Lemma keeps_logging_error (t : str) : keeps_history (logging_error t).
Proof. unfold logging_error. keeps. Qed.

Lemma keeps_sleep : keeps_history sleep.
Proof. unfold sleep. keeps. Qed.

Hint Resolve keeps_print keeps_logging_info keeps_logging_warning
  keeps_logging_error keeps_sleep : history.

Lemma keeps_format_hits debug hs data : keeps_history (VectorDb.format_hits debug hs data).
Proof.
  revert data. induction hs as [|h rest IH]; intros data; simpl; keeps.
Qed.
Hint Resolve keeps_format_hits : history.

Lemma keeps_base_search idx text top_k ns debug :
  keeps_history (VectorDb.search_similar idx text top_k ns debug).
Proof.
  unfold VectorDb.search_similar. keeps.
Qed.
Hint Resolve keeps_base_search : history.

Lemma keeps_base_consume chunks failure response :
  keeps_history (ChatGroq.consume chunks failure response).
Proof.
  revert response. induction chunks as [|c rest IH]; intros response; simpl; keeps.
Qed.
Hint Resolve keeps_base_consume : history.

Lemma keeps_parse_hits debug hs data : keeps_history (CvAgent.parse_hits debug hs data).
Proof.
  revert data. induction hs as [|h rest IH]; intros data; simpl; keeps.
Qed.
Hint Resolve keeps_parse_hits : history.

Lemma keeps_agent_search idx text top_k ns debug :
  keeps_history (CvAgent.search_similar idx text top_k ns debug).
Proof.
  unfold CvAgent.search_similar. keeps.
Qed.
Hint Resolve keeps_agent_search : history.

Lemma keeps_collect_chunks query indexes cv_chunks :
  keeps_history (CvAgent.collect_chunks query indexes cv_chunks).
Proof.
  revert cv_chunks. induction indexes as [|idx rest IH]; intros cv_chunks; simpl; keeps.
Qed.
Hint Resolve keeps_collect_chunks : history.

Lemma keeps_selector model query : keeps_history (CvAgent.CVSelectorTool_run model query).
Proof.
  unfold CvAgent.CVSelectorTool_run. keeps.
Qed.
Hint Resolve keeps_selector : history.

Lemma keeps_retriever name query top_k :
  keeps_history (CvAgent.CVRetrieverTool_run name query top_k).
Proof.
  unfold CvAgent.CVRetrieverTool_run. keeps.
Qed.
Hint Resolve keeps_retriever : history.

Lemma keeps_agent_consume chunks failure response :
  keeps_history (CvAgent.consume chunks failure response).
Proof.
  revert response. induction chunks as [|c rest IH]; intros response; simpl; keeps.
Qed.
Hint Resolve keeps_agent_consume : history.

Lemma keeps_responder model messages :
  keeps_history (CvAgent.LLMResponderTool_run model messages).
Proof.
  unfold CvAgent.LLMResponderTool_run. keeps.
Qed.
Hint Resolve keeps_responder : history.

End ToolsKeepHistory.

(** * The remote calls a computation adds *)

Section Emits.
Context {F : PyFloat} {S : Services}.
Variable P : call -> Prop.

Lemma emits_ret {A} (a : A) : emits P (ret a).
Proof. intros s. exists []. simpl. now rewrite app_nil_r. Qed.

Lemma emits_raise {A} (e : exn) : emits P (@raise _ _ A e).
Proof. intros s. exists []. simpl. now rewrite app_nil_r. Qed.

Lemma emits_lift {A} (r : res A) : emits P (lift r).
Proof. intros s. exists []. simpl. now rewrite app_nil_r. Qed.

Lemma emits_log (l : level) (a : log_arg) : emits P (log l a).
Proof. intros s. exists []. simpl. now rewrite app_nil_r. Qed.

Lemma emits_write (t : str) : emits P (write t).
Proof. intros s. exists []. simpl. now rewrite app_nil_r. Qed.

Lemma emits_append (r : role) (c : str) : emits P (messages_append r c).
Proof. intros s. exists []. simpl. now rewrite app_nil_r. Qed.

Lemma emits_get_messages : emits P get_messages.
Proof. intros s. exists []. simpl. now rewrite app_nil_r. Qed.

Lemma emits_remote {A} (c : call) (f : world -> res A * world) :
  P c -> emits P (remote c f).
Proof.
  intros Hc s. exists [c]. unfold remote. destruct (f (st_world s)). simpl.
  split; [reflexivity | now repeat constructor].
Qed.

Lemma emits_bind {A B} (c : M A) (k : A -> M B) :
  emits P c -> (forall a, emits P (k a)) -> emits P (bind c k).
Proof.
  intros Hc Hk s. unfold bind. destruct (Hc s) as (n1 & E1 & F1).
  destruct (c s) as [[a|e] s1]; simpl in *.
  - destruct (Hk a s1) as (n2 & E2 & F2). exists (n1 ++ n2).
    rewrite E2, E1, app_assoc. split; [reflexivity | now apply Forall_app].
  - now exists n1.
Qed.

Lemma emits_try {A} (body : M A) (handler : exn -> M A) :
  emits P body -> (forall e, emits P (handler e)) -> emits P (try_except body handler).
Proof.
  intros Hb Hh s. unfold try_except. destruct (Hb s) as (n1 & E1 & F1).
  destruct (body s) as [[a|e] s1]; simpl in *; [now exists n1|].
  destruct (is_Exception e); [| now exists n1].
  destruct (Hh e s1) as (n2 & E2 & F2). exists (n1 ++ n2).
  rewrite E2, E1, app_assoc. split; [reflexivity | now apply Forall_app].
Qed.

End Emits.

Ltac emit :=
  walk ltac:(auto 3 using emits_ret, emits_raise, emits_lift, emits_log, emits_write,
               emits_append, emits_get_messages, emits_remote with nocore)
    uconstr:(emits_bind) uconstr:(emits_try).

Section AgentCalls.
Context {F : PyFloat} {S : Services}.
Variable P : call -> Prop.
Variable q : str.
Hypothesis P_list : P CallListIndexes.
Hypothesis P_index : forall name, P (CallIndex name).
Hypothesis P_search : P (CallSearch CvAgent.NAMESPACE 3 q).

Lemma emits_print (t : str) : emits P (print t).
Proof. unfold print. emit. Qed.
Lemma emits_logging_info (t : str) : emits P (logging_info t).
Proof. unfold logging_info. emit. Qed.
Lemma emits_logging_warning (t : str) : emits P (logging_warning t).
Proof. unfold logging_warning. emit. Qed.
Lemma emits_logging_error (t : str) : emits P (logging_error t).
Proof. unfold logging_error. emit. Qed.
Lemma emits_sleep : emits P sleep.
Proof. unfold sleep. emit. Qed.

Lemma emits_parse_hits debug hs data : emits P (CvAgent.parse_hits debug hs data).
Proof. revert data. induction hs as [|h rest IH]; intros data; simpl; emit. Qed.

Lemma emits_agent_search idx debug :
  emits P (CvAgent.search_similar idx q 3 CvAgent.NAMESPACE debug).
Proof.
  pose proof emits_logging_error. pose proof emits_parse_hits.
  unfold CvAgent.search_similar. emit.
Qed.

Lemma emits_collect_chunks indexes cv_chunks :
  emits P (CvAgent.collect_chunks q indexes cv_chunks).
Proof.
  pose proof emits_logging_error. pose proof emits_logging_info.
  pose proof emits_sleep. pose proof emits_agent_search.
  revert cv_chunks. induction indexes as [|idx rest IH]; intros cv_chunks; simpl; emit.
Qed.

Lemma emits_retriever name : emits P (CvAgent.CVRetrieverTool_run name q 3).
Proof.
  pose proof emits_logging_error. pose proof emits_agent_search.
  unfold CvAgent.CVRetrieverTool_run. emit.
Qed.

Lemma emits_agent_consume chunks failure response :
  emits P (CvAgent.consume chunks failure response).
Proof.
  revert response. induction chunks as [|c rest IH]; intros response; simpl; emit.
Qed.

End AgentCalls.

Section ToolsCalls.
Context {F : PyFloat} {S : Services}.

Lemma emits_selector (P : call -> Prop) (model q : str) :
  P CallListIndexes -> (forall name, P (CallIndex name)) ->
  P (CallSearch CvAgent.NAMESPACE 3 q) ->
  (forall cv_chunks, P (CallCompletion (CvAgent.selector_request model cv_chunks q))) ->
  emits P (CvAgent.CVSelectorTool_run model q).
Proof.
  intros H1 H2 H3 H4.
  pose proof (emits_logging_error P). pose proof (emits_logging_info P).
  pose proof (emits_logging_warning P). pose proof (emits_print P).
  pose proof (@emits_collect_chunks _ _ P q H2 H3).
  unfold CvAgent.CVSelectorTool_run. emit.
Qed.

Lemma emits_responder (P : call -> Prop) (model : str) (messages : list message) :
  (forall r, P (CallCompletion r)) ->
  emits P (CvAgent.LLMResponderTool_run model messages).
Proof.
  intros H4.
  pose proof (emits_logging_error P). pose proof (emits_print P).
  pose proof (emits_agent_consume P).
  unfold CvAgent.LLMResponderTool_run. emit.
Qed.

End ToolsCalls.

(** * The base script's search, step by step *)

Section BaseCalls.
Context {F : PyFloat} {S : Services}.

Lemma emits_format_hits (P : call -> Prop) debug hs data :
  emits P (VectorDb.format_hits debug hs data).
Proof.
  pose proof (emits_print P).
  revert data. induction hs as [|h rest IH]; intros data; simpl; emit.
Qed.

Lemma emits_base_search (P : call -> Prop) idx text top_k ns debug :
  P CallDescribeStats -> P (CallSearch ns top_k text) ->
  emits P (VectorDb.search_similar idx text top_k ns debug).
Proof.
  intros H1 H2.
  pose proof (emits_logging_info P). pose proof (emits_format_hits P debug).
  unfold VectorDb.search_similar. emit.
Qed.

Lemma emits_search_loop (P : call -> Prop) idx inputs :
  P CallDescribeStats -> (forall text, P (CallSearch VectorDb.NAMESPACE 3 text)) ->
  emits P (VectorDb.main_loop idx inputs).
Proof.
  intros H1 H2.
  pose proof (emits_logging_info P).
  pose proof (fun text => @emits_base_search P idx text 3 VectorDb.NAMESPACE true H1 (H2 text)).
  induction inputs as [|i rest IH]; cbn [VectorDb.main_loop]; emit.
Qed.

Lemma silent_format_hits debug hs data (s : state) :
  st_calls (snd (VectorDb.format_hits debug hs data s)) = st_calls s.
Proof.
  destruct (@emits_format_hits (fun _ => False) debug hs data s) as (new & E & Hn).
  destruct new as [|c new]; [now rewrite app_nil_r in E | inversion Hn; contradiction].
Qed.

(** The remote calls of one search of the base script: the index
    statistics, then the search when the statistics came back. *)
Lemma base_search_trace (idx : index) (text : str) (top_k : nat) (ns : str) (debug : bool)
    (s : state) :
  st_calls (snd (VectorDb.search_similar idx text top_k ns debug s))
  = st_calls s
    ++ CallDescribeStats
    :: match fst (describe_index_stats idx (st_world s)) with
       | Ok _ => [CallSearch ns top_k text]
       | Raise _ => []
       end.
Proof.
  destruct (VectorDb.search_similar idx text top_k ns debug s) as [r s'] eqn:E.
  unfold VectorDb.search_similar in E.
  unfold bind at 1 in E. unfold remote at 1 in E.
  destruct (describe_index_stats idx (st_world s)) as [[stats|e] w1];
    cbv iota beta in E; [| now injection E as <- <-].
  unfold bind at 1 in E. unfold logging_info at 1, log at 1 in E. cbv iota beta in E.
  unfold bind at 1 in E. unfold remote at 1 in E. simpl st_world in E.
  destruct (index_search idx ns top_k text w1) as [[results|e] w2]; cbv iota beta in E.
  - unfold bind at 1 in E. unfold lift at 1 in E.
    destruct (VectorDb.get_hits results) as [hs|e].
    + match type of E with
      | VectorDb.format_hits debug hs [] ?st = _ =>
        pose proof (silent_format_hits debug hs [] st) as Hc
      end.
      rewrite E in Hc. simpl in Hc. simpl. rewrite Hc, <- app_assoc. reflexivity.
    + injection E as <- <-. simpl. now rewrite <- app_assoc.
  - injection E as <- <-. simpl. now rewrite <- app_assoc.
Qed.

(** The loop of [search_similar] on hits that all format: the lines are
    appended to [data] in order, and printed when [debug] is on. *)
Lemma format_hits_exact (debug : bool) (hs : list hit) (lines : list str) :
  Forall2 (fun h l => VectorDb.format_hit h = Ok l) hs lines ->
  forall (data : list str) (s : state),
    VectorDb.format_hits debug hs data s
    = (Ok (data ++ lines),
       {| st_world := st_world s; st_calls := st_calls s; st_log := st_log s;
          st_out := st_out s ++ shown debug lines;
          st_err := st_err s; st_messages := st_messages s |}).
Proof.
  induction 1 as [|h l hs lines Hh _ IH]; intros data s.
  - destruct s, debug; simpl; now rewrite !app_nil_r.
  - cbn [VectorDb.format_hits]. unfold bind at 1, lift. rewrite Hh.
    unfold bind at 1. destruct debug.
    + unfold print, write. cbv iota beta. rewrite IH. simpl.
      now rewrite <- !app_assoc.
    + unfold ret. cbv iota beta. rewrite IH. simpl. now rewrite <- !app_assoc.
Qed.

(** A search of the base script whose two remote calls returned and whose
    hits all format. *)
Lemma base_search_exact (idx : index) (text : str) (top_k : nat) (ns : str) (debug : bool)
    (s : state) (stats : str) (w1 w2 : world) (results : search_response)
    (hs : list hit) (lines : list str) :
  describe_index_stats idx (st_world s) = (Ok stats, w1) ->
  index_search idx ns top_k text w1 = (Ok results, w2) ->
  VectorDb.get_hits results = Ok hs ->
  Forall2 (fun h l => VectorDb.format_hit h = Ok l) hs lines ->
  VectorDb.search_similar idx text top_k ns debug s
  = (Ok lines, searched s w2 ns top_k text stats (shown debug lines)).
Proof.
  intros H1 H2 H3 H4. unfold VectorDb.search_similar.
  unfold bind at 1. unfold remote at 1. rewrite H1. cbv iota beta.
  unfold bind at 1. unfold logging_info at 1, log at 1. cbv iota beta.
  unfold bind at 1. unfold remote at 1. cbn [st_world]. rewrite H2. cbv iota beta.
  unfold bind at 1. unfold lift at 1. rewrite H3.
  rewrite (format_hits_exact debug H4). unfold searched. simpl.
  now rewrite <- !app_assoc.
Qed.

End BaseCalls.

(** * The responder, step by step *)

Section Responder.
Context {F : PyFloat} {S : Services}.

Lemma concat_truthy (l : list str) : List.concat (filter Str.truthy l) = List.concat l.
Proof.
  induction l as [|a l IH]; simpl; [reflexivity|].
  destruct a as [|c a]; simpl; [exact IH | now rewrite IH].
Qed.

(** The loop of the responder, outcome and state: it writes the non-empty
    fragments in order and changes nothing else. *)
Lemma agent_consume_exact (chunks : list chunk) (failure : option exn) :
  forall (response : str) (s : state),
    CvAgent.consume chunks failure response s
    = (match failure with
       | None => Ok (response ++ List.concat (map CvAgent.safe_delta chunks))
       | Some e => Raise e
       end,
       {| st_world := st_world s; st_calls := st_calls s; st_log := st_log s;
          st_out := st_out s ++ filter Str.truthy (map CvAgent.safe_delta chunks);
          st_err := st_err s; st_messages := st_messages s |}).
Proof.
  induction chunks as [|c rest IH]; intros response s.
  - destruct s, failure; simpl; now rewrite !app_nil_r.
  - cbn [CvAgent.consume map filter]. cbv zeta.
    destruct (CvAgent.safe_delta c) as [|a d] eqn:Ed.
    + cbn [Str.truthy]. rewrite IH. reflexivity.
    + cbn [Str.truthy]. unfold bind at 1, write. cbv iota beta. rewrite IH. simpl.
      rewrite <- !app_assoc. reflexivity.
Qed.

(** A responder run whose request returned a stream. *)
Lemma responder_streams (model : str) (messages : list message) (s : state)
    (strm : stream) (w1 : world) :
  completions_create_stream (CvAgent.responder_request model messages) (st_world s)
  = (Ok strm, w1) ->
  CvAgent.LLMResponderTool_run model messages s
  = (match stream_failure strm with
     | None => Ok (List.concat (map CvAgent.safe_delta (stream_chunks strm)))
     | Some e => Raise e
     end,
     {| st_world := w1;
        st_calls := st_calls s ++ [CallCompletion (CvAgent.responder_request model messages)];
        st_log := st_log s;
        st_out := st_out s
                  ++ filter Str.truthy (map CvAgent.safe_delta (stream_chunks strm))
                  ++ match stream_failure strm with
                     | None => [nl]
                     | Some _ => []
                     end;
        st_err := st_err s; st_messages := st_messages s |}).
Proof.
  intros H. unfold CvAgent.LLMResponderTool_run. cbv zeta.
  unfold bind at 1. unfold try_except. unfold bind at 1.
  unfold remote. rewrite H. cbv iota beta. unfold ret at 1. cbv iota beta.
  unfold bind at 1. rewrite agent_consume_exact.
  destruct (stream_failure strm).
  - simpl. now rewrite app_nil_r.
  - unfold bind, print, write, ret. simpl. now rewrite <- app_assoc.
Qed.

(** A responder run whose request raised an [Exception]. *)
Lemma responder_apologises (model : str) (messages : list message) (s : state)
    (e : exn) (w1 : world) :
  completions_create_stream (CvAgent.responder_request model messages) (st_world s)
  = (Raise e, w1) ->
  is_Exception e = true ->
  CvAgent.LLMResponderTool_run model messages s
  = (Ok CvAgent.APOLOGY,
     {| st_world := w1;
        st_calls := st_calls s ++ [CallCompletion (CvAgent.responder_request model messages)];
        st_log := st_log s
                  ++ [(ERROR, LogText (u"Error llamando al LLM para responder: "
                                       ++ exn_str e))];
        st_out := st_out s; st_err := st_err s; st_messages := st_messages s |}).
Proof.
  intros H He. unfold CvAgent.LLMResponderTool_run. cbv zeta.
  unfold bind at 1. unfold try_except. unfold bind at 1.
  unfold remote. rewrite H, He. reflexivity.
Qed.

Lemma responder_trace (model : str) (messages : list message) (s : state) :
  st_calls (snd (CvAgent.LLMResponderTool_run model messages s))
  = st_calls s ++ [CallCompletion (CvAgent.responder_request model messages)].
Proof.
  destruct (completions_create_stream (CvAgent.responder_request model messages)
              (st_world s)) as [[strm|e] w1] eqn:H.
  - now rewrite (responder_streams _ _ _ H).
  - destruct (is_Exception e) eqn:He.
    + now rewrite (responder_apologises _ _ _ H He).
    + unfold CvAgent.LLMResponderTool_run. cbv zeta.
      unfold bind at 1. unfold try_except. unfold bind at 1.
      unfold remote. rewrite H, He. reflexivity.
Qed.

(** The loop of the base session makes no remote call. *)
Lemma base_consume_trace (chunks : list chunk) (failure : option exn) :
  forall (response : str) (s : state),
    st_calls (snd (ChatGroq.consume chunks failure response s)) = st_calls s.
Proof.
  induction chunks as [|c rest IH]; intros response s; simpl.
  - now destruct failure.
  - unfold bind at 1, lift. destruct (ChatGroq.chunk_delta c) as [d|e]; [| reflexivity].
    unfold bind, write. simpl. now rewrite IH.
Qed.

(** What a turn of the agent that reaches generation has done when the
    responder is called. *)
Lemma agent_turn_reaches_generation (model q : str) (s s1 s2 : state) (idx : str)
    (docs : list entry) :
  CvAgent.CVSelectorTool_run CvAgent.MODEL_NAME q s = (Ok idx, s1) ->
  idx <> [] ->
  CvAgent.CVRetrieverTool_run idx q 3 s1 = (Ok docs, s2) ->
  CvAgent.chat model q s
  = (response <- CvAgent.LLMResponderTool_run model
                   (st_messages s ++ [msg system CvAgent.system_msg;
                                      msg user (CvAgent.user_msg q idx docs)]) ;;
     messages_append assistant response ;;
     ret response)
      {| st_world := st_world s2; st_calls := st_calls s2; st_log := st_log s2;
         st_out := st_out s2; st_err := st_err s2;
         st_messages := st_messages s ++ [msg system CvAgent.system_msg;
                                          msg user (CvAgent.user_msg q idx docs)] |}.
Proof.
  intros Hsel Hidx Hret.
  pose proof (keeps_selector CvAgent.MODEL_NAME q s) as K1. rewrite Hsel in K1.
  pose proof (keeps_retriever idx q 3 s1) as K2. rewrite Hret in K2.
  simpl in K1, K2.
  unfold CvAgent.chat. rewrite (bind_Ok _ _ _ Hsel).
  destruct idx as [|c0 idx']; [congruence|].
  change (negb (Str.truthy (c0 :: idx'))) with false. cbv iota.
  rewrite (bind_Ok _ _ _ Hret).
  unfold bind at 1. unfold messages_append at 1. cbv iota beta.
  unfold bind at 1. unfold messages_append at 1. cbv iota beta.
  unfold bind at 1. unfold get_messages at 1. cbv iota beta.
  simpl st_messages. rewrite K2, K1, <- app_assoc. reflexivity.
Qed.

End Responder.

(** * One turn: what it appends and how many generation requests it makes *)

Section TurnOutcome.
Context {F : PyFloat} {S : Services}.

Lemma generations_app (a b : list call) : generations (a ++ b) = generations a + generations b.
Proof. unfold generations. now rewrite filter_app, length_app. Qed.

Lemma generations_kept {A} (c : M A) :
  emits (fun x => is_generation x = false) c ->
  forall s, generations (st_calls (snd (c s))) = generations (st_calls s).
Proof.
  intros H s. destruct (H s) as (new & E & Hn). rewrite E, generations_app.
  assert (Hf : generations new = 0).
  { clear E. unfold generations.
    induction Hn as [|x l Hx _ IH]; simpl; [reflexivity|]. now rewrite Hx. }
  lia.
Qed.

Lemma generation_requests (model : str) (messages : list message) :
  generations [CallCompletion (CvAgent.responder_request model messages)] = 1
  /\ generations [CallCompletion (ChatGroq.chat_request model messages)] = 1.
Proof. split; reflexivity. Qed.

Lemma selector_generations (model q : str) (s : state) :
  generations (st_calls (snd (CvAgent.CVSelectorTool_run model q s)))
  = generations (st_calls s).
Proof.
  apply generations_kept. apply emits_selector; intros; reflexivity.
Qed.

Lemma retriever_generations (name q : str) (s : state) :
  generations (st_calls (snd (CvAgent.CVRetrieverTool_run name q 3 s)))
  = generations (st_calls s).
Proof.
  apply generations_kept. apply emits_retriever; intros; reflexivity.
Qed.

Lemma base_search_generations idx text top_k ns debug (s : state) :
  generations (st_calls (snd (VectorDb.search_similar idx text top_k ns debug s)))
  = generations (st_calls s).
Proof.
  apply generations_kept. apply emits_base_search; reflexivity.
Qed.

(** A turn of the agent that reaches generation: the system and user
    messages are appended, then the assistant message when the responder
    returns; the turn makes one generation request. *)
Lemma agent_turn_appends (model q : str) (s s1 s2 : state) (idx : str) (docs : list entry) :
  CvAgent.CVSelectorTool_run CvAgent.MODEL_NAME q s = (Ok idx, s1) ->
  idx <> [] ->
  CvAgent.CVRetrieverTool_run idx q 3 s1 = (Ok docs, s2) ->
  st_messages (snd (CvAgent.chat model q s))
  = st_messages s
    ++ [msg system CvAgent.system_msg; msg user (CvAgent.user_msg q idx docs)]
    ++ match fst (CvAgent.chat model q s) with
       | Ok response => [msg assistant response]
       | Raise _ => []
       end
  /\ generations (st_calls (snd (CvAgent.chat model q s)))
     = Datatypes.S (generations (st_calls s)).
Proof.
  intros Hsel Hidx Hret.
  pose proof (selector_generations CvAgent.MODEL_NAME q s) as G1. rewrite Hsel in G1.
  pose proof (retriever_generations idx q s1) as G2. rewrite Hret in G2.
  simpl in G1, G2.
  destruct (CvAgent.chat model q s) as [res s'] eqn:E.
  rewrite (@agent_turn_reaches_generation _ _ model q s s1 s2 idx docs Hsel Hidx Hret) in E.
  unfold bind at 1 in E.
  match type of E with
  | context [CvAgent.LLMResponderTool_run model ?m ?st] =>
    pose proof (keeps_responder model m st) as K3;
    pose proof (responder_trace model m st) as T3;
    destruct (CvAgent.LLMResponderTool_run model m st) as [[response|e] s3]
  end; simpl in K3, T3.
  - unfold bind, messages_append, ret in E. simpl in E. injection E as <- <-. simpl.
    rewrite K3, T3, generations_app, G2, G1, <- app_assoc.
    rewrite (proj1 (generation_requests _ _)). split; [reflexivity | lia].
  - injection E as <- <-. simpl. rewrite K3, T3, generations_app, G2, G1.
    rewrite (proj1 (generation_requests _ _)). split; [reflexivity | lia].
Qed.

(** One turn of the agent, in every case. *)
Lemma agent_turn_outcome (model q : str) (s : state) :
  (st_messages (snd (CvAgent.chat model q s)) = st_messages s
   /\ generations (st_calls (snd (CvAgent.chat model q s))) = generations (st_calls s))
  \/ (exists c,
        st_messages (snd (CvAgent.chat model q s))
        = st_messages s
          ++ [msg system CvAgent.system_msg; msg user c]
          ++ match fst (CvAgent.chat model q s) with
             | Ok response => [msg assistant response]
             | Raise _ => []
             end
        /\ generations (st_calls (snd (CvAgent.chat model q s)))
           = Datatypes.S (generations (st_calls s))).
Proof.
  pose proof (keeps_selector CvAgent.MODEL_NAME q s) as K1.
  pose proof (selector_generations CvAgent.MODEL_NAME q s) as G1.
  destruct (CvAgent.CVSelectorTool_run CvAgent.MODEL_NAME q s) as [[idx|e] s1] eqn:Hsel;
    simpl in K1, G1.
  - destruct idx as [|c0 idx'].
    + left. unfold CvAgent.chat. rewrite (bind_Ok _ _ _ Hsel). simpl. auto.
    + pose proof (keeps_retriever (c0 :: idx') q 3 s1) as K2.
      pose proof (retriever_generations (c0 :: idx') q s1) as G2.
      destruct (CvAgent.CVRetrieverTool_run (c0 :: idx') q 3 s1) as [[docs|e] s2] eqn:Hret;
        simpl in K2, G2.
      * right. exists (CvAgent.user_msg q (c0 :: idx') docs).
        apply agent_turn_appends with (s1 := s1) (s2 := s2);
          [assumption | discriminate | assumption].
      * left. unfold CvAgent.chat. rewrite (bind_Ok _ _ _ Hsel).
        change (negb (Str.truthy (c0 :: idx'))) with false. cbv iota.
        rewrite (bind_Raise _ _ _ Hret). simpl. split; congruence.
  - left. unfold CvAgent.chat. rewrite (bind_Raise _ _ _ Hsel). simpl. auto.
Qed.

(** A turn of the base session whose search returned. *)
Lemma session_turn_appends (idx : index) (model q : str) (s s1 : state) (docs : list str) :
  VectorDb.search_similar idx q 3 VectorDb.NAMESPACE false s = (Ok docs, s1) ->
  st_messages (snd (ChatGroq.chat idx model q s))
  = st_messages s
    ++ [msg user (ChatGroq.full_user_message q docs)]
    ++ match fst (ChatGroq.chat idx model q s) with
       | Ok response => [msg assistant response]
       | Raise _ => []
       end
  /\ generations (st_calls (snd (ChatGroq.chat idx model q s)))
     = Datatypes.S (generations (st_calls s)).
Proof.
  intros Hs.
  pose proof (keeps_base_search idx q 3 VectorDb.NAMESPACE false s) as K1.
  pose proof (base_search_generations idx q 3 VectorDb.NAMESPACE false s) as G1.
  rewrite Hs in K1, G1. simpl in K1, G1.
  destruct (ChatGroq.chat idx model q s) as [res s'] eqn:E.
  unfold ChatGroq.chat in E. rewrite (bind_Ok _ _ _ Hs) in E.
  unfold bind at 1 in E.
  unfold ChatGroq.add_message at 1, messages_append at 1 in E. cbv iota beta in E.
  unfold bind at 1 in E. unfold get_messages at 1 in E. cbv iota beta in E.
  simpl st_messages in E. rewrite K1 in E. cbv zeta in E.
  unfold bind at 1 in E. unfold remote at 1 in E. simpl st_world in E.
  match type of E with
  | context [completions_create_stream ?r ?w] =>
    destruct (completions_create_stream r w) as [[strm|e] w2]
  end.
  - cbv iota beta in E. unfold bind at 1 in E.
    match type of E with
    | context [ChatGroq.consume ?a ?b ?c ?st] =>
      pose proof (base_consume_trace a b c st) as Hc;
      pose proof (keeps_base_consume a b c st) as Kc;
      destruct (ChatGroq.consume a b c st) as [[r|e] s3]
    end; simpl in Hc, Kc.
    + unfold bind, ChatGroq.add_message, messages_append, print, write, ret in E.
      simpl in E. injection E as <- <-. simpl.
      rewrite Kc, Hc, generations_app, G1, <- app_assoc.
      rewrite (proj2 (generation_requests _ _)). split; [reflexivity | lia].
    + injection E as <- <-. simpl.
      rewrite Kc, Hc, generations_app, G1.
      rewrite (proj2 (generation_requests _ _)). split; [reflexivity | lia].
  - injection E as <- <-. simpl. rewrite generations_app, G1.
    rewrite (proj2 (generation_requests _ _)). split; [reflexivity | lia].
Qed.

Lemma session_turn_outcome (idx : index) (model q : str) (s : state) :
  (st_messages (snd (ChatGroq.chat idx model q s)) = st_messages s
   /\ generations (st_calls (snd (ChatGroq.chat idx model q s))) = generations (st_calls s)
   /\ exists e, fst (ChatGroq.chat idx model q s) = Raise e)
  \/ (exists c,
        st_messages (snd (ChatGroq.chat idx model q s))
        = st_messages s
          ++ [msg user c]
          ++ match fst (ChatGroq.chat idx model q s) with
             | Ok response => [msg assistant response]
             | Raise _ => []
             end
        /\ generations (st_calls (snd (ChatGroq.chat idx model q s)))
           = Datatypes.S (generations (st_calls s))).
Proof.
  pose proof (keeps_base_search idx q 3 VectorDb.NAMESPACE false s) as K1.
  pose proof (base_search_generations idx q 3 VectorDb.NAMESPACE false s) as G1.
  destruct (VectorDb.search_similar idx q 3 VectorDb.NAMESPACE false s) as [[docs|e] s1] eqn:Hs;
    simpl in K1, G1.
  - right. exists (ChatGroq.full_user_message q docs).
    now apply session_turn_appends with (s1 := s1).
  - left. unfold ChatGroq.chat. rewrite (bind_Raise _ _ _ Hs). simpl.
    split; [assumption | split; [assumption | now exists e]].
Qed.

(** The generation request of a turn of the agent that reaches generation
    is its last remote call and carries the history with the two prompt
    messages. *)
Lemma agent_turn_request (model q : str) (s s1 s2 : state) (idx : str) (docs : list entry) :
  CvAgent.CVSelectorTool_run CvAgent.MODEL_NAME q s = (Ok idx, s1) ->
  idx <> [] ->
  CvAgent.CVRetrieverTool_run idx q 3 s1 = (Ok docs, s2) ->
  st_calls (snd (CvAgent.chat model q s))
  = st_calls s2
    ++ [CallCompletion
          (CvAgent.responder_request model
             (st_messages s ++ [msg system CvAgent.system_msg;
                                msg user (CvAgent.user_msg q idx docs)]))].
Proof.
  intros Hsel Hidx Hret.
  destruct (CvAgent.chat model q s) as [res s'] eqn:E.
  rewrite (@agent_turn_reaches_generation _ _ model q s s1 s2 idx docs Hsel Hidx Hret) in E.
  unfold bind at 1 in E.
  match type of E with
  | context [CvAgent.LLMResponderTool_run model ?m ?st] =>
    pose proof (responder_trace model m st) as T3;
    destruct (CvAgent.LLMResponderTool_run model m st) as [[response|e] s3]
  end; simpl in T3.
  - unfold bind, messages_append, ret in E. simpl in E. injection E as <- <-. exact T3.
  - injection E as <- <-. exact T3.
Qed.

(** The same for a turn of the base session whose search returned. *)
Lemma session_turn_request (idx : index) (model q : str) (s s1 : state) (docs : list str) :
  VectorDb.search_similar idx q 3 VectorDb.NAMESPACE false s = (Ok docs, s1) ->
  st_calls (snd (ChatGroq.chat idx model q s))
  = st_calls s1
    ++ [CallCompletion
          (ChatGroq.chat_request model
             (st_messages s ++ [msg user (ChatGroq.full_user_message q docs)]))].
Proof.
  intros Hs.
  pose proof (keeps_base_search idx q 3 VectorDb.NAMESPACE false s) as K1.
  rewrite Hs in K1. simpl in K1.
  destruct (ChatGroq.chat idx model q s) as [res s'] eqn:E.
  unfold ChatGroq.chat in E. rewrite (bind_Ok _ _ _ Hs) in E.
  unfold bind at 1 in E.
  unfold ChatGroq.add_message at 1, messages_append at 1 in E. cbv iota beta in E.
  unfold bind at 1 in E. unfold get_messages at 1 in E. cbv iota beta in E.
  simpl st_messages in E. rewrite K1 in E. cbv zeta in E.
  unfold bind at 1 in E. unfold remote at 1 in E. simpl st_world in E.
  match type of E with
  | context [completions_create_stream ?r ?w] =>
    destruct (completions_create_stream r w) as [[strm|e] w2]
  end.
  - cbv iota beta in E. unfold bind at 1 in E.
    match type of E with
    | context [ChatGroq.consume ?a ?b ?c ?st] =>
      pose proof (base_consume_trace a b c st) as Hc;
      destruct (ChatGroq.consume a b c st) as [[r|e] s3]
    end; simpl in Hc.
    + unfold bind, ChatGroq.add_message, messages_append, print, write, ret in E.
      simpl in E. injection E as <- <-. exact Hc.
    + injection E as <- <-. exact Hc.
  - injection E as <- <-. reflexivity.
Qed.

End TurnOutcome.

(** * What one turn does to the history *)

Section TurnHistory.
Context {F : PyFloat} {S : Services}.

(** A turn of the agent leaves the history as it was (no index selected, or
    an exception before the prompt was built), or appends the system and
    user messages and raises, or appends system, user and assistant. *)
Lemma agent_chat_history (model q : str) (s : state) :
  (st_messages (snd (CvAgent.chat model q s)) = st_messages s)
  \/ (exists c e,
        st_messages (snd (CvAgent.chat model q s))
        = st_messages s ++ [msg system CvAgent.system_msg; msg user c]
        /\ fst (CvAgent.chat model q s) = Raise e)
  \/ (exists c response,
        st_messages (snd (CvAgent.chat model q s))
        = st_messages s ++ [msg system CvAgent.system_msg; msg user c; msg assistant response]
        /\ fst (CvAgent.chat model q s) = Ok response).
Proof.
  unfold CvAgent.chat, bind.
  pose proof (keeps_selector CvAgent.MODEL_NAME q s) as Hsel.
  destruct (CvAgent.CVSelectorTool_run CvAgent.MODEL_NAME q s) as [[idx|e] s1]; simpl in Hsel;
    [| left; exact Hsel].
  destruct (Str.truthy idx); simpl; [| left; exact Hsel].
  pose proof (keeps_retriever idx q 3 s1) as Hret.
  destruct (CvAgent.CVRetrieverTool_run idx q 3 s1) as [[docs|e] s2]; simpl in Hret;
    [| left; simpl; congruence].
  simpl.
  match goal with
  | |- context [CvAgent.LLMResponderTool_run model ?m ?st] =>
    pose proof (keeps_responder model m st) as Hres;
    destruct (CvAgent.LLMResponderTool_run model m st) as [[response|e] s3]
  end; simpl in Hres; right.
  - right. exists (CvAgent.user_msg q idx docs), response. simpl.
    rewrite Hres, Hret, Hsel, <- !app_assoc. split; reflexivity.
  - left. exists (CvAgent.user_msg q idx docs), e. simpl.
    rewrite Hres, Hret, Hsel, <- !app_assoc. split; reflexivity.
Qed.

(** A turn of the base session leaves the history as it was and raises, or
    appends the user message and raises, or appends user and assistant. *)
Lemma session_chat_history (idx : index) (model q : str) (s : state) :
  (st_messages (snd (ChatGroq.chat idx model q s)) = st_messages s
   /\ exists e, fst (ChatGroq.chat idx model q s) = Raise e)
  \/ (exists c e,
        st_messages (snd (ChatGroq.chat idx model q s)) = st_messages s ++ [msg user c]
        /\ fst (ChatGroq.chat idx model q s) = Raise e)
  \/ (exists c response,
        st_messages (snd (ChatGroq.chat idx model q s))
        = st_messages s ++ [msg user c; msg assistant response]
        /\ fst (ChatGroq.chat idx model q s) = Ok response).
Proof.
  unfold ChatGroq.chat, ChatGroq.add_message, bind.
  pose proof (keeps_base_search idx q 3 VectorDb.NAMESPACE false s) as Hs.
  destruct (VectorDb.search_similar idx q 3 VectorDb.NAMESPACE false s) as [[docs|e] s1];
    simpl in Hs; [| left; split; [exact Hs | now exists e]].
  simpl. right.
  match goal with
  | |- context [remote ?c ?f ?st] =>
    pose proof (keeps_remote c f st) as Hr; destruct (remote c f st) as [[strm|e] s2]
  end; simpl in Hr.
  - match goal with
    | |- context [ChatGroq.consume ?a ?b ?c ?st] =>
      pose proof (keeps_base_consume a b c st) as Hc;
      destruct (ChatGroq.consume a b c st) as [[response|e] s3]
    end; simpl in Hc.
    + right. eexists _, response. simpl.
      rewrite Hc, Hr. simpl. rewrite Hs, <- app_assoc. split; reflexivity.
    + left. eexists _, e. simpl. rewrite Hc, Hr. simpl. rewrite Hs. split; reflexivity.
  - left. eexists _, e. simpl. rewrite Hr. simpl. rewrite Hs. split; reflexivity.
Qed.

End TurnHistory.

(** * The conversation history *)

Section History.
Context {F : PyFloat} {S : Services}.

(** C7. The conversation history is append-only. After a chat turn of the
    base session ([ChatSession.chat], through [add_message]) and after a
    chat turn of the agent ([CVChatAgent.chat]), whatever the remote
    services answered and whether the turn returned or raised, the history
    is the history from before the turn followed by the messages the turn
    appended: every earlier message is still there, at the same position,
    with the same role and content. *)
Theorem history_append_only :
  (forall r c s,
      st_messages (snd (ChatGroq.add_message r c s)) = st_messages s ++ [msg r c])
  /\ (forall idx model q s, exists appended,
         st_messages (snd (ChatGroq.chat idx model q s)) = st_messages s ++ appended)
  /\ (forall model q s, exists appended,
         st_messages (snd (CvAgent.chat model q s)) = st_messages s ++ appended).
Proof.
  split; [| split].
  - intros r c s. reflexivity.
  - intros idx model q s.
    destruct (session_chat_history idx model q s)
      as [[H _] | [(c & e & H & _) | (c & r & H & _)]]; rewrite H.
    + exists []. now rewrite app_nil_r.
    + now eexists.
    + now eexists.
  - intros model q s.
    destruct (agent_chat_history model q s)
      as [H | [(c & e & H & _) | (c & r & H & _)]]; rewrite H.
    + exists []. now rewrite app_nil_r.
    + now eexists.
    + now eexists.
Qed.

(** C9. When the index selector returns the empty string, the agent's chat
    returns "No encontré un CV relevante para tu consulta." and the
    conversation history is exactly what it was before the turn. *)
Theorem no_selection_fallback (model q : str) (s s1 : state) :
  CvAgent.CVSelectorTool_run CvAgent.MODEL_NAME q s = (Ok [], s1) ->
  fst (CvAgent.chat model q s) = Ok u"No encontré un CV relevante para tu consulta."
  /\ st_messages (snd (CvAgent.chat model q s)) = st_messages s.
Proof.
  intros Hsel. pose proof (keeps_selector CvAgent.MODEL_NAME q s) as Hk.
  unfold CvAgent.chat, bind. rewrite Hsel in *. simpl in *.
  split; [reflexivity | exact Hk].
Qed.

Lemma roles_app (a b : list message) : roles (a ++ b) = roles a ++ roles b.
Proof. apply map_app. Qed.

(** C6, as the code has it. A turn of the agent that reaches generation
    (an index was selected and retrieval returned) appends the system
    message, then the user message, then the assistant message when
    generation returns; when generation raises, the system and user
    messages stay and nothing follows them. A turn of the base session
    whose search returned appends the user message, then the assistant
    message when generation returns, and never a system message. Over any
    sequence of turns the roles added are therefore (system, user,
    assistant) repeated in the agent and (user, assistant) repeated in the
    base session, once per generation request that returned; the prompt
    messages of a last turn whose generation raised remain at the end.
    Turns that make no generation request add nothing. *)
Theorem history_roles_by_turns :
  (forall model q s idx s1 docs s2,
      CvAgent.CVSelectorTool_run CvAgent.MODEL_NAME q s = (Ok idx, s1) ->
      idx <> [] ->
      CvAgent.CVRetrieverTool_run idx q 3 s1 = (Ok docs, s2) ->
      st_messages (snd (CvAgent.chat model q s))
      = st_messages s
        ++ [msg system CvAgent.system_msg; msg user (CvAgent.user_msg q idx docs)]
        ++ match fst (CvAgent.chat model q s) with
           | Ok response => [msg assistant response]
           | Raise _ => []
           end)
  /\ (forall idx model q s docs s1,
         VectorDb.search_similar idx q 3 VectorDb.NAMESPACE false s = (Ok docs, s1) ->
         st_messages (snd (ChatGroq.chat idx model q s))
         = st_messages s
           ++ [msg user (ChatGroq.full_user_message q docs)]
           ++ match fst (ChatGroq.chat idx model q s) with
              | Ok response => [msg assistant response]
              | Raise _ => []
              end)
  /\ (forall model qs s, exists k tail,
         k <= List.length qs
         /\ roles (st_messages (snd (agent_turns model qs s)))
            = roles (st_messages s) ++ cycle [system; user; assistant] k ++ tail
         /\ match fst (agent_turns model qs s) with
            | Ok _ => tail = []
            | Raise _ => tail = [] \/ tail = [system; user]
            end
         /\ generations (st_calls (snd (agent_turns model qs s)))
            = generations (st_calls s) + k + match tail with [] => 0 | _ => 1 end)
  /\ (forall idx model qs s, exists k tail,
         k <= List.length qs
         /\ roles (st_messages (snd (session_turns idx model qs s)))
            = roles (st_messages s) ++ cycle [user; assistant] k ++ tail
         /\ match fst (session_turns idx model qs s) with
            | Ok _ => tail = []
            | Raise _ => tail = [] \/ tail = [user]
            end
         /\ generations (st_calls (snd (session_turns idx model qs s)))
            = generations (st_calls s) + k + match tail with [] => 0 | _ => 1 end).
Proof.
  split; [| split; [| split]].
  - intros model q s idx s1 docs s2 Hsel Hidx Hret.
    exact (proj1 (@agent_turn_appends _ _ model q s s1 s2 idx docs Hsel Hidx Hret)).
  - intros idx model q s docs s1 Hs.
    exact (proj1 (@session_turn_appends _ _ idx model q s s1 docs Hs)).
  - intros model qs. induction qs as [|q rest IH]; intros s.
    + exists 0, []. simpl. rewrite app_nil_r. repeat split; lia.
    + simpl. unfold bind.
      pose proof (agent_turn_outcome model q s) as Hc.
      destruct (CvAgent.chat model q s) as [[r|e] s1]; simpl in Hc.
      * destruct (IH s1) as (k & tail & Hk & Hr & Ht & Hg).
        destruct Hc as [[H G] | (c & H & G)].
        -- exists k, tail. rewrite Hr, H, Hg, G. repeat split; [lia | exact Ht].
        -- exists (Datatypes.S k), tail. rewrite Hr, H, Hg, G, roles_app. simpl.
           rewrite <- !app_assoc. repeat split; [lia | exact Ht | lia].
      * destruct Hc as [[H G] | (c & H & G)].
        -- exists 0, []. simpl. rewrite H, G, app_nil_r. repeat split; [lia | now left | lia].
        -- exists 0, [system; user]. simpl. rewrite H, G, roles_app.
           repeat split; [lia | now right | lia].
  - intros idx model qs. induction qs as [|q rest IH]; intros s.
    + exists 0, []. simpl. rewrite app_nil_r. repeat split; lia.
    + simpl. unfold bind.
      pose proof (session_turn_outcome idx model q s) as Hc.
      destruct (ChatGroq.chat idx model q s) as [[r|e] s1]; simpl in Hc.
      * destruct (IH s1) as (k & tail & Hk & Hr & Ht & Hg).
        destruct Hc as [(_ & _ & e & He) | (c & H & G)]; [discriminate|].
        exists (Datatypes.S k), tail. rewrite Hr, H, Hg, G, roles_app. simpl.
        rewrite <- !app_assoc. repeat split; [lia | exact Ht | lia].
      * destruct Hc as [(H & G & _) | (c & H & G)].
        -- exists 0, []. simpl. rewrite H, G, app_nil_r. repeat split; [lia | now left | lia].
        -- exists 0, [user]. simpl. rewrite H, G, roles_app.
           repeat split; [lia | now right | lia].
Qed.

End History.

(** A run with no index: the selector answers "" and the history stays
    empty. *)
Lemma no_selection_fallback_witness :
  fst (@CvAgent.chat Scripted.Cents (Scripted.services Scripted.no_indexes)
         CvAgent.MODEL_NAME u"¿Qué estudió?" (Scripted.start Scripted.no_indexes))
  = Ok u"No encontré un CV relevante para tu consulta."
  /\ st_messages
       (snd (@CvAgent.chat Scripted.Cents (Scripted.services Scripted.no_indexes)
               CvAgent.MODEL_NAME u"¿Qué estudió?" (Scripted.start Scripted.no_indexes)))
     = [].
Proof.
  eapply (@no_selection_fallback Scripted.Cents (Scripted.services Scripted.no_indexes)).
  vm_compute. reflexivity.
Defined.

(** One healthy turn of the agent and one of the base session: each leaves
    its prompt messages and the assistant message. A turn of the agent whose
    stream breaks leaves the system and user messages. *)
Lemma history_roles_by_turns_witness :
  (exists docs,
      st_messages
        (snd (@CvAgent.chat Scripted.Cents (Scripted.services Scripted.healthy)
                CvAgent.MODEL_NAME u"¿Qué hace?" (Scripted.start Scripted.healthy)))
      = [msg system CvAgent.system_msg;
         msg user (@CvAgent.user_msg Scripted.Cents u"¿Qué hace?" u"cv-index" docs);
         msg assistant u"Es ingeniero."])
  /\ (exists docs,
         st_messages
           (snd (@ChatGroq.chat Scripted.Cents (Scripted.services Scripted.healthy)
                   u"cv-index" ChatGroq.MODEL_NAME u"¿Qué hace?"
                   (Scripted.start Scripted.healthy)))
         = [msg user (ChatGroq.full_user_message u"¿Qué hace?" docs);
            msg assistant u"Es ingeniero."])
  /\ roles
       (st_messages
          (snd (@CvAgent.chat Scripted.Cents (Scripted.services Scripted.stream_breaks)
                  CvAgent.MODEL_NAME u"¿Qué hace?" (Scripted.start Scripted.stream_breaks))))
     = [system; user].
Proof.
  destruct (@history_roles_by_turns Scripted.Cents (Scripted.services Scripted.healthy))
    as (P1 & P2 & _).
  destruct (@history_roles_by_turns Scripted.Cents
              (Scripted.services Scripted.stream_breaks)) as (Q1 & _).
  split; [| split].
  - eexists.
    erewrite (P1 CvAgent.MODEL_NAME u"¿Qué hace?" (Scripted.start Scripted.healthy)
                 u"cv-index");
      [reflexivity | vm_compute; reflexivity | discriminate | vm_compute; reflexivity].
  - eexists.
    erewrite (P2 u"cv-index" ChatGroq.MODEL_NAME u"¿Qué hace?"
                 (Scripted.start Scripted.healthy));
      [reflexivity | vm_compute; reflexivity].
  - erewrite (Q1 CvAgent.MODEL_NAME u"¿Qué hace?" (Scripted.start Scripted.stream_breaks)
                 u"cv-index");
      [reflexivity | vm_compute; reflexivity | discriminate | vm_compute; reflexivity].
Defined.

(** Two turns of the agent over healthy services: the second turn puts a
    second system message after the first assistant message. *)
Lemma agent_history_not_alternating :
  roles (st_messages
           (snd (@agent_turns Scripted.Cents (Scripted.services Scripted.healthy)
                   CvAgent.MODEL_NAME [u"¿Qué hace?"; u"¿Dónde estudió?"]
                   (Scripted.start Scripted.healthy))))
  = [system; user; assistant; system; user; assistant]
  /\ alternating
       (roles (st_messages
                 (snd (@agent_turns Scripted.Cents (Scripted.services Scripted.healthy)
                         CvAgent.MODEL_NAME [u"¿Qué hace?"; u"¿Dónde estudió?"]
                         (Scripted.start Scripted.healthy)))))
     = false.
Proof. split; vm_compute; reflexivity. Qed.

(** * The index selector *)

Section Selector.
Context {F : PyFloat} {S : Services}.

Lemma dict_mem_set (k k' : str) (v : list str) (d : CvAgent.dict) :
  CvAgent.dict_mem k (CvAgent.dict_set k' v d) = true ->
  k = k' \/ CvAgent.dict_mem k d = true.
Proof.
  induction d as [|[k0 v0] r IH]; simpl.
  - rewrite orb_false_r. intros H. left. now apply eqb_eq.
  - destruct (Str.eqb k' k0) eqn:E; simpl.
    + apply eqb_eq in E. subst k0. intros H. right. exact H.
    + intros H. apply orb_true_iff in H. destruct H as [H | H].
      * right. now rewrite H.
      * destruct (IH H) as [-> | H']; [now left | right].
        rewrite H'. apply orb_true_r.
Qed.

(** The keys of [cv_chunks] are names of listed indexes. *)
Lemma collect_chunks_keys (q : str) (indexes : list str) :
  forall (d : CvAgent.dict) (s : state) (d' : CvAgent.dict) (s' : state),
    CvAgent.collect_chunks q indexes d s = (Ok d', s') ->
    forall k, CvAgent.dict_mem k d' = true -> CvAgent.dict_mem k d = true \/ In k indexes.
Proof.
  induction indexes as [|idx rest IH]; intros d s d' s' H k Hk.
  - simpl in H. injection H as <- _. now left.
  - simpl in H. unfold bind at 1 in H. simpl in H.
    unfold bind at 1 in H.
    match type of H with
    | context [try_except ?b ?h ?st] => destruct (try_except b h st) as [[[i|]|e] s1]
    end; try discriminate.
    + unfold bind at 1 in H. simpl in H. unfold bind at 1 in H.
      match type of H with
      | context [CvAgent.search_similar ?a ?b ?c ?d ?g ?st] =>
        destruct (CvAgent.search_similar a b c d g st) as [[results|e] s2]
      end; try discriminate.
      destruct (IH _ _ _ _ H k Hk) as [H1 | H1]; [| right; now right].
      apply dict_mem_set in H1. destruct H1 as [-> | H1]; [right; now left | now left].
    + destruct (IH _ _ _ _ H k Hk) as [H1 | H1]; [now left | right; now right].
Qed.

Lemma dict_mem_known (q : str) (indexes : list str) (s : state)
    (cv_chunks : CvAgent.dict) (s' : state) (k : str) :
  CvAgent.collect_chunks q indexes [] s = (Ok cv_chunks, s') ->
  ~ In k indexes -> CvAgent.dict_mem k cv_chunks = false.
Proof.
  intros H Hn. destruct (CvAgent.dict_mem k cv_chunks) eqn:E; [| reflexivity].
  destruct (collect_chunks_keys _ _ _ _ H _ E) as [H1 | H1]; [discriminate | contradiction].
Qed.

Lemma selector_empty_listing (model q : str) (s : state) (w1 : world) :
  list_indexes (st_world s) = (Ok [], w1) ->
  CvAgent.CVSelectorTool_run model q s
  = (logging_warning u"No hay índices disponibles en Pinecone." ;; ret [])
      (snd (remote CallListIndexes list_indexes s)).
Proof.
  intros H. unfold CvAgent.CVSelectorTool_run.
  unfold bind at 1. unfold try_except, bind at 1. unfold remote. rewrite H. reflexivity.
Qed.

Lemma selector_listing (model q : str) (s : state) (w1 : world) (idx : str) (rest : list str) :
  list_indexes (st_world s) = (Ok (idx :: rest), w1) ->
  CvAgent.CVSelectorTool_run model q s
  = (cv_chunks <- CvAgent.collect_chunks q (idx :: rest) [] ;;
     r <- try_except
            (completion <- remote (CallCompletion (CvAgent.selector_request model cv_chunks q))
                             (completions_create (CvAgent.selector_request model cv_chunks q)) ;;
             selected_idx <- lift (CvAgent.selected_of completion) ;;
             print (u"Indice Seleccionado: " ++ selected_idx) ;;
             ret (Some selected_idx))
            (fun e => logging_error (u"Error llamando al LLM para seleccionar índice: "
                                      ++ exn_str e) ;;
                      ret None) ;;
     match r with
     | None => ret []
     | Some selected_idx =>
       logging_info (u"✅ Índice seleccionado por el LLM: " ++ selected_idx) ;;
       ret (if CvAgent.dict_mem selected_idx cv_chunks then selected_idx else [])
     end)
      (snd (remote CallListIndexes list_indexes s)).
Proof.
  intros H. unfold CvAgent.CVSelectorTool_run.
  unfold bind at 1. unfold try_except, bind at 1. unfold remote. rewrite H. reflexivity.
Qed.

Lemma selector_listing_fails (model q : str) (s : state) (w1 : world) (e : exn) :
  list_indexes (st_world s) = (Raise e, w1) ->
  forall name, fst (CvAgent.CVSelectorTool_run model q s) = Ok name -> name = [].
Proof.
  intros H name. unfold CvAgent.CVSelectorTool_run.
  unfold bind at 1. unfold try_except, bind at 1. unfold remote. rewrite H.
  destruct (is_Exception e); simpl; [| discriminate].
  intros E. injection E as <-. reflexivity.
Qed.


(** C1. The index selector fails closed. With zero indexes listed it
    returns "" at once: the listing is the only remote call of the run, so
    no language-model call is made. When the answer read from the model
    (the content of the first choice, stripped, as [run] reads it) is not
    the name of a listed index, it returns "" and not that answer. In every
    run that returns, the result is "" or the name of a listed index. *)
Theorem selector_fails_closed (model q : str) (s : state) :
  (forall w1,
      list_indexes (st_world s) = (Ok [], w1) ->
      fst (CvAgent.CVSelectorTool_run model q s) = Ok []
      /\ st_calls (snd (CvAgent.CVSelectorTool_run model q s))
         = st_calls s ++ [CallListIndexes]
      /\ filter is_model_call (st_calls (snd (CvAgent.CVSelectorTool_run model q s)))
         = filter is_model_call (st_calls s))
  /\ (forall indexes w1 cv_chunks s2 choices w3 answer,
         list_indexes (st_world s) = (Ok indexes, w1) ->
         CvAgent.collect_chunks q indexes [] (snd (remote CallListIndexes list_indexes s))
         = (Ok cv_chunks, s2) ->
         completions_create (CvAgent.selector_request model cv_chunks q) (st_world s2)
         = (Ok choices, w3) ->
         CvAgent.selected_of choices = Ok answer ->
         ~ In answer indexes ->
         fst (CvAgent.CVSelectorTool_run model q s) = Ok [])
  /\ (forall name,
         fst (CvAgent.CVSelectorTool_run model q s) = Ok name ->
         name = []
         \/ exists indexes w1,
              list_indexes (st_world s) = (Ok indexes, w1) /\ In name indexes).
Proof.
  split; [| split].
  - intros w1 H. rewrite (@selector_empty_listing model q s w1 H).
    unfold remote. rewrite H. simpl. repeat split.
    rewrite filter_app. simpl. now rewrite app_nil_r.
  - intros indexes w1 cv_chunks s2 choices w3 answer H1 H2 H3 H4 H5.
    destruct indexes as [|idx rest].
    + now rewrite (@selector_empty_listing model q s w1 H1).
    + rewrite (@selector_listing model q s w1 idx rest H1).
      rewrite (bind_Ok _ _ _ H2).
      unfold bind at 1. unfold try_except. unfold bind at 1. unfold remote at 1.
      rewrite H3. unfold bind at 1. unfold lift at 1. rewrite H4.
      simpl. now rewrite (dict_mem_known _ _ _ _ H2 H5).
  - intros name Hn.
    destruct (list_indexes (st_world s)) as [[indexes|e] w1] eqn:H1.
    + destruct indexes as [|idx rest].
      * rewrite (@selector_empty_listing model q s w1 H1) in Hn. simpl in Hn.
        left. congruence.
      * rewrite (@selector_listing model q s w1 idx rest H1) in Hn.
        unfold bind at 1 in Hn.
        destruct (CvAgent.collect_chunks q (idx :: rest) []
                    (snd (remote CallListIndexes list_indexes s)))
          as [[cv_chunks|e] s2] eqn:H2; [| discriminate].
        unfold bind at 1 in Hn.
        match type of Hn with
        | context [try_except ?b ?h ?st] => destruct (try_except b h st) as [[[sel|]|e] s3]
        end; simpl in Hn; try discriminate.
        -- destruct (CvAgent.dict_mem sel cv_chunks) eqn:Hm.
           ++ injection Hn as <-. right. exists (idx :: rest), w1. split; [reflexivity|].
              destruct (collect_chunks_keys _ _ _ _ H2 _ Hm) as [Hd | Hi];
                [discriminate | exact Hi].
           ++ left. congruence.
        -- left. congruence.
    + left. exact (@selector_listing_fails model q s w1 e H1 name Hn).
Qed.

End Selector.

(** With no index the selector stops after the listing; with an answer that
    names no index it returns "". *)
Lemma selector_fails_closed_witness :
  (fst (@CvAgent.CVSelectorTool_run Scripted.Cents (Scripted.services Scripted.no_indexes)
          CvAgent.MODEL_NAME u"¿Qué hace?" (Scripted.start Scripted.no_indexes)) = Ok []
   /\ st_calls
        (snd (@CvAgent.CVSelectorTool_run Scripted.Cents
                (Scripted.services Scripted.no_indexes)
                CvAgent.MODEL_NAME u"¿Qué hace?" (Scripted.start Scripted.no_indexes)))
      = [CallListIndexes])
  /\ fst (@CvAgent.CVSelectorTool_run Scripted.Cents (Scripted.services Scripted.confused)
            CvAgent.MODEL_NAME u"¿Qué hace?" (Scripted.start Scripted.confused)) = Ok []
  /\ (u"cv-index" = []
      \/ exists indexes w1,
           @list_indexes Scripted.Cents (Scripted.services Scripted.healthy) 0
           = (Ok indexes, w1) /\ In u"cv-index" indexes).
Proof.
  split; [| split].
  - destruct (@selector_fails_closed Scripted.Cents (Scripted.services Scripted.no_indexes)
                CvAgent.MODEL_NAME u"¿Qué hace?" (Scripted.start Scripted.no_indexes))
      as [H _].
    destruct (H 1 eq_refl) as (H1 & H2 & _). split; [exact H1 | exact H2].
  - destruct (@selector_fails_closed Scripted.Cents (Scripted.services Scripted.confused)
                CvAgent.MODEL_NAME u"¿Qué hace?" (Scripted.start Scripted.confused))
      as (_ & H & _).
    eapply (H [u"cv-index"] 1 _ _ [ChoiceMessage (Some u"otro-cv")] _ u"otro-cv").
    + reflexivity.
    + vm_compute. reflexivity.
    + vm_compute. reflexivity.
    + vm_compute. reflexivity.
    + vm_compute. intros [H0 | []]. discriminate H0.
  - destruct (@selector_fails_closed Scripted.Cents (Scripted.services Scripted.healthy)
                CvAgent.MODEL_NAME u"¿Qué hace?" (Scripted.start Scripted.healthy))
      as (_ & _ & H).
    apply H. vm_compute. reflexivity.
Defined.

(** * Streaming *)

Section Streaming.
Context {F : PyFloat} {S : Services}.

Lemma agent_consume_complete (chunks : list chunk) :
  forall (response : str) (s : state),
    fst (CvAgent.consume chunks None response s)
    = Ok (response ++ List.concat (map CvAgent.safe_delta chunks)).
Proof.
  induction chunks as [|c rest IH]; intros response s; simpl.
  - now rewrite app_nil_r.
  - destruct (CvAgent.safe_delta c) as [|a d] eqn:E; simpl.
    + apply IH.
    + unfold bind, write. simpl. rewrite IH, <- app_assoc. reflexivity.
Qed.

Lemma base_consume_complete (chunks : list chunk) :
  forall (deltas : list str) (response : str) (s : state),
    map ChatGroq.chunk_delta chunks = map Ok deltas ->
    fst (ChatGroq.consume chunks None response s) = Ok (response ++ List.concat deltas).
Proof.
  induction chunks as [|c rest IH]; intros deltas response s H; simpl.
  - destruct deltas; [| discriminate]. simpl. now rewrite app_nil_r.
  - destruct deltas as [|d deltas]; [discriminate|]. simpl in H.
    injection H as Hc Hr. unfold bind at 1, lift. rewrite Hc.
    unfold bind, write. simpl. rewrite (IH deltas), <- app_assoc by exact Hr. reflexivity.
Qed.

Lemma responder_complete (model : str) (messages : list message) (s : state)
    (strm : stream) (w1 : world) :
  completions_create_stream (CvAgent.responder_request model messages) (st_world s)
  = (Ok strm, w1) ->
  stream_failure strm = None ->
  fst (CvAgent.LLMResponderTool_run model messages s)
  = Ok (List.concat (map CvAgent.safe_delta (stream_chunks strm))).
Proof.
  intros H Hf. unfold CvAgent.LLMResponderTool_run.
  unfold bind at 1. unfold try_except. unfold bind at 1. unfold remote. rewrite H.
  simpl. unfold bind at 1. rewrite Hf.
  match goal with
  | |- context [CvAgent.consume ?a None ?b ?st] =>
    pose proof (agent_consume_complete a b st) as Hc;
    destruct (CvAgent.consume a None b st) as [[r|e] s3]
  end; simpl in Hc; [| discriminate].
  simpl. exact Hc.
Qed.

(** C3. For a streamed completion that the Responder consumes to its end,
    the string returned is the concatenation, in arrival order, of the
    fragments read from the chunks, and the turn appends that string to the
    history exactly once, as the assistant message that follows the turn's
    prompt messages. This holds for [LLMResponderTool.run] with
    [CVChatAgent.chat], and for [ChatSession.chat]. *)
Theorem streamed_answer_recorded_once :
  (forall model messages s strm w1,
      completions_create_stream (CvAgent.responder_request model messages) (st_world s)
      = (Ok strm, w1) ->
      stream_failure strm = None ->
      fst (CvAgent.LLMResponderTool_run model messages s)
      = Ok (List.concat (map CvAgent.safe_delta (stream_chunks strm))))
  /\ (forall model q s idx s1 docs s2 strm w3,
         CvAgent.CVSelectorTool_run CvAgent.MODEL_NAME q s = (Ok idx, s1) ->
         idx <> [] ->
         CvAgent.CVRetrieverTool_run idx q 3 s1 = (Ok docs, s2) ->
         completions_create_stream
           (CvAgent.responder_request model
              (st_messages s ++ [msg system CvAgent.system_msg;
                                 msg user (CvAgent.user_msg q idx docs)]))
           (st_world s2)
         = (Ok strm, w3) ->
         stream_failure strm = None ->
         fst (CvAgent.chat model q s)
         = Ok (List.concat (map CvAgent.safe_delta (stream_chunks strm)))
         /\ st_messages (snd (CvAgent.chat model q s))
            = st_messages s
              ++ [msg system CvAgent.system_msg;
                  msg user (CvAgent.user_msg q idx docs);
                  msg assistant (List.concat (map CvAgent.safe_delta (stream_chunks strm)))])
  /\ (forall idx model q s docs s1 strm w2 deltas,
         VectorDb.search_similar idx q 3 VectorDb.NAMESPACE false s = (Ok docs, s1) ->
         completions_create_stream
           (ChatGroq.chat_request model
              (st_messages s ++ [msg user (ChatGroq.full_user_message q docs)]))
           (st_world s1)
         = (Ok strm, w2) ->
         stream_failure strm = None ->
         map ChatGroq.chunk_delta (stream_chunks strm) = map Ok deltas ->
         fst (ChatGroq.chat idx model q s) = Ok (List.concat deltas)
         /\ st_messages (snd (ChatGroq.chat idx model q s))
            = st_messages s
              ++ [msg user (ChatGroq.full_user_message q docs);
                  msg assistant (List.concat deltas)]).
Proof.
  split; [| split].
  - intros. eapply responder_complete; eassumption.
  - intros model q s idx s1 docs s2 strm w3 Hsel Hidx Hret Hcr Hf.
    pose proof (keeps_selector CvAgent.MODEL_NAME q s) as K1. rewrite Hsel in K1.
    pose proof (keeps_retriever idx q 3 s1) as K2. rewrite Hret in K2.
    simpl in K1, K2.
    destruct (CvAgent.chat model q s) as [res s'] eqn:E.
    unfold CvAgent.chat in E. rewrite (bind_Ok _ _ _ Hsel) in E.
    destruct idx as [|c0 idx']; [congruence|].
    change (negb (Str.truthy (c0 :: idx'))) with false in E. cbv iota in E.
    rewrite (bind_Ok _ _ _ Hret) in E.
    unfold bind at 1 in E. unfold messages_append at 1 in E. cbv iota beta in E.
    unfold bind at 1 in E. unfold messages_append at 1 in E. cbv iota beta in E.
    unfold bind at 1 in E. unfold get_messages at 1 in E. cbv iota beta in E.
    simpl st_messages in E.
    rewrite K2, K1, <- app_assoc in E. simpl app in E.
    unfold bind at 1 in E.
    match type of E with
    | context [CvAgent.LLMResponderTool_run model ?m ?st] =>
      pose proof (@responder_complete model m st strm w3 Hcr Hf) as Hr;
      pose proof (keeps_responder model m st) as K3;
      destruct (CvAgent.LLMResponderTool_run model m st) as [[r|e] s3]
    end; simpl in Hr, K3; [| discriminate].
    injection Hr as ->. simpl in E. injection E as <- <-. simpl. rewrite K3. simpl.
    rewrite <- app_assoc. split; reflexivity.
  - intros idx model q s docs s1 strm w2 deltas Hs Hcr Hf Hd.
    pose proof (keeps_base_search idx q 3 VectorDb.NAMESPACE false s) as K1.
    rewrite Hs in K1. simpl in K1.
    destruct (ChatGroq.chat idx model q s) as [res s'] eqn:E.
    unfold ChatGroq.chat in E. rewrite (bind_Ok _ _ _ Hs) in E.
    unfold bind at 1 in E.
    unfold ChatGroq.add_message at 1, messages_append at 1 in E. cbv iota beta in E.
    unfold bind at 1 in E. unfold get_messages at 1 in E. cbv iota beta in E.
    simpl st_messages in E. rewrite K1 in E.
    cbv zeta in E. unfold bind at 1 in E. unfold remote at 1 in E. simpl st_world in E.
    unfold msg in Hcr. rewrite Hcr in E. cbv iota beta in E. rewrite Hf in E.
    unfold bind at 1 in E.
    match type of E with
    | context [ChatGroq.consume ?a None ?b ?st] =>
      pose proof (@base_consume_complete a deltas b st Hd) as Hr;
      pose proof (keeps_base_consume a None b st) as K3;
      destruct (ChatGroq.consume a None b st) as [[r|e] s3]
    end; simpl in Hr, K3; [| discriminate].
    injection Hr as ->. simpl in E. injection E as <- <-. simpl. rewrite K3. simpl.
    rewrite <- app_assoc. split; reflexivity.
Qed.

End Streaming.

(** One turn of the agent and one of the base session over healthy
    services: each returns "Es ingeniero." and records it once. *)
Lemma streamed_answer_recorded_once_witness :
  (fst (@CvAgent.chat Scripted.Cents (Scripted.services Scripted.healthy)
          CvAgent.MODEL_NAME u"¿Qué hace?" (Scripted.start Scripted.healthy))
   = Ok u"Es ingeniero."
   /\ map (fun m => (msg_role m, Str.eqb (msg_content m) u"Es ingeniero."))
          (st_messages
             (snd (@CvAgent.chat Scripted.Cents (Scripted.services Scripted.healthy)
                     CvAgent.MODEL_NAME u"¿Qué hace?" (Scripted.start Scripted.healthy))))
      = [(system, false); (user, false); (assistant, true)])
  /\ (fst (@ChatGroq.chat Scripted.Cents (Scripted.services Scripted.healthy)
             u"cv-index" ChatGroq.MODEL_NAME u"¿Qué hace?" (Scripted.start Scripted.healthy))
      = Ok u"Es ingeniero."
      /\ map (fun m => (msg_role m, Str.eqb (msg_content m) u"Es ingeniero."))
             (st_messages
                (snd (@ChatGroq.chat Scripted.Cents (Scripted.services Scripted.healthy)
                        u"cv-index" ChatGroq.MODEL_NAME u"¿Qué hace?"
                        (Scripted.start Scripted.healthy))))
         = [(user, false); (assistant, true)]).
Proof.
  split.
  - edestruct (proj1 (proj2 (@streamed_answer_recorded_once Scripted.Cents
                               (Scripted.services Scripted.healthy)))
                 CvAgent.MODEL_NAME u"¿Qué hace?" (Scripted.start Scripted.healthy))
      as [H1 H2].
    + vm_compute. reflexivity.
    + discriminate.
    + vm_compute. reflexivity.
    + vm_compute. reflexivity.
    + reflexivity.
    + split; [exact H1 | rewrite H2; vm_compute; reflexivity].
  - edestruct (proj2 (proj2 (@streamed_answer_recorded_once Scripted.Cents
                               (Scripted.services Scripted.healthy)))
                 u"cv-index" ChatGroq.MODEL_NAME u"¿Qué hace?"
                 (Scripted.start Scripted.healthy))
      as [H1 H2].
    + vm_compute. reflexivity.
    + vm_compute. reflexivity.
    + reflexivity.
    + instantiate (1 := [u"Es "; u"ingeniero."]). vm_compute. reflexivity.
    + split; [exact H1 | rewrite H2; vm_compute; reflexivity].
Defined.

(** * The search loop of the base script *)

Section SearchLoop.
Context {F : PyFloat} {S : Services}.

Lemma strip_truthy (l : str) : Str.truthy (Str.strip l) = negb (forallb Str.is_space l).
Proof.
  destruct (forallb Str.is_space l) eqn:E; simpl.
  - apply strip_blank in E. now rewrite E.
  - destruct (Str.strip l) eqn:E2; [| reflexivity].
    apply strip_blank in E2. congruence.
Qed.

(** Once [ensure_index] and [load_data] have returned, the main block is
    its interactive part. *)
Lemma main_after_startup (inputs : list input_event) (s s1 s2 : state) (idx : index) :
  VectorDb.ensure_index VectorDb.INDEX_NAME s = (Ok idx, s1) ->
  VectorDb.load_data idx s1 = (Ok tt, s2) ->
  VectorDb.main inputs s = VectorDb.interactive idx inputs s2.
Proof.
  intros H1 H2. unfold VectorDb.main, VectorDb.main_body, VectorDb.interactive.
  rewrite (bind_Ok _ _ _ H1). simpl VectorDb.LOAD_DATA. cbv iota.
  rewrite (bind_Ok _ _ _ H2). reflexivity.
Qed.

(** C10. In the search loop of [vector_db.py], a line that is empty or all
    whitespace ends the loop: nothing is searched, the rest of the input is
    not read and the script ends with status 0. Any other line is stripped
    and searched: the loop asks for the index statistics and then runs the
    search for the stripped line with [top_k = 3] in "cv-namespace"; when
    the search returns, its lines are printed and the loop goes on with the
    next input. "exit" and "quit" are searched like any other text. *)
Theorem blank_line_ends_search_loop (idx : index) (l : str) (rest : list input_event)
    (s : state) :
  (forallb Str.is_space l = true ->
     VectorDb.main_loop idx (Line l :: rest) s
     = logging_info u"Saliendo..." (snd (write u"Texto a buscar (Enter para salir): " s))
     /\ st_calls (snd (VectorDb.main_loop idx (Line l :: rest) s)) = st_calls s
     /\ fst (VectorDb.interactive idx (Line l :: rest) s) = Exit 0)
  /\ (forallb Str.is_space l = false ->
        VectorDb.main_loop idx (Line l :: rest) s
        = (VectorDb.search_similar idx (Str.strip l) 3 VectorDb.NAMESPACE true ;;
           VectorDb.main_loop idx rest)
            (snd (write u"Texto a buscar (Enter para salir): " s)))
  /\ (In (Str.lower (Str.strip l)) [u"exit"; u"quit"] ->
        VectorDb.main_loop idx (Line l :: rest) s
        = (VectorDb.search_similar idx (Str.strip l) 3 VectorDb.NAMESPACE true ;;
           VectorDb.main_loop idx rest)
            (snd (write u"Texto a buscar (Enter para salir): " s)))
  /\ (forallb Str.is_space l = false \/ In (Str.lower (Str.strip l)) [u"exit"; u"quit"] ->
        (exists more,
            st_calls (snd (VectorDb.main_loop idx (Line l :: rest) s))
            = st_calls s ++ CallDescribeStats :: more)
        /\ (forall stats w1,
               describe_index_stats idx (st_world s) = (Ok stats, w1) ->
               exists more,
                 st_calls (snd (VectorDb.main_loop idx (Line l :: rest) s))
                 = st_calls s
                   ++ CallDescribeStats
                   :: CallSearch u"cv-namespace" 3 (Str.strip l) :: more)
        /\ (forall stats w1 results w2 hs lines,
               describe_index_stats idx (st_world s) = (Ok stats, w1) ->
               index_search idx u"cv-namespace" 3 (Str.strip l) w1 = (Ok results, w2) ->
               VectorDb.get_hits results = Ok hs ->
               Forall2 (fun h line => VectorDb.format_hit h = Ok line) hs lines ->
               VectorDb.main_loop idx (Line l :: rest) s
               = VectorDb.main_loop idx rest
                   (searched s w2 u"cv-namespace" 3 (Str.strip l) stats
                      (u"Texto a buscar (Enter para salir): "
                       :: map (fun line => line ++ nl) lines)))).
Proof.
  assert (Hstep : forall b, Str.truthy (Str.strip l) = b ->
            VectorDb.main_loop idx (Line l :: rest) s
            = (if negb b then logging_info u"Saliendo..."
               else VectorDb.search_similar idx (Str.strip l) 3 VectorDb.NAMESPACE true ;;
                    VectorDb.main_loop idx rest)
                (snd (write u"Texto a buscar (Enter para salir): " s))).
  { intros b Hb. cbn [VectorDb.main_loop]. unfold bind at 1. cbn [write fst snd].
    rewrite Hb. reflexivity. }
  assert (Hquit : In (Str.lower (Str.strip l)) [u"exit"; u"quit"] ->
                  Str.truthy (Str.strip l) = true).
  { intros H. destruct (Str.strip l) as [|c r]; [| reflexivity].
    exfalso. simpl in H. destruct H as [H | [H | []]]; discriminate H. }
  split; [| split; [| split]].
  - intros H. rewrite (Hstep false) by (rewrite strip_truthy, H; reflexivity).
    simpl. repeat split.
    unfold VectorDb.interactive. rewrite (Hstep false) by (rewrite strip_truthy, H; reflexivity).
    reflexivity.
  - intros H. apply (Hstep true). rewrite strip_truthy, H. reflexivity.
  - intros H. apply (Hstep true). now apply Hquit.
  - intros H.
    assert (Ht : Str.truthy (Str.strip l) = true).
    { destruct H as [H | H]; [rewrite strip_truthy, H; reflexivity | now apply Hquit]. }
    rewrite (Hstep true Ht). cbn [negb]. clear Hstep Hquit H.
    set (s0 := snd (write u"Texto a buscar (Enter para salir): " s)).
    assert (Hs0 : st_calls s0 = st_calls s /\ st_world s0 = st_world s) by (split; reflexivity).
    destruct Hs0 as [Hc0 Hw0].
    destruct ((VectorDb.search_similar idx (Str.strip l) 3 VectorDb.NAMESPACE true ;;
               VectorDb.main_loop idx rest) s0) as [r s'] eqn:E.
    unfold bind at 1 in E.
    pose proof (base_search_trace idx (Str.strip l) 3 VectorDb.NAMESPACE true s0) as Ht0.
    rewrite Hc0, Hw0 in Ht0.
    assert (Hmore : exists more,
               st_calls s'
               = st_calls (snd (VectorDb.search_similar idx (Str.strip l) 3
                                  VectorDb.NAMESPACE true s0)) ++ more).
    { destruct (VectorDb.search_similar idx (Str.strip l) 3 VectorDb.NAMESPACE true s0)
        as [[lines|e] s1].
      - destruct (@emits_search_loop _ _ (fun _ => True) idx rest I (fun _ => I) s1)
          as (new & En & _).
        rewrite E in En. now exists new.
      - injection E as <- <-. exists []. now rewrite app_nil_r. }
    destruct Hmore as [more Hmore]. rewrite Ht0 in Hmore. cbn [snd].
    split; [| split].
    + rewrite Hmore, <- app_assoc. now eexists.
    + intros stats w1 Hd. rewrite Hd in Hmore. rewrite Hmore, <- app_assoc.
      exists more. reflexivity.
    + intros stats w1 results w2 hs lines Hd Hi Hg Hf.
      rewrite <- E.
      rewrite (@base_search_exact _ _ idx (Str.strip l) 3 VectorDb.NAMESPACE true s0
                 stats w1 w2 results hs lines) by assumption.
      unfold searched, shown, s0. simpl. now rewrite <- !app_assoc.
Qed.

End SearchLoop.

(** A line of blanks stops the loop before the next line is read; "exit" is
    searched; " hola " is searched as "hola", its line is printed and the
    loop reads the next input. *)
Lemma blank_line_ends_search_loop_witness :
  (fst (@VectorDb.interactive Scripted.Cents (Scripted.services Scripted.healthy)
          u"cv-index" [Line u"   "; Line u"hola"] (Scripted.start Scripted.healthy))
   = Exit 0
   /\ st_calls
        (snd (@VectorDb.main_loop Scripted.Cents (Scripted.services Scripted.healthy)
                u"cv-index" [Line u"   "; Line u"hola"] (Scripted.start Scripted.healthy)))
      = [])
  /\ (exists more,
         st_calls
           (snd (@VectorDb.main_loop Scripted.Cents (Scripted.services Scripted.healthy)
                   u"cv-index" [Line u"exit"] (Scripted.start Scripted.healthy)))
         = [] ++ CallDescribeStats :: CallSearch u"cv-namespace" 3 u"exit" :: more)
  /\ (exists line,
         @VectorDb.main_loop Scripted.Cents (Scripted.services Scripted.healthy)
           u"cv-index" [Line u" hola "; Line u""] (Scripted.start Scripted.healthy)
         = @VectorDb.main_loop Scripted.Cents (Scripted.services Scripted.healthy)
             u"cv-index" [Line u""]
             (@searched Scripted.Cents (Scripted.services Scripted.healthy)
                (Scripted.start Scripted.healthy) 2 u"cv-namespace" 3 u"hola" u"{}"
                [u"Texto a buscar (Enter para salir): "; line ++ nl]))
  /\ @VectorDb.main_loop Scripted.Cents (Scripted.services Scripted.healthy)
       u"cv-index" [Line u"quit"] (Scripted.start Scripted.healthy)
     = (@VectorDb.search_similar Scripted.Cents (Scripted.services Scripted.healthy)
          u"cv-index" (Str.strip u"quit") 3 VectorDb.NAMESPACE true ;;
        @VectorDb.main_loop Scripted.Cents (Scripted.services Scripted.healthy)
          u"cv-index" [])
         (snd (write u"Texto a buscar (Enter para salir): "
                 (Scripted.start Scripted.healthy)))
  /\ @VectorDb.main_loop Scripted.Cents (Scripted.services Scripted.healthy)
       u"cv-index" [Line u" hola "; Line u""] (Scripted.start Scripted.healthy)
     = (@VectorDb.search_similar Scripted.Cents (Scripted.services Scripted.healthy)
          u"cv-index" (Str.strip u" hola ") 3 VectorDb.NAMESPACE true ;;
        @VectorDb.main_loop Scripted.Cents (Scripted.services Scripted.healthy)
          u"cv-index" [Line u""])
         (snd (write u"Texto a buscar (Enter para salir): "
                 (Scripted.start Scripted.healthy))).
Proof.
  split; [| split; [| split; [| split]]].
  - destruct (@blank_line_ends_search_loop Scripted.Cents
                (Scripted.services Scripted.healthy) u"cv-index" u"   " [Line u"hola"]
                (Scripted.start Scripted.healthy)) as (H & _).
    destruct (H eq_refl) as (_ & H2 & H3). split; [exact H3 | exact H2].
  - destruct (@blank_line_ends_search_loop Scripted.Cents
                (Scripted.services Scripted.healthy) u"cv-index" u"exit" []
                (Scripted.start Scripted.healthy)) as (_ & _ & _ & H).
    destruct H as (_ & H & _); [right; vm_compute; left; reflexivity |].
    exact (H u"{}" 1 eq_refl).
  - destruct (@blank_line_ends_search_loop Scripted.Cents
                (Scripted.services Scripted.healthy) u"cv-index" u" hola " [Line u""]
                (Scripted.start Scripted.healthy)) as (_ & _ & _ & H).
    destruct H as (_ & _ & H); [left; reflexivity |].
    eexists.
    eapply (H u"{}" 1 _ 2 _ [_]);
      [reflexivity | reflexivity | reflexivity |].
    apply Forall2_cons; [vm_compute; reflexivity | apply Forall2_nil].
  - destruct (@blank_line_ends_search_loop Scripted.Cents
                (Scripted.services Scripted.healthy) u"cv-index" u"quit" []
                (Scripted.start Scripted.healthy)) as (_ & _ & H & _).
    apply H. vm_compute. right. left. reflexivity.
  - destruct (@blank_line_ends_search_loop Scripted.Cents
                (Scripted.services Scripted.healthy) u"cv-index" u" hola " [Line u""]
                (Scripted.start Scripted.healthy)) as (_ & H & _).
    apply H. reflexivity.
Defined.

(** * Failures of the generation call *)

Section GenerationFailure.
Context {F : PyFloat} {S : Services}.

(** C2, as the code has it. In the agent, when the call that opens the
    completion raises an Exception, [LLMResponderTool.run] logs the failure
    at level ERROR and returns "Ocurrió un error generando la respuesta."
    instead of raising. [ChatSession.chat] has no handler: when its
    completion call raises, the exception leaves [chat], after the user
    message was added to the history and with no assistant message. *)
Theorem generation_failure_handling :
  (forall model messages s e w1,
      completions_create_stream (CvAgent.responder_request model messages) (st_world s)
      = (Raise e, w1) ->
      is_Exception e = true ->
      fst (CvAgent.LLMResponderTool_run model messages s)
      = Ok u"Ocurrió un error generando la respuesta."
      /\ st_log (snd (CvAgent.LLMResponderTool_run model messages s))
         = st_log s
           ++ [(ERROR, LogText (u"Error llamando al LLM para responder: " ++ exn_str e))])
  /\ (forall idx model q s docs s1 e w2,
         VectorDb.search_similar idx q 3 VectorDb.NAMESPACE false s = (Ok docs, s1) ->
         completions_create_stream
           (ChatGroq.chat_request model
              (st_messages s ++ [msg user (ChatGroq.full_user_message q docs)]))
           (st_world s1)
         = (Raise e, w2) ->
         fst (ChatGroq.chat idx model q s) = Raise e
         /\ st_messages (snd (ChatGroq.chat idx model q s))
            = st_messages s ++ [msg user (ChatGroq.full_user_message q docs)]).
Proof.
  split.
  - intros model messages s e w1 H He.
    destruct (CvAgent.LLMResponderTool_run model messages s) as [r s'] eqn:E.
    unfold CvAgent.LLMResponderTool_run in E. cbv zeta in E.
    unfold bind at 1 in E. unfold try_except in E. unfold bind at 1 in E.
    unfold remote in E. rewrite H in E. rewrite He in E.
    simpl in E. injection E as <- <-. simpl. split; reflexivity.
  - intros idx model q s docs s1 e w2 Hs Hcr.
    pose proof (keeps_base_search idx q 3 VectorDb.NAMESPACE false s) as K1.
    rewrite Hs in K1. simpl in K1.
    destruct (ChatGroq.chat idx model q s) as [r s'] eqn:E.
    unfold ChatGroq.chat in E. rewrite (bind_Ok _ _ _ Hs) in E.
    unfold bind at 1 in E.
    unfold ChatGroq.add_message at 1, messages_append at 1 in E. cbv iota beta in E.
    unfold bind at 1 in E. unfold get_messages at 1 in E. cbv iota beta in E.
    simpl st_messages in E. rewrite K1 in E.
    cbv zeta in E. unfold bind at 1 in E. unfold remote at 1 in E. simpl st_world in E.
    unfold msg in Hcr. rewrite Hcr in E. injection E as <- <-. simpl.
    split; reflexivity.
Qed.

End GenerationFailure.

(** The base session with the completion service down: the failure leaves
    [chat] as an exception; no apology string is returned. *)
Lemma base_chat_propagates_failure :
  fst (@ChatGroq.chat Scripted.Cents (Scripted.services Scripted.groq_down)
         u"cv-index" ChatGroq.MODEL_NAME u"¿Qué hace?" (Scripted.start Scripted.groq_down))
  = Raise (ServiceError u"503 Service Unavailable").
Proof. vm_compute. reflexivity. Qed.

(** The same outage seen by the agent's responder and by the base session. *)
Lemma generation_failure_handling_witness :
  (fst (@CvAgent.LLMResponderTool_run Scripted.Cents (Scripted.services Scripted.groq_down)
          CvAgent.MODEL_NAME [msg user u"hola"] (Scripted.start Scripted.groq_down))
   = Ok u"Ocurrió un error generando la respuesta."
   /\ List.length
        (st_log
           (snd (@CvAgent.LLMResponderTool_run Scripted.Cents
                   (Scripted.services Scripted.groq_down)
                   CvAgent.MODEL_NAME [msg user u"hola"]
                   (Scripted.start Scripted.groq_down)))) = 1)
  /\ fst (@ChatGroq.chat Scripted.Cents (Scripted.services Scripted.groq_down)
            u"cv-index" ChatGroq.MODEL_NAME u"¿Qué hace?"
            (Scripted.start Scripted.groq_down))
     = Raise (ServiceError u"503 Service Unavailable").
Proof.
  split.
  - edestruct (proj1 (@generation_failure_handling Scripted.Cents
                        (Scripted.services Scripted.groq_down))
                 CvAgent.MODEL_NAME [msg user u"hola"] (Scripted.start Scripted.groq_down))
      as [H1 H2].
    + reflexivity.
    + reflexivity.
    + split; [exact H1 | rewrite H2; reflexivity].
  - edestruct (proj2 (@generation_failure_handling Scripted.Cents
                        (Scripted.services Scripted.groq_down))
                 u"cv-index" ChatGroq.MODEL_NAME u"¿Qué hace?"
                 (Scripted.start Scripted.groq_down))
      as [H1 _].
    + vm_compute. reflexivity.
    + vm_compute. reflexivity.
    + exact H1.
Defined.

(** * Normalization of search hits *)

Section Normalization.
Context {F : PyFloat} {S : Services}.

Lemma make_entry_total (h : hit) :
  hit_score h <> Some ScoreNull -> exists en, CvAgent.make_entry h = Ok en.
Proof.
  intros H. unfold CvAgent.make_entry, CvAgent.score_of.
  destruct (hit_score h) as [[f|]|]; simpl; [now eexists | congruence | now eexists].
Qed.

(** Hits whose score is a number or absent are all turned into entries, in
    order. *)
Lemma parse_hits_all (debug : bool) (hs : list hit) :
  Forall (fun h => hit_score h <> Some ScoreNull) hs ->
  forall (data : list entry) (s : state),
  exists es,
    fst (CvAgent.parse_hits debug hs data s) = Ok (data ++ es, None)
    /\ Forall2 (fun h en => CvAgent.make_entry h = Ok en) hs es.
Proof.
  induction 1 as [|h rest Hh _ IH]; intros data s; simpl.
  - exists []. rewrite app_nil_r. split; [reflexivity | constructor].
  - destruct (make_entry_total h Hh) as [en Hen]. rewrite Hen.
    unfold bind.
    destruct ((if debug then log INFO (LogEntry en) else ret tt) s) as [[[]|e] s1] eqn:E.
    + destruct (IH (data ++ [en]) s1) as (es & H1 & H2).
      exists (en :: es). rewrite H1, <- app_assoc. split; [reflexivity | now constructor].
    + destruct debug; discriminate E.
Qed.

(** C4, as the code has it. In the agent's [search_similar] a hit whose
    score is a number or absent always yields an entry: an absent ["_id"],
    ["category"] or ["chunk_text"] (or an absent ["fields"]) gives the empty
    string and an absent ["_score"] gives 0.0, and when every hit of the
    response is such a hit the function returns one entry per hit, in
    order. The base script's [search_similar] reads every field by
    subscript: a hit that lacks ["category"] makes it raise [KeyError]. *)
Theorem agent_hits_default_missing_fields :
  (forall h : hit,
      hit_score h <> Some ScoreNull ->
      exists en,
        CvAgent.make_entry h = Ok en
        /\ (hit_id h = None -> e_id en = [])
        /\ (hit_score h = None -> e_score en = float_zero)
        /\ ((forall f, hit_fields h = Some f -> category f = None) -> e_category en = [])
        /\ ((forall f, hit_fields h = Some f -> chunk_text f = None) -> e_text en = [])
        /\ (forall debug rest data s,
               CvAgent.parse_hits debug (h :: rest) data s
               = ((if debug then log INFO (LogEntry en) else ret tt) ;;
                  CvAgent.parse_hits debug rest (data ++ [en])) s))
  /\ (forall idx text top_k ns debug s hs w1,
         index_search idx ns top_k text (st_world s)
         = (Ok {| result := Some {| hits := Some hs |} |}, w1) ->
         Forall (fun h => hit_score h <> Some ScoreNull) hs ->
         exists es,
           fst (CvAgent.search_similar idx text top_k ns debug s) = Ok es
           /\ Forall2 (fun h en => CvAgent.make_entry h = Ok en) hs es)
  /\ (forall (h : hit) id v score fields text,
         hit_id h = Some id -> hit_score h = Some v ->
         VectorDb.round_score v = Ok score ->
         hit_fields h = Some fields ->
         category fields = None -> chunk_text fields = Some text ->
         VectorDb.format_hit h = Raise (KeyError u"category")
         /\ forall debug rest data s,
              fst (VectorDb.format_hits debug (h :: rest) data s)
              = Raise (KeyError u"category")).
Proof.
  split; [| split].
  - intros h Hs. destruct (make_entry_total h Hs) as [en Hen]. exists en.
    split; [exact Hen|].
    unfold CvAgent.make_entry, CvAgent.score_of in Hen.
    destruct (hit_score h) as [[f|]|] eqn:Hsc; simpl in Hen; try congruence;
      injection Hen as <-; simpl.
    + repeat split; try congruence.
      * intros ->. reflexivity.
      * intros Hc. destruct (hit_fields h) as [f0|]; simpl; [| reflexivity].
        now rewrite (Hc f0 eq_refl).
      * intros Hc. destruct (hit_fields h) as [f0|]; simpl; [| reflexivity].
        now rewrite (Hc f0 eq_refl).
      * intros. unfold CvAgent.make_entry, CvAgent.score_of. rewrite Hsc. reflexivity.
    + repeat split.
      * intros ->. reflexivity.
      * intros _. apply round2_zero.
      * intros Hc. destruct (hit_fields h) as [f0|]; simpl; [| reflexivity].
        now rewrite (Hc f0 eq_refl).
      * intros Hc. destruct (hit_fields h) as [f0|]; simpl; [| reflexivity].
        now rewrite (Hc f0 eq_refl).
      * intros. unfold CvAgent.make_entry, CvAgent.score_of. rewrite Hsc. reflexivity.
  - intros idx text top_k ns debug s hs w1 H Hall.
    destruct (CvAgent.search_similar idx text top_k ns debug s) as [r s'] eqn:E.
    unfold CvAgent.search_similar in E.
    unfold bind at 1 in E. unfold try_except in E. unfold bind at 1 in E.
    unfold remote in E. rewrite H in E. unfold ret at 1 in E. cbv iota beta in E.
    change (VectorDb.get_hits {| result := Some {| hits := Some hs |} |}) with (Ok hs) in E.
    cbv iota beta in E.
    unfold bind at 1 in E.
    match type of E with
    | context [CvAgent.parse_hits debug hs [] ?st] =>
      destruct (parse_hits_all debug Hall [] st) as (es & H1 & H2);
      destruct (CvAgent.parse_hits debug hs [] st) as [[out|e] s2]
    end; simpl in H1; [| discriminate].
    injection H1 as ->. simpl in E. injection E as <- <-. exists es. split; [reflexivity | exact H2].
  - intros h id v score fields text Hid Hsc Hr Hf Hc Ht.
    assert (Hfmt : VectorDb.format_hit h = Raise (KeyError u"category")).
    { unfold VectorDb.format_hit. rewrite Hid, Hsc. simpl. rewrite Hr, Hf. simpl.
      rewrite Hc. reflexivity. }
    split; [exact Hfmt|].
    intros. simpl. unfold bind, lift. rewrite Hfmt. reflexivity.
Qed.

End Normalization.

(** The base script's [search_similar] on a hit without "category": the
    subscript raises and no result list is returned. *)
Lemma base_search_raises_on_missing_category :
  fst (@VectorDb.search_similar Scripted.Cents (Scripted.services Scripted.no_category)
         u"cv-index" u"datos" 3 VectorDb.NAMESPACE false
         (Scripted.start Scripted.no_category))
  = Raise (KeyError u"category").
Proof. vm_compute. reflexivity. Qed.

(** A hit with no key at all becomes the entry of defaults; the agent's
    [search_similar] keeps the hit that has no "category"; the base
    script's formatter raises on it. *)
Lemma agent_hits_default_missing_fields_witness :
  @CvAgent.make_entry Scripted.Cents Scripted.bare_hit
  = Ok (@Build_entry Scripted.Cents [] 0%N [] [])
  /\ (exists es,
        fst (@CvAgent.search_similar Scripted.Cents (Scripted.services Scripted.no_category)
               u"cv-index" u"datos" 3 CvAgent.NAMESPACE false
               (Scripted.start Scripted.no_category)) = Ok es
        /\ List.length es = 1)
  /\ @VectorDb.format_hit Scripted.Cents
       (Scripted.a_hit u"cv_chunk_1" 87 None (Some u"Ingeniero de datos."))
     = Raise (KeyError u"category").
Proof.
  destruct (@agent_hits_default_missing_fields Scripted.Cents
              (Scripted.services Scripted.no_category)) as (P1 & P2 & P3).
  split; [| split].
  - destruct (P1 Scripted.bare_hit) as (en & Hen & H1 & H2 & H3 & H4 & _).
    + discriminate.
    + rewrite Hen. destruct en as [i sc c t]. simpl in H1, H2, H3, H4.
      rewrite H1, H2, H3, H4; try reflexivity; intros f Hf; discriminate Hf.
  - edestruct (P2 u"cv-index" u"datos" 3 CvAgent.NAMESPACE false
                 (Scripted.start Scripted.no_category)) as (es & H1 & H2).
    + reflexivity.
    + repeat constructor. discriminate.
    + exists es. split; [exact H1|].
      apply Forall2_length in H2. simpl in H2. now rewrite <- H2.
  - eapply P3; reflexivity.
Defined.

(** * Truncation of the retrieved text *)

Section Truncation.
Context {F : PyFloat} {S : Services}.

(** The list returned by the base script's loop does not depend on [debug]
    nor on the state. *)
Lemma format_hits_result (hs : list hit) :
  forall (d1 d2 : bool) (data : list str) (s1 s2 : state),
    fst (VectorDb.format_hits d1 hs data s1) = fst (VectorDb.format_hits d2 hs data s2).
Proof.
  induction hs as [|h rest IH]; intros d1 d2 data s1 s2; simpl; [reflexivity|].
  unfold bind at 1 3, lift. destruct (VectorDb.format_hit h) as [tmp|e]; [| reflexivity].
  unfold bind.
  destruct ((if d1 then print tmp else ret tt) s1) as [[[]|e1] s1'] eqn:E1;
    [| destruct d1; discriminate E1].
  destruct ((if d2 then print tmp else ret tt) s2) as [[[]|e2] s2'] eqn:E2;
    [| destruct d2; discriminate E2].
  apply IH.
Qed.

Lemma filter_map_comm {A B} (f : A -> B) (p : B -> bool) (l : list A) :
  filter p (map f l) = map f (filter (fun a => p (f a)) l).
Proof.
  induction l as [|a l IH]; simpl; [reflexivity|].
  destruct (p (f a)); simpl; now rewrite IH.
Qed.

Lemma parse_hits_exact (hs : list hit) (es : list entry) :
  Forall2 (fun h en => CvAgent.make_entry h = Ok en) hs es ->
  forall (data : list entry) (s : state),
    CvAgent.parse_hits false hs data s = (Ok (data ++ es, None), s).
Proof.
  induction 1 as [|h en hs es Hh _ IH]; intros data s; simpl.
  - now rewrite app_nil_r.
  - rewrite Hh. unfold bind, ret. rewrite IH, <- app_assoc. reflexivity.
Qed.

(** The agent's search on a response whose hits all become entries. *)
Lemma agent_search_exact (idx : index) (text : str) (top_k : nat) (ns : str) (s : state)
    (results : search_response) (w1 : world) (hs : list hit) (es : list entry) :
  index_search idx ns top_k text (st_world s) = (Ok results, w1) ->
  VectorDb.get_hits results = Ok hs ->
  Forall2 (fun h en => CvAgent.make_entry h = Ok en) hs es ->
  CvAgent.search_similar idx text top_k ns false s
  = (Ok es, snd (remote (CallSearch ns top_k text) (index_search idx ns top_k text) s)).
Proof.
  intros H1 H2 H3. unfold CvAgent.search_similar.
  unfold bind at 1. unfold try_except. unfold bind at 1.
  unfold remote. rewrite H1. unfold ret at 1. cbv iota beta. rewrite H2.
  unfold bind at 1. rewrite (parse_hits_exact H3). reflexivity.
Qed.

Lemma retriever_exact (name q : str) (top_k : nat) (s : state) (i : index) (w1 w2 : world)
    (results : search_response) (hs : list hit) (es : list entry) :
  open_index name (st_world s) = (Ok i, w1) ->
  index_search i u"cv-namespace" top_k q w1 = (Ok results, w2) ->
  VectorDb.get_hits results = Ok hs ->
  Forall2 (fun h en => CvAgent.make_entry h = Ok en) hs es ->
  exists s2, CvAgent.CVRetrieverTool_run name q top_k s = (Ok es, s2).
Proof.
  intros H0 H1 H2 H3. unfold CvAgent.CVRetrieverTool_run.
  unfold bind at 1. unfold try_except. unfold bind at 1.
  unfold remote at 1. rewrite H0. unfold ret at 1. cbv iota beta.
  erewrite agent_search_exact; [now eexists | exact H1 | exact H2 | exact H3].
Qed.

Lemma context_snippets_eq (docs : list entry) :
  CvAgent.context_snippets docs
  = map (firstn 300) (filter Str.truthy (map e_text (firstn 5 docs))).
Proof.
  unfold CvAgent.context_snippets. rewrite filter_map_comm, map_map. reflexivity.
Qed.

(** C5, as the code has it. The base script's [search_similar] cuts the text
    of a hit to its first 80 characters, followed by "...", in the line it
    builds; what it returns is those lines, one per hit of the response,
    whether or not [debug] prints them, and [ChatSession.chat] puts the
    returned lines into the user message of the prompt. The agent's
    [search_similar] keeps the text of a hit whole, and the retriever
    returns those entries; [CVChatAgent.chat] then puts into the user
    message the first 300 characters of each non-empty text among the
    first five retrieved documents. In both, that user message is in the
    messages of the generation request. *)
Theorem context_text_truncation :
  (forall (h : hit) id v score fields cat text,
      hit_id h = Some id -> hit_score h = Some v ->
      VectorDb.round_score v = Ok score ->
      hit_fields h = Some fields ->
      category fields = Some cat -> chunk_text fields = Some text ->
      exists head,
        VectorDb.format_hit h = Ok (head ++ u"text: " ++ firstn 80 text ++ u"..."))
  /\ (forall hs data s1 s2,
         fst (VectorDb.format_hits true hs data s1)
         = fst (VectorDb.format_hits false hs data s2))
  /\ (forall idx model q s docs s1,
         VectorDb.search_similar idx q 3 VectorDb.NAMESPACE false s = (Ok docs, s1) ->
         exists rest,
           st_messages (snd (ChatGroq.chat idx model q s))
           = st_messages s
             ++ msg user (q ++ nl ++ nl ++ u"Contexto: " ++ Str.join u" " docs) :: rest)
  /\ (forall (h : hit) fields text en,
         hit_fields h = Some fields -> chunk_text fields = Some text ->
         CvAgent.make_entry h = Ok en -> e_text en = text)
  /\ (forall docs : list entry,
         CvAgent.context_snippets docs
         = map (firstn 300) (filter Str.truthy (map e_text (firstn 5 docs)))
         /\ Forall (fun t => List.length t <= 300) (CvAgent.context_snippets docs))
  /\ (forall idx model q debug s stats w1 results w2 hs lines,
         describe_index_stats idx (st_world s) = (Ok stats, w1) ->
         index_search idx u"cv-namespace" 3 q w1 = (Ok results, w2) ->
         VectorDb.get_hits results = Ok hs ->
         Forall2 (fun h line => VectorDb.format_hit h = Ok line) hs lines ->
         fst (VectorDb.search_similar idx q 3 u"cv-namespace" debug s) = Ok lines
         /\ (exists rest,
                st_messages (snd (ChatGroq.chat idx model q s))
                = st_messages s
                  ++ msg user (q ++ nl ++ nl ++ u"Contexto: " ++ Str.join u" " lines)
                  :: rest)
         /\ (exists before,
                st_calls (snd (ChatGroq.chat idx model q s))
                = before
                  ++ [CallCompletion
                        (ChatGroq.chat_request model
                           (st_messages s
                            ++ [msg user (q ++ nl ++ nl ++ u"Contexto: "
                                          ++ Str.join u" " lines)]))]))
  /\ (forall model q s idx s1 i w2 results w3 hs docs,
         CvAgent.CVSelectorTool_run CvAgent.MODEL_NAME q s = (Ok idx, s1) ->
         idx <> [] ->
         open_index idx (st_world s1) = (Ok i, w2) ->
         index_search i u"cv-namespace" 3 q w2 = (Ok results, w3) ->
         VectorDb.get_hits results = Ok hs ->
         Forall2 (fun h en => CvAgent.make_entry h = Ok en) hs docs ->
         fst (CvAgent.CVRetrieverTool_run idx q 3 s1) = Ok docs
         /\ (exists rest,
                st_messages (snd (CvAgent.chat model q s))
                = st_messages s
                  ++ msg system CvAgent.system_msg
                  :: msg user
                       (u"Consulta del usuario: " ++ q ++ nl ++ nl
                        ++ u"Índice seleccionado: " ++ idx ++ nl
                        ++ u"Contexto (fragmentos):" ++ nl ++ u"- "
                        ++ match map (firstn 300)
                                     (filter Str.truthy (map e_text (firstn 5 docs))) with
                           | [] => u"(sin contexto relevante)"
                           | snippets => Str.join (nl ++ u"- ") snippets
                           end
                        ++ nl ++ nl ++ u"Responde de forma concisa y útil.")
                  :: rest)
         /\ (exists before,
                st_calls (snd (CvAgent.chat model q s))
                = before
                  ++ [CallCompletion
                        (CvAgent.responder_request model
                           (st_messages s
                            ++ [msg system CvAgent.system_msg;
                                msg user
                                  (u"Consulta del usuario: " ++ q ++ nl ++ nl
                                   ++ u"Índice seleccionado: " ++ idx ++ nl
                                   ++ u"Contexto (fragmentos):" ++ nl ++ u"- "
                                   ++ match map (firstn 300)
                                                (filter Str.truthy
                                                   (map e_text (firstn 5 docs))) with
                                      | [] => u"(sin contexto relevante)"
                                      | snippets => Str.join (nl ++ u"- ") snippets
                                      end
                                   ++ nl ++ nl
                                   ++ u"Responde de forma concisa y útil.")]))])).
Proof.
  assert (P3 : forall idx model q s docs s1,
             VectorDb.search_similar idx q 3 VectorDb.NAMESPACE false s = (Ok docs, s1) ->
             exists rest,
               st_messages (snd (ChatGroq.chat idx model q s))
               = st_messages s
                 ++ msg user (q ++ nl ++ nl ++ u"Contexto: " ++ Str.join u" " docs) :: rest).
  { intros idx model q s docs s1 Hs.
    rewrite (proj1 (@session_turn_appends _ _ idx model q s s1 docs Hs)).
    now eexists. }
  split; [| split; [| split; [| split; [| split; [| split]]]]].
  - intros h id v score fields cat text Hid Hsc Hr Hf Hc Ht.
    unfold VectorDb.format_hit. rewrite Hid, Hsc. simpl. rewrite Hr, Hf. simpl.
    rewrite Hc, Ht. simpl.
    eexists (u"id: " ++ Str.ljust 10 id ++ u" | " ++ u"score: "
             ++ Str.ljust 5 (float_str score) ++ u" | " ++ u"category: "
             ++ Str.ljust 10 cat ++ u" | ").
    rewrite <- !app_assoc. reflexivity.
  - intros. apply format_hits_result.
  - exact P3.
  - intros h fields text en Hf Ht. unfold CvAgent.make_entry.
    destruct (CvAgent.score_of h) as [f|e]; [| discriminate].
    intros E. injection E as <-. simpl. rewrite Hf. simpl. now rewrite Ht.
  - intros docs. split; [apply context_snippets_eq|].
    unfold CvAgent.context_snippets. apply Forall_forall. intros t Ht.
    apply in_map_iff in Ht. destruct Ht as (doc & <- & _). apply firstn_le_length.
  - intros idx model q debug s stats w1 results w2 hs lines H1 H2 H3 H4.
    split.
    + now rewrite (@base_search_exact _ _ idx q 3 u"cv-namespace" debug s stats w1 w2
                     results hs lines H1 H2 H3 H4).
    + pose proof (@base_search_exact _ _ idx q 3 u"cv-namespace" false s stats w1 w2
                    results hs lines H1 H2 H3 H4) as Hs.
      split; [eapply P3; exact Hs |].
      eexists. exact (@session_turn_request _ _ idx model q s _ lines Hs).
  - intros model q s idx s1 i w2 results w3 hs docs Hsel Hidx Ho Hi Hg Hf.
    destruct (@retriever_exact idx q 3 s1 i w2 w3 results hs docs Ho Hi Hg Hf) as [s2 Hret].
    split; [now rewrite Hret|].
    rewrite <- context_snippets_eq. split.
    + rewrite (proj1 (@agent_turn_appends _ _ model q s s1 s2 idx docs Hsel Hidx Hret)).
      now eexists.
    + eexists. exact (@agent_turn_request _ _ model q s s1 s2 idx docs Hsel Hidx Hret).
Qed.

End Truncation.

(** With debug output off, the user message that the base session sends to
    the model does not contain the retrieved chunk, only its first 80
    characters; the user message that the agent sends does not contain it
    either. *)
Lemma injected_context_is_truncated :
  (exists m,
      nth_error
        (st_messages
           (snd (@ChatGroq.chat Scripted.Cents (Scripted.services Scripted.wordy)
                   u"cv-index" ChatGroq.MODEL_NAME u"datos" (Scripted.start Scripted.wordy))))
        0 = Some m
      /\ msg_role m = user
      /\ Str.contains (msg_content m) Scripted.long_text = false
      /\ Str.contains (msg_content m) (firstn 80 Scripted.long_text ++ u"...") = true)
  /\ (exists m,
         nth_error
           (st_messages
              (snd (@CvAgent.chat Scripted.Cents (Scripted.services Scripted.wordy)
                      CvAgent.MODEL_NAME u"datos" (Scripted.start Scripted.wordy))))
           1 = Some m
         /\ msg_role m = user
         /\ Str.contains (msg_content m) Scripted.long_text = false
         /\ Str.contains (msg_content m) (firstn 300 Scripted.long_text) = true).
Proof.
  split; eexists; (split; [vm_compute; reflexivity |]); repeat split; vm_compute; reflexivity.
Qed.

(** The long chunk through both retrievers and into both prompts. *)
Lemma context_text_truncation_witness :
  (exists head,
      @VectorDb.format_hit Scripted.Cents
        (Scripted.a_hit u"cv_chunk_1" 87 (Some u"cv") (Some Scripted.long_text))
      = Ok (head ++ u"text: " ++ firstn 80 Scripted.long_text ++ u"..."))
  /\ (exists head rest,
         st_messages
           (snd (@ChatGroq.chat Scripted.Cents (Scripted.services Scripted.wordy)
                   u"cv-index" ChatGroq.MODEL_NAME u"datos"
                   (Scripted.start Scripted.wordy)))
         = msg user (u"datos" ++ nl ++ nl ++ u"Contexto: "
                     ++ Str.join u" " [head ++ u"text: " ++ firstn 80 Scripted.long_text
                                       ++ u"..."])
           :: rest)
  /\ (forall en,
         @CvAgent.make_entry Scripted.Cents
           (Scripted.a_hit u"cv_chunk_1" 87 (Some u"cv") (Some Scripted.long_text)) = Ok en ->
         e_text en = Scripted.long_text)
  /\ (exists rest,
         st_messages
           (snd (@CvAgent.chat Scripted.Cents (Scripted.services Scripted.wordy)
                   CvAgent.MODEL_NAME u"datos" (Scripted.start Scripted.wordy)))
         = msg system CvAgent.system_msg
           :: msg user
                (u"Consulta del usuario: " ++ u"datos" ++ nl ++ nl
                 ++ u"Índice seleccionado: " ++ u"cv-index" ++ nl
                 ++ u"Contexto (fragmentos):" ++ nl ++ u"- "
                 ++ firstn 300 Scripted.long_text
                 ++ nl ++ nl ++ u"Responde de forma concisa y útil.")
           :: rest).
Proof.
  destruct (@context_text_truncation Scripted.Cents (Scripted.services Scripted.wordy))
    as (P1 & _ & _ & P4 & _ & P6 & P7).
  split; [| split; [| split]].
  - eapply P1; reflexivity.
  - edestruct (P1 (Scripted.a_hit u"cv_chunk_1" 87 (Some u"cv") (Some Scripted.long_text)))
      as [head Hh]; try reflexivity.
    edestruct (P6 u"cv-index" ChatGroq.MODEL_NAME u"datos" false
                 (Scripted.start Scripted.wordy) u"{}" 1) as [_ [[rest H] _]].
    + reflexivity.
    + reflexivity.
    + reflexivity.
    + apply Forall2_cons; [exact Hh | apply Forall2_nil].
    + exists head, rest. exact H.
  - intros en H. eapply P4; [| | exact H]; reflexivity.
  - edestruct (P7 CvAgent.MODEL_NAME u"datos" (Scripted.start Scripted.wordy) u"cv-index")
      as [_ [[rest H] _]].
    + vm_compute. reflexivity.
    + discriminate.
    + vm_compute. reflexivity.
    + vm_compute. reflexivity.
    + reflexivity.
    + apply Forall2_cons; [reflexivity | apply Forall2_nil].
    + exists rest. rewrite H. vm_compute. reflexivity.
Defined.

(** * Errors after start-up *)

Section Containment.
Context {F : PyFloat} {S : Services}.

Lemma contains_ret {A} (a : A) : contains_failures (ret a).
Proof. intros s e s' H. discriminate H. Qed.

Lemma contains_log (l : level) (a : log_arg) : contains_failures (log l a).
Proof. intros s e s' H. discriminate H. Qed.

Lemma contains_write (t : str) : contains_failures (write t).
Proof. intros s e s' H. discriminate H. Qed.

Lemma contains_append (r : role) (c : str) : contains_failures (messages_append r c).
Proof. intros s e s' H. discriminate H. Qed.

Lemma contains_get_messages : contains_failures get_messages.
Proof. intros s e s' H. discriminate H. Qed.

Lemma contains_bind {A B} (c : M A) (k : A -> M B) :
  contains_failures c -> (forall a, contains_failures (k a)) -> contains_failures (bind c k).
Proof.
  intros Hc Hk s e s' H. unfold bind in H.
  destruct (c s) as [[a|e0] s1] eqn:E.
  - exact (Hk a _ _ _ H).
  - injection H as <- <-. exact (Hc _ _ _ E).
Qed.

(** A handler for [Exception] lets through only what is not an
    [Exception], whatever the body raises. *)
Lemma contains_try {A} (body : M A) (handler : exn -> M A) :
  (forall e, contains_failures (handler e)) -> contains_failures (try_except body handler).
Proof.
  intros Hh s e s' H. unfold try_except in H.
  destruct (body s) as [[a|e0] s1]; [discriminate|].
  destruct (is_Exception e0) eqn:E.
  - exact (Hh e0 _ _ _ H).
  - injection H as <- <-. now left.
Qed.

Lemma contains_raise_base {A} (e : exn) :
  is_Exception e = false -> contains_failures (@raise _ _ A e).
Proof. intros He s e' s' H. injection H as <- <-. now left. Qed.

End Containment.

Section AgentContainment.
Context {F : PyFloat} {S : Services}.

Lemma contains_print (t : str) : contains_failures (print t).
Proof.
  unfold print.
  walk ltac:(auto 1 using contains_ret, contains_log, contains_write, contains_append, contains_get_messages with nocore)
    uconstr:(contains_bind) uconstr:(contains_try).
Qed.

Lemma contains_logging_info (t : str) : contains_failures (logging_info t).
Proof.
  unfold logging_info.
  walk ltac:(auto 1 using contains_ret, contains_log, contains_write, contains_append, contains_get_messages with nocore)
    uconstr:(contains_bind) uconstr:(contains_try).
Qed.

Lemma contains_logging_warning (t : str) : contains_failures (logging_warning t).
Proof.
  unfold logging_warning.
  walk ltac:(auto 1 using contains_ret, contains_log, contains_write, contains_append, contains_get_messages with nocore)
    uconstr:(contains_bind) uconstr:(contains_try).
Qed.

Lemma contains_logging_error (t : str) : contains_failures (logging_error t).
Proof.
  unfold logging_error.
  walk ltac:(auto 1 using contains_ret, contains_log, contains_write, contains_append, contains_get_messages with nocore)
    uconstr:(contains_bind) uconstr:(contains_try).
Qed.

Lemma contains_sleep : contains_failures sleep.
Proof.
  unfold sleep.
  walk ltac:(auto 1 using contains_ret, contains_log, contains_write, contains_append, contains_get_messages with nocore)
    uconstr:(contains_bind) uconstr:(contains_try).
Qed.

Lemma contains_parse_hits debug hs data :
  contains_failures (CvAgent.parse_hits debug hs data).
Proof.
  revert data. induction hs as [|h rest IH]; intros data; simpl;
    walk ltac:(auto 1 using contains_ret, contains_log, contains_write, contains_append, contains_get_messages,
      contains_print, contains_logging_info, contains_logging_warning,
      contains_logging_error, contains_sleep with nocore)
    uconstr:(contains_bind) uconstr:(contains_try).
Qed.

Lemma contains_agent_search idx text top_k ns debug :
  contains_failures (CvAgent.search_similar idx text top_k ns debug).
Proof.
  unfold CvAgent.search_similar.
  walk ltac:(auto 1 using contains_ret, contains_log, contains_write, contains_append, contains_get_messages,
      contains_print, contains_logging_info, contains_logging_warning,
      contains_logging_error, contains_sleep,
      contains_parse_hits with nocore)
    uconstr:(contains_bind) uconstr:(contains_try).
  now apply contains_raise_base.
Qed.

Lemma contains_collect_chunks query indexes cv_chunks :
  contains_failures (CvAgent.collect_chunks query indexes cv_chunks).
Proof.
  revert cv_chunks. induction indexes as [|idx rest IH]; intros cv_chunks; simpl;
    walk ltac:(auto 1 using contains_ret, contains_log, contains_write, contains_append, contains_get_messages,
      contains_print, contains_logging_info, contains_logging_warning,
      contains_logging_error, contains_sleep,
      contains_agent_search with nocore)
    uconstr:(contains_bind) uconstr:(contains_try).
Qed.

Lemma contains_selector model query :
  contains_failures (CvAgent.CVSelectorTool_run model query).
Proof.
  unfold CvAgent.CVSelectorTool_run.
  walk ltac:(auto 1 using contains_ret, contains_log, contains_write, contains_append, contains_get_messages,
      contains_print, contains_logging_info, contains_logging_warning,
      contains_logging_error, contains_sleep,
      contains_collect_chunks with nocore)
    uconstr:(contains_bind) uconstr:(contains_try).
Qed.

Lemma contains_retriever name query top_k :
  contains_failures (CvAgent.CVRetrieverTool_run name query top_k).
Proof.
  unfold CvAgent.CVRetrieverTool_run.
  walk ltac:(auto 1 using contains_ret, contains_log, contains_write, contains_append, contains_get_messages,
      contains_print, contains_logging_info, contains_logging_warning,
      contains_logging_error, contains_sleep,
      contains_agent_search with nocore)
    uconstr:(contains_bind) uconstr:(contains_try).
Qed.

(** The reading loop raises only what the stream's iterator raises. *)
Lemma agent_consume_raises chunks failure :
  forall response s e s',
    CvAgent.consume chunks failure response s = (Raise e, s') -> failure = Some e.
Proof.
  induction chunks as [|c rest IH]; intros response s e s' H; simpl in H.
  - destruct failure as [e0|]; [| discriminate]. injection H as <- _. reflexivity.
  - destruct (Str.truthy (CvAgent.safe_delta c)).
    + unfold bind, write in H. simpl in H. exact (IH _ _ _ _ H).
    + exact (IH _ _ _ _ H).
Qed.

Lemma contains_responder model messages :
  contains_failures (CvAgent.LLMResponderTool_run model messages).
Proof.
  intros s e s' H. unfold CvAgent.LLMResponderTool_run in H. cbv zeta in H.
  unfold bind at 1 in H. unfold try_except in H. unfold bind at 1 in H.
  unfold remote in H.
  destruct (completions_create_stream (CvAgent.responder_request model messages)
              (st_world s)) as [[strm|e0] w1] eqn:E.
  - cbv iota beta in H. unfold ret at 1 in H. cbv iota beta in H.
    unfold bind at 1 in H.
    match type of H with
    | context [CvAgent.consume ?a ?b ?c ?st] =>
      destruct (CvAgent.consume a b c st) as [[r|e1] s2] eqn:Ec
    end.
    + discriminate H.
    + injection H as <- <-. apply agent_consume_raises in Ec.
      right. now exists (CvAgent.responder_request model messages), (st_world s), strm, w1.
  - cbv iota beta in H. destruct (is_Exception e0) eqn:He.
    + discriminate H.
    + injection H as <- <-. now left.
Qed.

Lemma contains_agent_chat model q : contains_failures (CvAgent.chat model q).
Proof.
  unfold CvAgent.chat.
  walk ltac:(auto 1 using contains_ret, contains_log, contains_write, contains_append, contains_get_messages,
      contains_print, contains_logging_info, contains_logging_warning,
      contains_logging_error, contains_sleep,
      contains_selector, contains_retriever, contains_responder with nocore)
    uconstr:(contains_bind) uconstr:(contains_try).
Qed.

End AgentContainment.

Section SteadyState.
Context {F : PyFloat} {S : Services}.

(** C8, as the code has it. After start-up, an Exception raised during a
    turn of either base script ends the loop and the process: the search
    script logs "Error inesperado" and exits with status 1, the chat script
    prints the error and exits with status 0. In the agent, the only
    exceptions that can leave [chat] are those that are not an [Exception]
    (an interrupt) and those raised while a streamed answer is read: every
    Exception raised by the listing, by opening an index, by a search or by
    a call that opens a completion is taken by a handler inside the tools.
    After a turn that returns, the agent's loop goes on with the next
    input. When the listing of indexes fails, the turn logs the failure at
    level ERROR and returns the fixed string "No encontré un CV relevante
    para tu consulta.". *)
Theorem steady_state_errors :
  (forall idx l rest s e s1,
      forallb Str.is_space l = false ->
      VectorDb.search_similar idx (Str.strip l) 3 VectorDb.NAMESPACE true
        (snd (write u"Texto a buscar (Enter para salir): " s)) = (Raise e, s1) ->
      is_Exception e = true ->
      VectorDb.interactive idx (Line l :: rest) s
      = (Exit 1, snd (logging_error (u"Error inesperado: " ++ exn_str e) s1)))
  /\ (forall idx l rest s e s1,
         str_in (Str.lower l) [u"exit"; u"quit"] = false ->
         ChatGroq.chat idx ChatGroq.MODEL_NAME l
           (snd (write u"Tú: "
                   (snd (print u"Iniciando sesión de chat. Escribe 'exit' o 'quit' para salir."
                           s))))
         = (Raise e, s1) ->
         is_Exception e = true ->
         ChatGroq.interactive idx (Line l :: rest) s
         = (Exit 0,
            snd (print (nl ++ u"Se ha producido un error inesperado: " ++ exn_str e) s1)))
  /\ (forall model q s e s1,
         CvAgent.chat model q s = (Raise e, s1) ->
         is_Exception e = false \/ broken_stream e)
  /\ (forall l rest s r s1,
         str_in (Str.lower (Str.strip l)) [u"exit"; u"quit"] = false ->
         forallb Str.is_space l = false ->
         CvAgent.chat CvAgent.MODEL_NAME (Str.strip l)
           (snd (print (nl ++ u"--- Respuesta ---") (snd (write u"Tú: " s))))
         = (Ok r, s1) ->
         CvAgent.main_loop (Line l :: rest) s
         = (print (nl ++ u"-----------------" ++ nl) ;; CvAgent.main_loop rest) s1)
  /\ (forall model q s e w1,
         list_indexes (st_world s) = (Raise e, w1) ->
         is_Exception e = true ->
         fst (CvAgent.chat model q s) = Ok u"No encontré un CV relevante para tu consulta."
         /\ st_log (snd (CvAgent.chat model q s))
            = st_log s
              ++ [(ERROR, LogText (u"No fue posible listar índices de Pinecone: "
                                     ++ exn_str e));
                  (WARNING, LogText u"No se pudo identificar el CV en la base de datos.")]).
Proof.
  split; [| split; [| split; [| split]]].
  - intros idx l rest s e s1 Hl Hs He.
    unfold VectorDb.interactive. cbn [VectorDb.main_loop].
    unfold bind at 1. cbn [write fst snd] in *.
    rewrite strip_truthy, Hl. cbn [negb].
    rewrite (bind_Raise _ _ _ Hs).
    destruct e; try discriminate He; reflexivity.
  - intros idx l rest s e s1 Hl Hs He.
    unfold ChatGroq.interactive. unfold bind at 1. unfold print at 1. unfold print in Hs.
    cbn [write fst snd] in *. cbn [ChatGroq.main_loop].
    unfold bind at 1. cbn [write fst snd] in *. rewrite Hl.
    rewrite (bind_Raise _ _ _ Hs).
    destruct e; try discriminate He; reflexivity.
  - intros model q s e s1 H. exact (contains_agent_chat model q _ H).
  - intros l rest s r s1 Hl Hb Hc.
    cbn [CvAgent.main_loop]. unfold bind at 1. cbn [write fst snd] in *.
    rewrite Hl, strip_truthy, Hb. cbn [negb].
    unfold bind at 1. unfold print at 1. unfold print in Hc. cbn [write fst snd] in *.
    rewrite (bind_Ok _ _ _ Hc). reflexivity.
  - intros model q s e w1 H He.
    destruct (CvAgent.chat model q s) as [r s'] eqn:E.
    unfold CvAgent.chat, CvAgent.CVSelectorTool_run in E.
    unfold bind at 1 2 in E. unfold try_except, bind at 1 in E. unfold remote in E.
    rewrite H, He in E. simpl in E. injection E as <- <-. simpl.
    rewrite <- app_assoc. split; reflexivity.
Qed.

End SteadyState.

(** A search that fails in the base search script, and a completion that
    fails in the base chat script: the process ends after the first line,
    with one prompt written and the second line never read. *)
Lemma steady_state_error_ends_base_scripts :
  (fst (@VectorDb.interactive Scripted.Cents (Scripted.services Scripted.pinecone_down)
          u"cv-index" [Line u"datos"; Line u"estudios"]
          (Scripted.start Scripted.pinecone_down)) = Exit 1
   /\ st_out
        (snd (@VectorDb.interactive Scripted.Cents (Scripted.services Scripted.pinecone_down)
                u"cv-index" [Line u"datos"; Line u"estudios"]
                (Scripted.start Scripted.pinecone_down)))
      = [u"Texto a buscar (Enter para salir): "])
  /\ (fst (@ChatGroq.interactive Scripted.Cents (Scripted.services Scripted.groq_down)
             u"cv-index" [Line u"datos"; Line u"estudios"]
             (Scripted.start Scripted.groq_down)) = Exit 0
      /\ List.length
           (filter (fun t => Str.eqb t u"Tú: ")
              (st_out
                 (snd (@ChatGroq.interactive Scripted.Cents
                         (Scripted.services Scripted.groq_down)
                         u"cv-index" [Line u"datos"; Line u"estudios"]
                         (Scripted.start Scripted.groq_down))))) = 1).
Proof. repeat split; vm_compute; reflexivity. Qed.

(** The three scripts with a service down. *)
Lemma steady_state_errors_witness :
  fst (@VectorDb.interactive Scripted.Cents (Scripted.services Scripted.pinecone_down)
         u"cv-index" [Line u"datos"; Line u"estudios"]
         (Scripted.start Scripted.pinecone_down)) = Exit 1
  /\ fst (@ChatGroq.interactive Scripted.Cents (Scripted.services Scripted.groq_down)
            u"cv-index" [Line u"datos"; Line u"estudios"]
            (Scripted.start Scripted.groq_down)) = Exit 0
  /\ fst (@CvAgent.chat Scripted.Cents (Scripted.services Scripted.listing_down)
            CvAgent.MODEL_NAME u"datos" (Scripted.start Scripted.listing_down))
     = Ok u"No encontré un CV relevante para tu consulta."
  /\ (exists s1,
        @CvAgent.main_loop Scripted.Cents (Scripted.services Scripted.listing_down)
          [Line u"datos"; Line u"exit"] (Scripted.start Scripted.listing_down)
        = (print (nl ++ u"-----------------" ++ nl) ;;
           @CvAgent.main_loop Scripted.Cents (Scripted.services Scripted.listing_down)
             [Line u"exit"]) s1)
  /\ (is_Exception (ServiceError u"connection reset") = false
      \/ @broken_stream Scripted.Cents (Scripted.services Scripted.stream_breaks)
           (ServiceError u"connection reset")).
Proof.
  split; [| split; [| split; [| split]]].
  - destruct (@steady_state_errors Scripted.Cents (Scripted.services Scripted.pinecone_down))
      as (P & _).
    erewrite (fun s1 H => P u"cv-index" u"datos" [Line u"estudios"]
                            (Scripted.start Scripted.pinecone_down)
                            (ServiceError u"503 Service Unavailable") s1 eq_refl H eq_refl);
      [reflexivity | vm_compute; reflexivity].
  - destruct (@steady_state_errors Scripted.Cents (Scripted.services Scripted.groq_down))
      as (_ & P & _).
    erewrite (fun s1 H => P u"cv-index" u"datos" [Line u"estudios"]
                            (Scripted.start Scripted.groq_down)
                            (ServiceError u"503 Service Unavailable") s1 eq_refl H eq_refl);
      [reflexivity | vm_compute; reflexivity].
  - destruct (@steady_state_errors Scripted.Cents (Scripted.services Scripted.listing_down))
      as (_ & _ & _ & _ & P).
    edestruct (P CvAgent.MODEL_NAME u"datos" (Scripted.start Scripted.listing_down))
      as [H _]; [reflexivity | reflexivity | exact H].
  - destruct (@steady_state_errors Scripted.Cents (Scripted.services Scripted.listing_down))
      as (_ & _ & _ & P & _).
    eexists. eapply (P u"datos" [Line u"exit"] (Scripted.start Scripted.listing_down)).
    + reflexivity.
    + reflexivity.
    + vm_compute. reflexivity.
  - destruct (@steady_state_errors Scripted.Cents (Scripted.services Scripted.stream_breaks))
      as (_ & _ & P & _).
    eapply (P CvAgent.MODEL_NAME u"datos" (Scripted.start Scripted.stream_breaks)).
    vm_compute. reflexivity.
Defined.

(** * More of the scripts: start-up of the search script *)

Section Output.
Context {F : PyFloat} {S : Services}.

Lemma quiet_ret {A} (a : A) : keeps_output (ret a).
Proof. intros s. reflexivity. Qed.

Lemma quiet_raise {A} (e : exn) : keeps_output (@raise _ _ A e).
Proof. intros s. reflexivity. Qed.

Lemma quiet_lift {A} (r : res A) : keeps_output (lift r).
Proof. intros s. reflexivity. Qed.

Lemma quiet_remote {A} (c : call) (f : world -> res A * world) : keeps_output (remote c f).
Proof. intros s. unfold remote. destruct (f (st_world s)). reflexivity. Qed.

Lemma quiet_log (l : level) (a : log_arg) : keeps_output (log l a).
Proof. intros s. reflexivity. Qed.

Lemma quiet_bind {A B} (c : M A) (k : A -> M B) :
  keeps_output c -> (forall a, keeps_output (k a)) -> keeps_output (bind c k).
Proof.
  intros Hc Hk s. unfold bind. specialize (Hc s).
  destruct (c s) as [[a|e] s1]; simpl in *; [now rewrite Hk | exact Hc].
Qed.

Lemma quiet_try {A} (body : M A) (handler : exn -> M A) :
  keeps_output body -> (forall e, keeps_output (handler e)) ->
  keeps_output (try_except body handler).
Proof.
  intros Hb Hh s. unfold try_except. specialize (Hb s).
  destruct (body s) as [[a|e] s1]; simpl in *; [exact Hb|].
  destruct (is_Exception e); simpl; [now rewrite Hh | exact Hb].
Qed.

End Output.

Section BaseStartup.
Context {F : PyFloat} {S : Services}.

Lemma quiet_logging_info t : keeps_output (logging_info t).
Proof.
  unfold logging_info.
  walk ltac:(auto 2 using quiet_ret, quiet_raise, quiet_lift, quiet_remote, quiet_log with nocore)
    uconstr:(quiet_bind) uconstr:(quiet_try).
Qed.
Lemma quiet_logging_warning t : keeps_output (logging_warning t).
Proof.
  unfold logging_warning.
  walk ltac:(auto 2 using quiet_ret, quiet_raise, quiet_lift, quiet_remote, quiet_log with nocore)
    uconstr:(quiet_bind) uconstr:(quiet_try).
Qed.
Lemma quiet_logging_error t : keeps_output (logging_error t).
Proof.
  unfold logging_error.
  walk ltac:(auto 2 using quiet_ret, quiet_raise, quiet_lift, quiet_remote, quiet_log with nocore)
    uconstr:(quiet_bind) uconstr:(quiet_try).
Qed.
Lemma quiet_sleep : keeps_output sleep.
Proof.
  unfold sleep.
  walk ltac:(auto 2 using quiet_ret, quiet_raise, quiet_lift, quiet_remote, quiet_log with nocore)
    uconstr:(quiet_bind) uconstr:(quiet_try).
Qed.

Lemma quiet_ensure_index name : keeps_output (VectorDb.ensure_index name).
Proof.
  unfold VectorDb.ensure_index.
  walk ltac:(auto 2 using quiet_ret, quiet_raise, quiet_lift, quiet_remote, quiet_log,
      quiet_logging_info, quiet_logging_warning, quiet_logging_error, quiet_sleep with nocore)
    uconstr:(quiet_bind) uconstr:(quiet_try).
Qed.

Lemma quiet_upload idx chunks : forall i, keeps_output (VectorDb.upload idx i chunks).
Proof.
  induction chunks as [|c rest IH]; intros i; simpl;
    walk ltac:(auto 2 using quiet_ret, quiet_raise, quiet_lift, quiet_remote, quiet_log,
      quiet_logging_info, quiet_logging_warning, quiet_logging_error, quiet_sleep with nocore)
    uconstr:(quiet_bind) uconstr:(quiet_try).
Qed.

Lemma quiet_load_data idx : keeps_output (VectorDb.load_data idx).
Proof.
  unfold VectorDb.load_data.
  walk ltac:(auto 2 using quiet_ret, quiet_raise, quiet_lift, quiet_remote, quiet_log,
      quiet_logging_info, quiet_logging_warning, quiet_logging_error, quiet_sleep, quiet_upload with nocore)
    uconstr:(quiet_bind) uconstr:(quiet_try).
Qed.

(** ensure_index *)
(** X1. [ensure_index(name)] creates an index only when the listing does not
    hold the name. With the name listed, its remote calls are the listing
    and the opening of the index, and nothing else. With the name not
    listed, the creation call follows the listing, and a run that returns
    has made exactly listing, creation, opening. *)
Theorem ensure_index_creates_only_missing (name : str) (s : state)
    (existing : list str) (w1 : world) :
  list_indexes (st_world s) = (Ok existing, w1) ->
  (In name existing ->
     st_calls (snd (VectorDb.ensure_index name s))
     = st_calls s ++ [CallListIndexes; CallIndex name])
  /\ (~ In name existing ->
        (forall idx, fst (VectorDb.ensure_index name s) = Ok idx ->
           st_calls (snd (VectorDb.ensure_index name s))
           = st_calls s ++ [CallListIndexes; CallCreateIndex name; CallIndex name])
        /\ exists rest,
             st_calls (snd (VectorDb.ensure_index name s))
             = st_calls s ++ CallListIndexes :: CallCreateIndex name :: rest).
Proof.
  intros H.
  destruct (VectorDb.ensure_index name s) as [r s'] eqn:E.
  unfold VectorDb.ensure_index in E.
  unfold bind at 1 in E. unfold remote at 1 in E. rewrite H in E. cbv iota beta in E.
  split.
  - intros Hin. apply str_in_In in Hin. rewrite Hin in E. cbn [negb] in E.
    unfold bind at 1 in E. unfold logging_info, log in E. cbv iota beta in E.
    unfold remote in E. simpl in E.
    destruct (open_index name w1) as [ri w2]. injection E as <- <-. simpl.
    now rewrite <- app_assoc.
  - intros Hnot.
    assert (Hf : str_in name existing = false).
    { destruct (str_in name existing) eqn:E1; [| reflexivity].
      apply str_in_In in E1. contradiction. }
    rewrite Hf in E. cbn [negb] in E.
    unfold bind at 1 2 in E. unfold logging_info at 1, log at 1 in E. cbv iota beta in E.
    unfold bind at 1 in E. unfold remote at 1 in E. simpl in E.
    destruct (create_index_for_model name w1) as [[[]|e] w2].
    + unfold bind, sleep, ret, logging_info, log, remote in E. simpl in E.
      destruct (open_index name w2) as [ri w3]. injection E as <- <-. simpl.
      rewrite <- !app_assoc. simpl. split; [reflexivity | now eexists].
    + simpl in E. injection E as <- <-. simpl. rewrite <- app_assoc. simpl.
      split; [discriminate | now eexists].
Qed.

Lemma chunk_ids_step (i n : nat) :
  chunk_ids i (Datatypes.S n) = (u"cv_chunk_" ++ Str.of_nat (i + 1)) :: chunk_ids (Datatypes.S i) n.
Proof. reflexivity. Qed.

Lemma upload_in_order (idx : index) (chunks : list str) :
  forall (i : nat) (s : state),
  exists k,
    k <= List.length chunks
    /\ st_calls (snd (VectorDb.upload idx i chunks s))
       = st_calls s ++ map CallUpsert (chunk_ids i k)
    /\ (forall r, fst (VectorDb.upload idx i chunks s) = Ok r -> k = List.length chunks).
Proof.
  induction chunks as [|c rest IH]; intros i s.
  - exists 0. simpl. rewrite app_nil_r. auto.
  - destruct (VectorDb.upload idx i (c :: rest) s) as [r0 s'] eqn:E.
    cbn [VectorDb.upload] in E. unfold bind at 1 in E. unfold remote at 1 in E.
    destruct (upsert_records idx VectorDb.NAMESPACE _ (st_world s)) as [[[]|e] w1].
    + cbv iota beta in E. unfold bind at 1 in E.
      unfold logging_info at 1, log at 1 in E. cbv iota beta in E.
      match type of E with
      | VectorDb.upload idx (Datatypes.S i) rest ?st = _ =>
        destruct (IH (Datatypes.S i) st) as (k & Hk & Hc & Hr)
      end.
      rewrite E in Hc, Hr. cbn [fst snd st_calls] in Hc, Hr.
      exists (Datatypes.S k). split; [simpl; lia | split].
      * cbn [fst snd]. rewrite Hc, chunk_ids_step. cbn [map].
        rewrite <- app_assoc. reflexivity.
      * cbn [fst snd]. intros r Hok. simpl. f_equal. exact (Hr r Hok).
    + injection E as <- <-.
      exists 1. split; [simpl; lia | split]; [reflexivity | discriminate].
Qed.

Lemma load_data_read (idx : index) (s : state) (chunks : list str) (w1 : world) :
  read_and_chunk_sentences u"cv1.txt" 3 1 (st_world s) = (Ok chunks, w1) ->
  VectorDb.load_data idx s
  = (VectorDb.upload idx 0 chunks ;;
     logging_info u"Carga de todos los registros completada." ;;
     sleep) (chunks_read s w1 (List.length chunks)).
Proof.
  intros H. unfold VectorDb.load_data.
  unfold bind at 1. unfold logging_info at 1, log at 1. cbv iota beta.
  unfold bind at 1. unfold remote at 1. simpl st_world.
  change VectorDb.CHUNK_SIZE with 3. change VectorDb.CHUNK_OVERLAP with 1.
  rewrite H. cbv iota beta.
  unfold bind at 1. unfold logging_info at 1, log at 1. cbv iota beta.
  unfold chunks_read. simpl. now rewrite <- !app_assoc.
Qed.

Lemma upload_app (idx : index) (before rest : list str) :
  forall (i : nat) (s : state),
    VectorDb.upload idx i (before ++ rest) s
    = match VectorDb.upload idx i before s with
      | (Ok _, s1) => VectorDb.upload idx (i + List.length before) rest s1
      | (Raise e, s1) => (Raise e, s1)
      end.
Proof.
  induction before as [|c before IH]; intros i s.
  - simpl. now rewrite Nat.add_0_r.
  - cbn [app VectorDb.upload List.length]. unfold bind.
    destruct (remote _ _ s) as [[[]|e] s1]; [| reflexivity].
    unfold logging_info, log. cbv iota beta.
    rewrite IH. now replace (Datatypes.S i + List.length before)
                  with (i + Datatypes.S (List.length before)) by lia.
Qed.

Lemma upload_stops (idx : index) (i : nat) (before : list str) (c : str) (after : list str)
    (s s1 : state) (e : exn) (w2 : world) :
  VectorDb.upload idx i before s = (Ok tt, s1) ->
  upsert_records idx u"cv-namespace"
    [{| rec_id := u"cv_chunk_" ++ Str.of_nat (i + List.length before + 1);
        rec_chunk_text := c; rec_category := u"cv" |}] (st_world s1)
  = (Raise e, w2) ->
  VectorDb.upload idx i (before ++ c :: after) s
  = (Raise e,
     {| st_world := w2;
        st_calls := st_calls s
                    ++ map CallUpsert (chunk_ids i (List.length before + 1));
        st_log := st_log s1; st_out := st_out s1; st_err := st_err s1;
        st_messages := st_messages s1 |}).
Proof.
  intros H1 H2. rewrite upload_app, H1. cbn [VectorDb.upload].
  unfold bind at 1. unfold remote at 1.
  change VectorDb.NAMESPACE with u"cv-namespace". rewrite H2.
  destruct (upload_in_order idx before i s) as (k & Hk & Hc & Hr).
  rewrite H1 in Hc, Hr. simpl in Hc, Hr. rewrite (Hr tt eq_refl) in Hc.
  rewrite Hc. unfold chunk_ids. rewrite seq_app, map_app, map_app, <- app_assoc.
  reflexivity.
Qed.

(** X2. [load_data] reads "cv1.txt" once and then upserts one record per
    chunk, in order, under the identifiers cv_chunk_1, cv_chunk_2, ...; the
    upserts made are those of a prefix of the chunks, and of all the chunks
    when it returns. It stops at the first upsert that raises: when the
    chunks before [c] were upserted and the upsert of [c] raises [e],
    [load_data] raises [e], the upsert of [c] is the last remote call, and
    no record is logged after those of the chunks before it. *)
Theorem load_data_upserts_in_order (idx : index) (s : state) (chunks : list str)
    (w1 : world) :
  read_and_chunk_sentences u"cv1.txt" 3 1 (st_world s) = (Ok chunks, w1) ->
  (exists k,
      k <= List.length chunks
      /\ st_calls (snd (VectorDb.load_data idx s))
         = st_calls s ++ CallReadChunks u"cv1.txt" :: map CallUpsert (chunk_ids 0 k)
      /\ (fst (VectorDb.load_data idx s) = Ok tt -> k = List.length chunks))
  /\ (forall before c after s1 e w2,
         chunks = before ++ c :: after ->
         VectorDb.upload idx 0 before (chunks_read s w1 (List.length chunks)) = (Ok tt, s1) ->
         upsert_records idx u"cv-namespace"
           [{| rec_id := u"cv_chunk_" ++ Str.of_nat (List.length before + 1);
               rec_chunk_text := c; rec_category := u"cv" |}] (st_world s1)
         = (Raise e, w2) ->
         fst (VectorDb.load_data idx s) = Raise e
         /\ st_calls (snd (VectorDb.load_data idx s))
            = st_calls s
              ++ CallReadChunks u"cv1.txt"
              :: map CallUpsert (chunk_ids 0 (List.length before + 1))
         /\ st_log (snd (VectorDb.load_data idx s)) = st_log s1).
Proof.
  intros H. rewrite (load_data_read idx s H). split.
  - unfold bind at 1 2 3.
    destruct (upload_in_order idx chunks 0 (chunks_read s w1 (List.length chunks)))
      as (k & Hk & Hc & Hr).
    destruct (VectorDb.upload idx 0 chunks (chunks_read s w1 (List.length chunks)))
      as [[[]|e] s2]; simpl in Hc, Hr.
    + unfold bind, logging_info, log, sleep, ret. simpl.
      exists k. rewrite Hc, <- app_assoc. simpl. repeat split; [exact Hk |].
      intros _. exact (Hr tt eq_refl).
    + exists k. simpl. rewrite Hc, <- app_assoc. simpl.
      repeat split; [exact Hk | discriminate].
  - intros before c after s1 e w2 -> H1 H2.
    rewrite (bind_Raise _ _ _ (@upload_stops idx 0 before c after _ s1 e w2 H1 H2)).
    cbn [fst snd st_calls st_log chunks_read]. rewrite <- app_assoc.
    split; [reflexivity | split; reflexivity].
Qed.

Lemma format_hits_shape (debug : bool) (hs : list hit) :
  forall (data lines : list str) (s s' : state),
    VectorDb.format_hits debug hs data s = (Ok lines, s') ->
    exists new,
      lines = data ++ new
      /\ Forall2 (fun h l => VectorDb.format_hit h = Ok l) hs new
      /\ st_out s' = st_out s ++ (if debug then map (fun l => l ++ nl) new else [])
      /\ st_calls s' = st_calls s.
Proof.
  induction hs as [|h rest IH]; intros data lines s s' H.
  - simpl in H. injection H as <- <-. exists []. rewrite !app_nil_r.
    split; [reflexivity | split; [apply Forall2_nil | split; [| reflexivity]]].
    destruct debug; simpl; now rewrite app_nil_r.
  - cbn [VectorDb.format_hits] in H. unfold bind at 1, lift in H.
    destruct (VectorDb.format_hit h) as [tmp|e] eqn:Hf; [| discriminate].
    unfold bind at 1 in H.
    destruct debug.
    + unfold print, write in H. cbv iota beta in H.
      destruct (IH _ _ _ _ H) as (new & -> & H2 & H3 & H4).
      exists (tmp :: new). simpl in H3, H4. rewrite H3, H4, <- !app_assoc.
      split; [reflexivity | split; [now constructor | split; reflexivity]].
    + unfold ret in H. cbv iota beta in H.
      destruct (IH _ _ _ _ H) as (new & -> & H2 & H3 & H4).
      exists (tmp :: new). rewrite H3, H4, <- !app_assoc.
      split; [reflexivity | split; [now constructor | split; reflexivity]].
Qed.

(** A search of the base script that returned: its two remote calls
    returned, and the lines are those of the hits of the response. *)
Lemma base_search_returned (idx : index) (text : str) (top_k : nat) (ns : str) (debug : bool)
    (s s' : state) (lines : list str) :
  VectorDb.search_similar idx text top_k ns debug s = (Ok lines, s') ->
  exists stats w1 results w2 hs,
    describe_index_stats idx (st_world s) = (Ok stats, w1)
    /\ index_search idx ns top_k text w1 = (Ok results, w2)
    /\ VectorDb.get_hits results = Ok hs
    /\ Forall2 (fun h l => VectorDb.format_hit h = Ok l) hs lines
    /\ s' = searched s w2 ns top_k text stats (shown debug lines).
Proof.
  intros H. pose proof H as H0. unfold VectorDb.search_similar in H.
  unfold bind at 1 in H. unfold remote at 1 in H.
  destruct (describe_index_stats idx (st_world s)) as [[stats|e] w1] eqn:E1; [| discriminate].
  cbv iota beta in H. unfold bind at 1 in H.
  unfold logging_info at 1, log at 1 in H. cbv iota beta in H.
  unfold bind at 1 in H. unfold remote at 1 in H. simpl st_world in H.
  destruct (index_search idx ns top_k text w1) as [[results|e] w2] eqn:E2; [| discriminate].
  cbv iota beta in H. unfold bind at 1 in H. unfold lift at 1 in H.
  destruct (VectorDb.get_hits results) as [hs|e] eqn:E3; [| discriminate].
  apply format_hits_shape in H. destruct H as (new & -> & H2 & _).
  simpl in H2.
  exists stats, w1, results, w2, hs. repeat split; auto.
  rewrite (base_search_exact _ _ _ _ debug _ E1 E2 E3 H2) in H0. congruence.
Qed.

(** X3. The base script's [search_similar] returns one formatted line per
    hit of the search response, in order: when the index statistics and the
    search return and every hit formats, it returns exactly those lines,
    having made the two remote calls and, with [debug] on, printed each
    returned line followed by a newline (nothing with [debug] off).
    Conversely, whenever it returns, the two calls returned and the lines
    are the formatted hits of that response. *)
Theorem base_search_prints_what_it_returns (idx : index) (text : str) (top_k : nat)
    (ns : str) (debug : bool) (s : state) :
  (forall stats w1 results w2 hs lines,
      describe_index_stats idx (st_world s) = (Ok stats, w1) ->
      index_search idx ns top_k text w1 = (Ok results, w2) ->
      VectorDb.get_hits results = Ok hs ->
      Forall2 (fun h l => VectorDb.format_hit h = Ok l) hs lines ->
      VectorDb.search_similar idx text top_k ns debug s
      = (Ok lines, searched s w2 ns top_k text stats (shown debug lines)))
  /\ (forall lines s',
         VectorDb.search_similar idx text top_k ns debug s = (Ok lines, s') ->
         (exists stats w1 results w2 hs,
             describe_index_stats idx (st_world s) = (Ok stats, w1)
             /\ index_search idx ns top_k text w1 = (Ok results, w2)
             /\ VectorDb.get_hits results = Ok hs
             /\ Forall2 (fun h l => VectorDb.format_hit h = Ok l) hs lines)
         /\ st_out s' = st_out s ++ (if debug then map (fun l => l ++ nl) lines else [])
         /\ st_calls s' = st_calls s ++ [CallDescribeStats; CallSearch ns top_k text]).
Proof.
  split.
  - intros. now apply base_search_exact with (w1 := w1) (results := results) (hs := hs).
  - intros lines s' H.
    destruct (base_search_returned _ _ _ _ _ _ H)
      as (stats & w1 & results & w2 & hs & H1 & H2 & H3 & H4 & ->).
    split; [now exists stats, w1, results, w2, hs | split; reflexivity].
Qed.

(** X4. When [ensure_index] or [load_data] raises in the main block of the
    search script, the process ends with status 1 for an [Exception] and 0
    for an interrupt, the prompt is never written and no input line is
    read. *)
Theorem search_script_startup_failure (inputs : list input_event) (s s1 : state) (e : exn) :
  (VectorDb.ensure_index VectorDb.INDEX_NAME s = (Raise e, s1)
   \/ exists idx s0,
        VectorDb.ensure_index VectorDb.INDEX_NAME s = (Ok idx, s0)
        /\ VectorDb.load_data idx s0 = (Raise e, s1)) ->
  fst (VectorDb.main inputs s) = Exit (if is_Exception e then 1 else 0)
  /\ st_out (snd (VectorDb.main inputs s)) = st_out s
  /\ VectorDb.main inputs s = VectorDb.main [] s.
Proof.
  intros H.
  assert (Hb : forall inp, VectorDb.main_body inp s = (Raise e, s1)).
  { intros inp. unfold VectorDb.main_body. destruct H as [H | (idx & s0 & H1 & H2)].
    - now rewrite (bind_Raise _ _ _ H).
    - rewrite (bind_Ok _ _ _ H1). simpl VectorDb.LOAD_DATA. cbv iota.
      now rewrite (bind_Raise _ _ _ H2). }
  assert (Ho : st_out s1 = st_out s).
  { destruct H as [H | (idx & s0 & H1 & H2)].
    - pose proof (quiet_ensure_index VectorDb.INDEX_NAME s) as K. now rewrite H in K.
    - pose proof (quiet_ensure_index VectorDb.INDEX_NAME s) as K1. rewrite H1 in K1.
      pose proof (quiet_load_data idx s0) as K2. rewrite H2 in K2. simpl in *. congruence. }
  unfold VectorDb.main. rewrite !Hb.
  destruct e; simpl; auto.
Qed.

End BaseStartup.

(** * More of the scripts: the agent's searches *)

Section AgentSearch.
Context {F : PyFloat} {S : Services}.

(** X5. The agent's [search_similar] turns a failed search into an empty
    result: when [index.search] raises an [Exception], or when the payload
    has no "result" or no "hits" key, it returns the empty list and logs
    one ERROR record that names the exception. *)
Theorem agent_search_failure_gives_empty (idx : index) (text : str) (top_k : nat)
    (ns : str) (debug : bool) (s : state) :
  (forall e w1,
      index_search idx ns top_k text (st_world s) = (Raise e, w1) ->
      is_Exception e = true ->
      fst (CvAgent.search_similar idx text top_k ns debug s) = Ok []
      /\ st_log (snd (CvAgent.search_similar idx text top_k ns debug s))
         = st_log s ++ [(ERROR, LogText (u"Error en index.search: " ++ exn_str e))])
  /\ (forall r w1 key,
         index_search idx ns top_k text (st_world s) = (Ok r, w1) ->
         VectorDb.get_hits r = Raise (KeyError key) ->
         fst (CvAgent.search_similar idx text top_k ns debug s) = Ok []
         /\ st_log (snd (CvAgent.search_similar idx text top_k ns debug s))
            = st_log s
              ++ [(ERROR, LogText (u"Error parseando resultados de Pinecone: "
                                     ++ exn_str (KeyError key)))]).
Proof.
  split.
  - intros e w1 H He.
    destruct (CvAgent.search_similar idx text top_k ns debug s) as [r s'] eqn:E.
    unfold CvAgent.search_similar in E.
    unfold bind at 1 in E. unfold try_except in E. unfold bind at 1 in E.
    unfold remote in E. rewrite H, He in E. simpl in E. injection E as <- <-.
    split; reflexivity.
  - intros r w1 key H Hk.
    destruct (CvAgent.search_similar idx text top_k ns debug s) as [r0 s'] eqn:E.
    unfold CvAgent.search_similar in E.
    unfold bind at 1 in E. unfold try_except in E. unfold bind at 1 in E.
    unfold remote in E. rewrite H in E. cbv iota beta in E.
    unfold ret at 1 in E. cbv iota beta in E. rewrite Hk in E.
    simpl in E. injection E as <- <-. split; reflexivity.
Qed.

Lemma parse_hits_until (debug : bool) (good : list hit) (bad : hit) (rest : list hit) :
  Forall (fun h => hit_score h <> Some ScoreNull) good ->
  hit_score bad = Some ScoreNull ->
  forall (data : list entry) (s : state),
  exists es e,
    fst (CvAgent.parse_hits debug (good ++ bad :: rest) data s) = Ok (data ++ es, Some e)
    /\ is_Exception e = true
    /\ Forall2 (fun h en => CvAgent.make_entry h = Ok en) good es
    /\ st_log (snd (CvAgent.parse_hits debug (good ++ bad :: rest) data s))
       = st_log s ++ (if debug then map (fun en => (INFO, LogEntry en)) es else []).
Proof.
  intros Hg Hb. induction Hg as [|h good Hh _ IH]; intros data s.
  - exists [], (TypeError u"float() argument must be a string or a real number, not 'NoneType'").
    cbn [app CvAgent.parse_hits]. unfold CvAgent.make_entry, CvAgent.score_of.
    rewrite Hb. simpl. rewrite !app_nil_r. repeat split.
    + constructor.
    + now destruct debug; rewrite ?app_nil_r.
  - destruct (make_entry_total h Hh) as [en Hen].
    destruct (CvAgent.parse_hits debug ((h :: good) ++ bad :: rest) data s) as [r s'] eqn:E.
    cbn [app CvAgent.parse_hits] in E. rewrite Hen in E. unfold bind at 1 in E.
    destruct debug.
    + unfold log in E. cbv iota beta in E.
      match type of E with
      | CvAgent.parse_hits _ _ _ ?st = _ =>
        destruct (IH (data ++ [en]) st) as (es & e & H1 & H2 & H3 & H4)
      end.
      rewrite E in H1, H4. cbn [fst snd st_log] in H1, H4.
      exists (en :: es), e. cbn [fst snd]. rewrite H1, H4, <- !app_assoc.
      split; [reflexivity | split; [exact H2 | split; [now constructor | reflexivity]]].
    + unfold ret in E. cbv iota beta in E.
      destruct (IH (data ++ [en]) s) as (es & e & H1 & H2 & H3 & H4).
      rewrite E in H1, H4. cbn [fst snd st_log] in H1, H4.
      exists (en :: es), e. cbn [fst snd]. rewrite H1, H4, <- !app_assoc.
      split; [reflexivity | split; [exact H2 | split; [now constructor |]]].
      now rewrite app_nil_r.
Qed.

(** X6. In the agent's [search_similar] the try block is around the whole
    loop: at the first hit whose score is null the loop ends, the entries
    of the hits before it are returned, the hits after it are dropped, and
    one ERROR record is logged. *)
Theorem agent_search_stops_at_malformed_hit (idx : index) (text : str) (top_k : nat)
    (ns : str) (s : state) (good : list hit) (bad : hit) (rest : list hit) (w1 : world) :
  index_search idx ns top_k text (st_world s)
  = (Ok {| result := Some {| hits := Some (good ++ bad :: rest) |} |}, w1) ->
  Forall (fun h => hit_score h <> Some ScoreNull) good ->
  hit_score bad = Some ScoreNull ->
  exists es,
    fst (CvAgent.search_similar idx text top_k ns false s) = Ok es
    /\ Forall2 (fun h en => CvAgent.make_entry h = Ok en) good es
    /\ exists msg,
         st_log (snd (CvAgent.search_similar idx text top_k ns false s))
         = st_log s
           ++ [(ERROR, LogText (u"Error parseando resultados de Pinecone: " ++ msg))].
Proof.
  intros H Hg Hb.
  destruct (CvAgent.search_similar idx text top_k ns false s) as [r s'] eqn:E.
  unfold CvAgent.search_similar in E.
  unfold bind at 1 in E. unfold try_except in E. unfold bind at 1 in E.
  unfold remote in E. rewrite H in E. cbv iota beta in E.
  unfold ret at 1 in E. cbv iota beta in E.
  change (VectorDb.get_hits {| result := Some {| hits := Some (good ++ bad :: rest) |} |})
    with (Ok (good ++ bad :: rest)) in E.
  cbv iota beta in E. unfold bind at 1 in E.
  match type of E with
  | context [CvAgent.parse_hits false _ [] ?st] =>
    destruct (@parse_hits_until false good bad rest Hg Hb [] st) as (es & e & H1 & H2 & H3 & H4);
    destruct (CvAgent.parse_hits false (good ++ bad :: rest) [] st) as [[out|e0] s2]
  end; cbn [fst snd] in H1, H4; [| discriminate].
  injection H1 as ->. cbn [fst snd] in E. rewrite H2 in E.
  unfold bind, logging_error, log, ret in E. simpl in E. injection E as <- <-.
  exists es. split; [reflexivity | split; [exact H3 |]].
  exists (exn_str e). simpl. rewrite H4. simpl. now rewrite app_nil_r.
Qed.

(** X7. When the index cannot be opened, [CVRetrieverTool.run] returns the
    empty list, logs the failure at level ERROR and makes no search call. *)
Theorem retriever_open_failure_gives_empty (name query : str) (top_k : nat) (s : state)
    (e : exn) (w1 : world) :
  open_index name (st_world s) = (Raise e, w1) ->
  is_Exception e = true ->
  fst (CvAgent.CVRetrieverTool_run name query top_k s) = Ok []
  /\ st_calls (snd (CvAgent.CVRetrieverTool_run name query top_k s))
     = st_calls s ++ [CallIndex name]
  /\ st_log (snd (CvAgent.CVRetrieverTool_run name query top_k s))
     = st_log s
       ++ [(ERROR, LogText (u"No se pudo abrir el índice '" ++ name ++ u"': " ++ exn_str e))].
Proof.
  intros H He.
  destruct (CvAgent.CVRetrieverTool_run name query top_k s) as [r s'] eqn:E.
  unfold CvAgent.CVRetrieverTool_run in E.
  unfold bind at 1 in E. unfold try_except in E. unfold bind at 1 in E.
  unfold remote in E. rewrite H, He in E. simpl in E. injection E as <- <-.
  repeat split.
Qed.

End AgentSearch.

(** * More of the scripts: the candidates of the selector *)

Section Candidates.
Context {F : PyFloat} {S : Services}.

Lemma eqb_refl (a : str) : Str.eqb a a = true.
Proof. now apply eqb_eq. Qed.

Lemma eqb_neq (a b : str) : Str.eqb a b = false <-> a <> b.
Proof.
  split.
  - intros H E. apply eqb_eq in E. congruence.
  - intros H. destruct (Str.eqb a b) eqn:E; [| reflexivity]. apply eqb_eq in E. contradiction.
Qed.

Lemma dict_keys_set (k : str) (v : list str) (d : CvAgent.dict) :
  CvAgent.dict_keys (CvAgent.dict_set k v d)
  = if CvAgent.dict_mem k d then CvAgent.dict_keys d else CvAgent.dict_keys d ++ [k].
Proof.
  induction d as [|[k0 v0] r IH]; simpl; [reflexivity|].
  destruct (Str.eqb k k0) eqn:E; simpl.
  - apply eqb_eq in E. now subst.
  - rewrite IH. now destruct (CvAgent.dict_mem k r).
Qed.

Lemma dict_mem_keys (k : str) (d : CvAgent.dict) :
  CvAgent.dict_mem k d = true <-> In k (CvAgent.dict_keys d).
Proof.
  unfold CvAgent.dict_mem, CvAgent.dict_keys. rewrite existsb_exists, in_map_iff. split.
  - intros [kv [Hin He]]. apply eqb_eq in He. exists kv. now split.
  - intros [kv [He Hin]]. exists kv. split; [exact Hin | now apply eqb_eq].
Qed.

Lemma dict_set_NoDup (k : str) (v : list str) (d : CvAgent.dict) :
  NoDup (CvAgent.dict_keys d) -> NoDup (CvAgent.dict_keys (CvAgent.dict_set k v d)).
Proof.
  intros H. rewrite dict_keys_set. destruct (CvAgent.dict_mem k d) eqn:E; [exact H|].
  apply NoDup_app; [exact H | repeat constructor; intros [] |].
  intros x Hx [<- | []]. apply dict_mem_keys in Hx. congruence.
Qed.

Lemma dict_set_Forall (P : str * list str -> Prop) (k : str) (v : list str)
    (d : CvAgent.dict) :
  P (k, v) -> Forall P d -> Forall P (CvAgent.dict_set k v d).
Proof.
  intros Hk. induction 1 as [|[k0 v0] r H0 Hr IH]; simpl.
  - now repeat constructor.
  - destruct (Str.eqb k k0); constructor; assumption.
Qed.

Lemma dict_mem_set_same (k : str) (v : list str) (d : CvAgent.dict) :
  CvAgent.dict_mem k (CvAgent.dict_set k v d) = true.
Proof.
  apply dict_mem_keys. rewrite dict_keys_set.
  destruct (CvAgent.dict_mem k d) eqn:E.
  - now apply dict_mem_keys.
  - apply in_or_app. right. now left.
Qed.

Lemma dict_mem_set_mono (k k' : str) (v : list str) (d : CvAgent.dict) :
  CvAgent.dict_mem k d = true -> CvAgent.dict_mem k (CvAgent.dict_set k' v d) = true.
Proof.
  intros H. apply dict_mem_keys. rewrite dict_keys_set. apply dict_mem_keys in H.
  destruct (CvAgent.dict_mem k' d); [exact H | apply in_or_app; now left].
Qed.

Lemma chunk_texts_well_formed (idx : str) (results : list entry) :
  well_formed_texts
    (idx,
     match map e_text (filter (fun c => Str.truthy (e_text c)) results) with
     | [] => [u"(sin coincidencias relevantes)"]
     | _ :: _ => map e_text (filter (fun c => Str.truthy (e_text c)) results)
     end).
Proof.
  unfold well_formed_texts. simpl.
  destruct (map e_text (filter (fun c => Str.truthy (e_text c)) results)) as [|t ts] eqn:E.
  - split; [discriminate | repeat constructor].
  - split; [discriminate|]. rewrite <- E. apply Forall_forall. intros x Hx.
    apply in_map_iff in Hx. destruct Hx as (c & <- & Hc). apply filter_In in Hc. tauto.
Qed.

Lemma collect_chunks_invariant (q : str) (indexes : list str) :
  forall (d : CvAgent.dict) (s : state) (d' : CvAgent.dict) (s' : state),
    CvAgent.collect_chunks q indexes d s = (Ok d', s') ->
    NoDup (CvAgent.dict_keys d) -> Forall well_formed_texts d ->
    NoDup (CvAgent.dict_keys d') /\ Forall well_formed_texts d'.
Proof.
  induction indexes as [|idx rest IH]; intros d s d' s' H Hn Hw.
  - simpl in H. injection H as <- _. now split.
  - simpl in H. unfold bind at 1 in H. simpl in H. unfold bind at 1 in H.
    match type of H with
    | context [try_except ?b ?h ?st] => destruct (try_except b h st) as [[[i|]|e] s1]
    end; try discriminate.
    + unfold bind at 1 in H. simpl in H. unfold bind at 1 in H.
      match type of H with
      | context [CvAgent.search_similar ?a ?b ?c ?d ?g ?st] =>
        destruct (CvAgent.search_similar a b c d g st) as [[results|e] s2]
      end; try discriminate.
      apply (IH _ _ _ _ H).
      * now apply dict_set_NoDup.
      * apply dict_set_Forall; [apply chunk_texts_well_formed | exact Hw].
    + exact (IH _ _ _ _ H Hn Hw).
Qed.

(** X8. The dict [cv_chunks] that the selector builds has no key twice,
    every key is a listed index name, and every index has at least one
    text and no empty text: an index without usable hits gets the
    placeholder "(sin coincidencias relevantes)". *)
Theorem candidates_are_well_formed (q : str) (indexes : list str) (s s' : state)
    (cv_chunks : CvAgent.dict) :
  CvAgent.collect_chunks q indexes [] s = (Ok cv_chunks, s') ->
  NoDup (CvAgent.dict_keys cv_chunks)
  /\ (forall k, In k (CvAgent.dict_keys cv_chunks) -> In k indexes)
  /\ Forall (fun kv => snd kv <> [] /\ Forall (fun t => t <> []) (snd kv)) cv_chunks.
Proof.
  intros H.
  destruct (@collect_chunks_invariant q indexes [] s cv_chunks s' H) as [H1 H2];
    [constructor | constructor |].
  split; [exact H1 | split].
  - intros k Hk. apply dict_mem_keys in Hk.
    destruct (collect_chunks_keys _ _ _ _ H _ Hk) as [Hd | Hi]; [discriminate | exact Hi].
  - eapply Forall_impl; [| exact H2]. intros kv [Ha Hb]. split; [exact Ha|].
    eapply Forall_impl; [| exact Hb]. intros t Ht ->. discriminate.
Qed.

Lemma collect_chunks_covers (q : str) (indexes : list str) :
  (forall name w, exists i w', open_index name w = (Ok i, w')) ->
  forall (d : CvAgent.dict) (s : state) (d' : CvAgent.dict) (s' : state),
    CvAgent.collect_chunks q indexes d s = (Ok d', s') ->
    (forall k, CvAgent.dict_mem k d = true -> CvAgent.dict_mem k d' = true)
    /\ (forall idx, In idx indexes -> CvAgent.dict_mem idx d' = true).
Proof.
  intros Hopen. induction indexes as [|idx rest IH]; intros d s d' s' H.
  - simpl in H. injection H as <- _. split; [auto | intros ? []].
  - simpl in H. unfold bind at 1 in H. simpl in H. unfold bind at 1 in H.
    unfold try_except in H. unfold bind at 1 in H. unfold remote at 1 in H.
    simpl st_world in H.
    destruct (Hopen idx (st_world s)) as (i & w' & Ho). rewrite Ho in H.
    cbv iota beta in H. unfold ret at 1 in H. cbv iota beta in H.
    unfold bind at 1 in H. simpl in H. unfold bind at 1 in H.
    match type of H with
    | context [CvAgent.search_similar ?a ?b ?c ?d ?g ?st] =>
      destruct (CvAgent.search_similar a b c d g st) as [[results|e] s2]
    end; try discriminate.
    destruct (IH _ _ _ _ H) as [Hm Hi]. split.
    + intros k Hk. apply Hm. now apply dict_mem_set_mono.
    + intros x [<- | Hx]; [apply Hm, dict_mem_set_same | now apply Hi].
Qed.

(** X9. When every index can be opened, the keys of [cv_chunks] are exactly
    the listed index names: no listed index is left out of the candidates,
    also when its search failed or found nothing. *)
Theorem every_opened_index_is_candidate (q : str) (indexes : list str) (s s' : state)
    (cv_chunks : CvAgent.dict) :
  (forall name w, exists i w', open_index name w = (Ok i, w')) ->
  CvAgent.collect_chunks q indexes [] s = (Ok cv_chunks, s') ->
  forall idx, In idx indexes <-> In idx (CvAgent.dict_keys cv_chunks).
Proof.
  intros Hopen H idx. split.
  - intros Hi. apply dict_mem_keys.
    exact (proj2 (@collect_chunks_covers q indexes Hopen [] s cv_chunks s' H) idx Hi).
  - intros Hk. apply dict_mem_keys in Hk.
    destruct (collect_chunks_keys _ _ _ _ H _ Hk) as [Hd | Hi]; [discriminate | exact Hi].
Qed.


End Candidates.

(** * More of the scripts: the remote calls of a turn *)


Section AgentTrace.
Context {F : PyFloat} {S : Services}.

(** X11. Every remote call of a turn of the agent is a listing, the opening
    of an index, a search or a completion request: a turn never creates an
    index, upserts a record, asks for index statistics or reads the corpus
    file. Every search of the turn is for the user's message as it was
    given, with [top_k = 3], in the namespace "cv-namespace". *)
Theorem agent_turn_only_reads (model q : str) (s : state) :
  exists new,
    st_calls (snd (CvAgent.chat model q s)) = st_calls s ++ new
    /\ Forall (fun c => reads_only c /\ searches_for q c) new.
Proof.
  revert s. change (emits (fun c => reads_only c /\ searches_for q c) (CvAgent.chat model q)).
  set (P := fun c => reads_only c /\ searches_for q c).
  assert (H1 : P CallListIndexes) by (split; exact I).
  assert (H2 : forall name, P (CallIndex name)) by (intros; split; exact I).
  assert (H3 : P (CallSearch CvAgent.NAMESPACE 3 q)).
  { split; [exact I | repeat split]. }
  assert (H4 : forall r, P (CallCompletion r)) by (intros; split; exact I).
  pose proof (emits_logging_warning P).
  pose proof (@emits_selector _ _ P CvAgent.MODEL_NAME q H1 H2 H3 (fun cv => H4 _)).
  pose proof (@emits_retriever _ _ P q H2 H3).
  pose proof (fun m => @emits_responder _ _ P model m H4).
  unfold CvAgent.chat. emit.
Qed.

End AgentTrace.

Section ModelCalls.
Context {F : PyFloat} {S : Services}.

Lemma adds_of_emits {A} (c : M A) : emits no_model_call c -> adds_model_calls 0 c.
Proof.
  intros H s. destruct (H s) as (new & E & Hn). rewrite E, filter_app, length_app.
  assert (Hf : filter is_model_call new = []).
  { clear E. induction Hn as [|x l Hx _ IH]; simpl; [reflexivity|].
    unfold no_model_call in Hx. now rewrite Hx. }
  rewrite Hf. simpl. lia.
Qed.

Lemma adds_weaken {A} (n m : nat) (c : M A) :
  n <= m -> adds_model_calls n c -> adds_model_calls m c.
Proof. intros Hle H s. specialize (H s). lia. Qed.

Lemma adds_bind {A B} (n m : nat) (c : M A) (k : A -> M B) :
  adds_model_calls n c -> (forall a, adds_model_calls m (k a)) ->
  adds_model_calls (n + m) (bind c k).
Proof.
  intros Hc Hk s. unfold bind. specialize (Hc s).
  destruct (c s) as [[a|e] s1]; simpl in *.
  - specialize (Hk a s1). lia.
  - lia.
Qed.

Lemma adds_try {A} (n m : nat) (body : M A) (handler : exn -> M A) :
  adds_model_calls n body -> (forall e, adds_model_calls m (handler e)) ->
  adds_model_calls (n + m) (try_except body handler).
Proof.
  intros Hb Hh s. unfold try_except. specialize (Hb s).
  destruct (body s) as [[a|e] s1]; simpl in *; [lia|].
  destruct (is_Exception e); simpl; [| lia]. specialize (Hh e s1). lia.
Qed.

Lemma adds_remote {A} (c : call) (f : world -> res A * world) :
  adds_model_calls 1 (remote c f).
Proof.
  intros s. unfold remote. destruct (f (st_world s)). simpl.
  rewrite filter_app, length_app. simpl. destruct (is_model_call c); simpl; lia.
Qed.

Lemma silent_calls :
  no_model_call CallListIndexes
  /\ (forall name, no_model_call (CallIndex name))
  /\ (forall ns k t, no_model_call (CallSearch ns k t)).
Proof. repeat split. Qed.

Ltac silent :=
  apply adds_of_emits;
  destruct silent_calls as (? & ? & ?);
  pose proof (emits_logging_error no_model_call);
  pose proof (emits_logging_info no_model_call);
  pose proof (emits_logging_warning no_model_call);
  pose proof (emits_print no_model_call);
  emit.

Lemma selector_adds_one (model q : str) :
  adds_model_calls 1 (CvAgent.CVSelectorTool_run model q).
Proof.
  unfold CvAgent.CVSelectorTool_run.
  apply (adds_bind (n := 0) (m := 1)).
  { silent. }
  intros [[|idx rest]|]; [apply (adds_weaken (n := 0)); [lia | silent] | |
                          apply (adds_weaken (n := 0)); [lia | silent]].
  apply (adds_bind (n := 0) (m := 1)).
  { apply adds_of_emits. apply emits_collect_chunks; intros; reflexivity. }
  intros cv_chunks. cbv zeta.
  apply (adds_bind (n := 1) (m := 0)).
  - apply (adds_try (n := 1) (m := 0)).
    + apply (adds_bind (n := 1) (m := 0)); [apply adds_remote | intros completion; silent].
    + intros e. silent.
  - intros [sel|]; silent.
Qed.

Lemma responder_adds_one (model : str) (messages : list message) :
  adds_model_calls 1 (CvAgent.LLMResponderTool_run model messages).
Proof.
  unfold CvAgent.LLMResponderTool_run. cbv zeta.
  apply (adds_bind (n := 1) (m := 0)).
  - apply (adds_try (n := 1) (m := 0)).
    + apply (adds_bind (n := 1) (m := 0)); [apply adds_remote | intros completion; silent].
    + intros e. silent.
  - intros [completion|]; [| silent].
    apply adds_of_emits. pose proof (emits_print no_model_call).
    pose proof (emits_agent_consume no_model_call). emit.
Qed.

(** X12. The selector asks the language model at most once per run, and a
    turn of the agent at most twice (once to select, once to answer):
    nothing is retried. *)
Theorem agent_turn_asks_model_at_most_twice (model q : str) (s : state) :
  List.length (filter is_model_call (st_calls (snd (CvAgent.CVSelectorTool_run model q s))))
  <= List.length (filter is_model_call (st_calls s)) + 1
  /\ List.length (filter is_model_call (st_calls (snd (CvAgent.chat model q s))))
     <= List.length (filter is_model_call (st_calls s)) + 2.
Proof.
  split; [apply selector_adds_one|].
  revert s. change (adds_model_calls 2 (CvAgent.chat model q)).
  unfold CvAgent.chat.
  apply (adds_bind (n := 1) (m := 1)); [apply selector_adds_one|].
  intros target. destruct (negb (Str.truthy target)).
  { apply (adds_weaken (n := 0)); [lia | silent]. }
  apply (adds_bind (n := 0) (m := 1)).
  { apply adds_of_emits. apply emits_retriever; intros; reflexivity. }
  intros docs.
  apply (adds_bind (n := 0) (m := 1)); [silent|]. intros _.
  apply (adds_bind (n := 0) (m := 1)); [silent|]. intros _.
  apply (adds_bind (n := 0) (m := 1)); [silent|]. intros messages.
  apply (adds_bind (n := 1) (m := 0)); [apply responder_adds_one|]. intros response. silent.
Qed.

End ModelCalls.
Section ResponderConsole.
Context {F : PyFloat} {S : Services}.

(** X13. [LLMResponderTool.run] makes exactly one remote call, the streamed
    completion request built from its arguments. When the request returns a
    stream, what it prints is the non-empty fragments of the stream's
    chunks, in order, followed by one newline when the stream ends without
    failing; the string it returns is the concatenation of the fragments it
    printed. When the request raises an [Exception] it prints nothing: the
    apology string is returned, not printed. *)
Theorem responder_prints_what_it_returns (model : str) (messages : list message)
    (s : state) :
  (forall strm w1,
      completions_create_stream (CvAgent.responder_request model messages) (st_world s)
      = (Ok strm, w1) ->
      st_out (snd (CvAgent.LLMResponderTool_run model messages s))
      = st_out s
        ++ filter Str.truthy (map CvAgent.safe_delta (stream_chunks strm))
        ++ match stream_failure strm with
           | None => [nl]
           | Some _ => []
           end
      /\ fst (CvAgent.LLMResponderTool_run model messages s)
         = match stream_failure strm with
           | None =>
             Ok (List.concat
                   (filter Str.truthy (map CvAgent.safe_delta (stream_chunks strm))))
           | Some e => Raise e
           end)
  /\ (forall e w1,
         completions_create_stream (CvAgent.responder_request model messages) (st_world s)
         = (Raise e, w1) ->
         is_Exception e = true ->
         st_out (snd (CvAgent.LLMResponderTool_run model messages s)) = st_out s
         /\ fst (CvAgent.LLMResponderTool_run model messages s)
            = Ok u"Ocurrió un error generando la respuesta.")
  /\ st_calls (snd (CvAgent.LLMResponderTool_run model messages s))
     = st_calls s ++ [CallCompletion (CvAgent.responder_request model messages)].
Proof.
  split; [| split].
  - intros strm w1 H. rewrite (responder_streams _ _ _ H), concat_truthy.
    split; reflexivity.
  - intros e w1 H He. rewrite (responder_apologises _ _ _ H He). split; reflexivity.
  - apply responder_trace.
Qed.

End ResponderConsole.

Ltac quiet :=
  walk ltac:(auto 2 using quiet_ret, quiet_raise, quiet_lift, quiet_remote, quiet_log,
      quiet_logging_info, quiet_logging_warning, quiet_logging_error, quiet_sleep with nocore)
    uconstr:(quiet_bind) uconstr:(quiet_try).

Section TurnRequests.
Context {F : PyFloat} {S : Services}.

Lemma quiet_parse_hits hs data : keeps_output (CvAgent.parse_hits false hs data).
Proof. revert data. induction hs as [|h rest IH]; intros data; simpl; quiet. Qed.

Lemma quiet_agent_search idx text top_k ns :
  keeps_output (CvAgent.search_similar idx text top_k ns false).
Proof.
  pose proof quiet_parse_hits. unfold CvAgent.search_similar. quiet.
Qed.

Lemma quiet_collect_chunks q indexes cv_chunks :
  keeps_output (CvAgent.collect_chunks q indexes cv_chunks).
Proof.
  pose proof quiet_agent_search.
  revert cv_chunks. induction indexes as [|idx rest IH]; intros cv_chunks; simpl; quiet.
Qed.

Lemma quiet_retriever name q top_k : keeps_output (CvAgent.CVRetrieverTool_run name q top_k).
Proof.
  pose proof quiet_agent_search. unfold CvAgent.CVRetrieverTool_run. quiet.
Qed.

(** A selector run that returns an index name has printed one line, the
    name it selected. *)
Lemma selector_prints (model q : str) (s s1 : state) (idx : str) :
  CvAgent.CVSelectorTool_run model q s = (Ok idx, s1) ->
  idx <> [] ->
  st_out s1 = st_out s ++ [(u"Indice Seleccionado: " ++ idx) ++ nl].
Proof.
  intros H Hidx.
  destruct (list_indexes (st_world s)) as [[indexes|e] w1] eqn:H1.
  - destruct indexes as [|i rest].
    + rewrite (@selector_empty_listing _ _ model q s w1 H1) in H.
      unfold bind, logging_warning, log, ret in H. simpl in H. congruence.
    + rewrite (@selector_listing _ _ model q s w1 i rest H1) in H.
      unfold bind at 1 in H.
      pose proof (quiet_collect_chunks q (i :: rest) []
                    (snd (remote CallListIndexes list_indexes s))) as Q1.
      pose proof (quiet_remote CallListIndexes list_indexes s) as Q0.
      destruct (CvAgent.collect_chunks q (i :: rest) []
                  (snd (remote CallListIndexes list_indexes s)))
        as [[cv_chunks|e] s2]; [| discriminate].
      simpl in Q1. rewrite Q0 in Q1. clear Q0.
      unfold bind at 1 in H. unfold try_except in H. unfold bind at 1 in H.
      pose proof (quiet_remote (CallCompletion (CvAgent.selector_request model cv_chunks q))
                    (completions_create (CvAgent.selector_request model cv_chunks q)) s2) as Q2.
      destruct (remote (CallCompletion (CvAgent.selector_request model cv_chunks q))
                  (completions_create (CvAgent.selector_request model cv_chunks q)) s2)
        as [[completion|e] s3]; simpl in Q2.
      * unfold bind at 1 in H. unfold lift at 1 in H.
        destruct (CvAgent.selected_of completion) as [sel|e].
        -- unfold bind, print, write, ret, logging_info, log in H. simpl in H.
           destruct (CvAgent.dict_mem sel cv_chunks); injection H as <- <-;
             [| congruence].
           simpl. now rewrite Q2, Q1.
        -- destruct (is_Exception e); simpl in H; [| discriminate].
           injection H as <- <-. congruence.
      * destruct (is_Exception e); simpl in H; [| discriminate].
        injection H as <- <-. congruence.
  - pose proof (@selector_listing_fails _ _ model q s w1 e H1 idx) as Hn.
    rewrite H in Hn. specialize (Hn eq_refl). congruence.
Qed.

(** X14. When the generation request of a turn of the agent raises an
    [Exception], [chat] returns "Ocurrió un error generando la respuesta."
    and appends that string to the history as the assistant message of the
    turn, after the system and user messages. All the turn has printed is
    the selector's line "Indice Seleccionado: " followed by the index name:
    nothing is printed after the selection, the apology included. *)
Theorem generation_failure_is_recorded_as_answer (model q : str) (s s1 s2 : state)
    (idx : str) (docs : list entry) (e : exn) (w3 : world) :
  CvAgent.CVSelectorTool_run CvAgent.MODEL_NAME q s = (Ok idx, s1) ->
  idx <> [] ->
  CvAgent.CVRetrieverTool_run idx q 3 s1 = (Ok docs, s2) ->
  completions_create_stream
    (CvAgent.responder_request model
       (st_messages s ++ [msg system CvAgent.system_msg;
                          msg user (CvAgent.user_msg q idx docs)]))
    (st_world s2)
  = (Raise e, w3) ->
  is_Exception e = true ->
  fst (CvAgent.chat model q s) = Ok u"Ocurrió un error generando la respuesta."
  /\ st_messages (snd (CvAgent.chat model q s))
     = st_messages s
       ++ [msg system CvAgent.system_msg;
           msg user (CvAgent.user_msg q idx docs);
           msg assistant u"Ocurrió un error generando la respuesta."]
  /\ st_out (snd (CvAgent.chat model q s))
     = st_out s ++ [(u"Indice Seleccionado: " ++ idx) ++ nl]
  /\ st_out (snd (CvAgent.chat model q s)) = st_out s2.
Proof.
  intros Hsel Hidx Hret Hcr He.
  rewrite (@agent_turn_reaches_generation _ _ model q s s1 s2 idx docs Hsel Hidx Hret).
  pose proof (@selector_prints _ _ _ _ _ Hsel Hidx) as P1.
  pose proof (quiet_retriever idx q 3 s1) as P2. rewrite Hret in P2. simpl in P2.
  match goal with
  | |- context [bind (CvAgent.LLMResponderTool_run model ?m) ?k ?st] =>
    rewrite (bind_Ok (CvAgent.LLMResponderTool_run model m) k st
               (@responder_apologises _ _ model m st e w3 Hcr He))
  end.
  simpl. rewrite <- app_assoc, P2, P1. repeat split.
Qed.

(** X15. The generation request of a turn carries the whole history: its
    messages are the history from before the turn followed by the messages
    the turn has just appended (system and user in the agent, user in the
    base session), and it is the only remote call the turn makes after
    retrieval. *)
Theorem generation_request_carries_history :
  (forall model q s idx s1 docs s2,
      CvAgent.CVSelectorTool_run CvAgent.MODEL_NAME q s = (Ok idx, s1) ->
      idx <> [] ->
      CvAgent.CVRetrieverTool_run idx q 3 s1 = (Ok docs, s2) ->
      st_calls (snd (CvAgent.chat model q s))
      = st_calls s2
        ++ [CallCompletion
              (CvAgent.responder_request model
                 (st_messages s ++ [msg system CvAgent.system_msg;
                                    msg user (CvAgent.user_msg q idx docs)]))])
  /\ (forall idx model q s docs s1,
         VectorDb.search_similar idx q 3 VectorDb.NAMESPACE false s = (Ok docs, s1) ->
         st_calls (snd (ChatGroq.chat idx model q s))
         = st_calls s1
           ++ [CallCompletion
                 (ChatGroq.chat_request model
                    (st_messages s ++ [msg user (ChatGroq.full_user_message q docs)]))]).
Proof.
  split.
  - intros model q s idx s1 docs s2 Hsel Hidx Hret.
    pose proof (keeps_selector CvAgent.MODEL_NAME q s) as K1. rewrite Hsel in K1.
    pose proof (keeps_retriever idx q 3 s1) as K2. rewrite Hret in K2.
    simpl in K1, K2.
    destruct (CvAgent.chat model q s) as [res s'] eqn:E.
    unfold CvAgent.chat in E. rewrite (bind_Ok _ _ _ Hsel) in E.
    destruct idx as [|c0 idx']; [congruence|].
    change (negb (Str.truthy (c0 :: idx'))) with false in E. cbv iota in E.
    rewrite (bind_Ok _ _ _ Hret) in E.
    unfold bind at 1 in E. unfold messages_append at 1 in E. cbv iota beta in E.
    unfold bind at 1 in E. unfold messages_append at 1 in E. cbv iota beta in E.
    unfold bind at 1 in E. unfold get_messages at 1 in E. cbv iota beta in E.
    simpl st_messages in E.
    rewrite K2, K1, <- app_assoc in E. simpl app in E.
    unfold bind at 1 in E.
    match type of E with
    | context [CvAgent.LLMResponderTool_run model ?m ?st] =>
      pose proof (responder_trace model m st) as Hc;
      destruct (CvAgent.LLMResponderTool_run model m st) as [[r|e] s3]
    end; simpl in Hc.
    + simpl in E. injection E as <- <-. exact Hc.
    + injection E as <- <-. exact Hc.
  - intros idx model q s docs s1 Hs.
    pose proof (keeps_base_search idx q 3 VectorDb.NAMESPACE false s) as K1.
    rewrite Hs in K1. simpl in K1.
    destruct (ChatGroq.chat idx model q s) as [res s'] eqn:E.
    unfold ChatGroq.chat in E. rewrite (bind_Ok _ _ _ Hs) in E.
    unfold bind at 1 in E.
    unfold ChatGroq.add_message at 1, messages_append at 1 in E. cbv iota beta in E.
    unfold bind at 1 in E. unfold get_messages at 1 in E. cbv iota beta in E.
    simpl st_messages in E. rewrite K1 in E. cbv zeta in E.
    unfold bind at 1 in E. unfold remote at 1 in E. simpl st_world in E.
    match type of E with
    | context [completions_create_stream ?r ?w] =>
      destruct (completions_create_stream r w) as [[strm|e] w2]
    end.
    + cbv iota beta in E. unfold bind at 1 in E.
      match type of E with
      | context [ChatGroq.consume ?a ?b ?c ?st] =>
        pose proof (base_consume_trace a b c st) as Hc;
        destruct (ChatGroq.consume a b c st) as [[r|e] s3]
      end; simpl in Hc.
      * unfold bind, ChatGroq.add_message, messages_append, print, write, ret in E.
        simpl in E. injection E as <- <-. exact Hc.
      * injection E as <- <-. exact Hc.
    + injection E as <- <-. reflexivity.
Qed.

(** X16. Over any sequence of turns of the agent, every system message of
    the history holds the fixed instruction text [system_msg], when the
    history started that way (empty, for one). *)
Theorem agent_system_prompt_is_fixed (model : str) (qs : list str) (s : state) :
  Forall (fun m => msg_role m = system -> msg_content m = CvAgent.system_msg)
         (st_messages s) ->
  Forall (fun m => msg_role m = system -> msg_content m = CvAgent.system_msg)
         (st_messages (snd (agent_turns model qs s))).
Proof.
  revert s. induction qs as [|q rest IH]; intros s H; [exact H|].
  simpl. unfold bind.
  pose proof (agent_chat_history model q s) as Hc.
  destruct (CvAgent.chat model q s) as [[r|e] s1]; simpl in Hc.
  - apply IH.
    destruct Hc as [E | [(c & e & E & _) | (c & r' & E & _)]]; rewrite E;
      [exact H | apply Forall_app; split; [exact H|] ..];
      repeat constructor; simpl; congruence.
  - simpl.
    destruct Hc as [E | [(c & e' & E & _) | (c & r' & E & _)]]; rewrite E;
      [exact H | apply Forall_app; split; [exact H|] ..];
      repeat constructor; simpl; congruence.
Qed.

End TurnRequests.

(** * More of the scripts: what the prompts hold *)

Section Substrings.

Lemma starts_with_app (p s : str) : Str.starts_with p (p ++ s) = true.
Proof. induction p as [|a p IH]; simpl; [reflexivity|]. now rewrite N.eqb_refl. Qed.

Lemma contains_here (sub s : str) : Str.contains (sub ++ s) sub = true.
Proof.
  destruct (sub ++ s) eqn:E; simpl; rewrite <- E, starts_with_app; reflexivity.
Qed.

Lemma contains_skip (pre s sub : str) :
  Str.contains s sub = true -> Str.contains (pre ++ s) sub = true.
Proof.
  intros H. induction pre as [|a pre IH]; simpl; [exact H|].
  rewrite IH. apply orb_true_r.
Qed.

Lemma contains_mid (pre sub post : str) : Str.contains (pre ++ sub ++ post) sub = true.
Proof. apply contains_skip, contains_here. Qed.

Lemma contains_grow (s post sub : str) :
  Str.contains s sub = true -> Str.contains (s ++ post) sub = true.
Proof.
  assert (Hs : forall p x, Str.starts_with p x = true -> Str.starts_with p (x ++ post) = true).
  { induction p as [|a p IH]; intros [|b x] H; simpl in *; try reflexivity; try discriminate.
    apply andb_true_iff in H. destruct H as [H1 H2]. now rewrite H1, IH. }
  induction s as [|a s IH]; simpl; intros H.
  - rewrite orb_false_r in H. destruct sub; [| discriminate]. now destruct post.
  - apply orb_true_iff in H. destruct H as [H | H].
    + apply (Hs sub (a :: s)) in H. simpl in H. now rewrite H.
    + rewrite IH by exact H. apply orb_true_r.
Qed.

Lemma contains_join (sep : str) (parts : list str) (t : str) :
  In t parts -> Str.contains (Str.join sep parts) t = true.
Proof.
  induction parts as [|p rest IH]; intros Hin; [destruct Hin|].
  destruct rest as [|p' rest'].
  - destruct Hin as [<- | []]. simpl. rewrite <- (app_nil_r p) at 1. apply contains_here.
  - change (Str.join sep (p :: p' :: rest')) with (p ++ sep ++ Str.join sep (p' :: rest')).
    destruct Hin as [<- | Hin].
    + apply contains_here.
    + apply contains_skip, contains_skip, IH, Hin.
Qed.

End Substrings.

Section Prompts.
Context {F : PyFloat} {S : Services}.

(** X17. The user message that the agent builds contains the user's query,
    the name of the selected index and every context snippet; there are at
    most five snippets, and the placeholder "(sin contexto relevante)"
    stands for them when none of the first five documents has a text. The
    user message of the base session contains the query and every line
    that the search returned. *)
Theorem prompts_carry_query_and_context :
  (forall q idx docs,
      Str.contains (CvAgent.user_msg q idx docs) q = true
      /\ Str.contains (CvAgent.user_msg q idx docs) idx = true
      /\ (forall t, In t (CvAgent.context_snippets docs) ->
            Str.contains (CvAgent.user_msg q idx docs) t = true)
      /\ List.length (CvAgent.context_snippets docs) <= 5
      /\ (Forall (fun d => e_text d = []) (firstn 5 docs) ->
            CvAgent.context_blob docs = u"(sin contexto relevante)"))
  /\ (forall q lines,
         Str.contains (ChatGroq.full_user_message q lines) q = true
         /\ forall l, In l lines -> Str.contains (ChatGroq.full_user_message q lines) l = true).
Proof.
  split.
  - intros q idx docs. unfold CvAgent.user_msg. repeat split.
    + apply contains_mid.
    + do 5 apply contains_skip. apply contains_here.
    + intros t Ht. do 10 apply contains_skip. apply contains_grow.
      unfold CvAgent.context_blob.
      destruct (CvAgent.context_snippets docs) as [|x xs] eqn:E; [destruct Ht|].
      cbv iota. now apply contains_join.
    + unfold CvAgent.context_snippets. rewrite length_map.
      etransitivity; [apply filter_length_le|]. rewrite length_firstn. lia.
    + intros H. unfold CvAgent.context_blob, CvAgent.context_snippets.
      replace (filter (fun doc => Str.truthy (e_text doc)) (firstn 5 docs)) with (@nil entry);
        [reflexivity|].
      induction H as [|d l Hd _ IH]; simpl; [reflexivity|]. now rewrite Hd.
  - intros q lines. unfold ChatGroq.full_user_message. split.
    + apply contains_here.
    + intros l Hl. do 4 apply contains_skip. now apply contains_join.
Qed.

Lemma selector_prompt_fold (d : CvAgent.dict) :
  forall (acc name : str),
    (Str.contains acc name = true \/ In name (CvAgent.dict_keys d)) ->
    Str.contains
      (fold_left
         (fun system_prompt kv =>
            system_prompt ++ u"- Índice: " ++ fst kv ++ nl
            ++ u"  Contenido: " ++ Str.join u" | " (firstn 3 (snd kv)) ++ nl)
         d acc) name = true.
Proof.
  induction d as [|[k v] r IH]; intros acc name H; cbn [fold_left fst snd].
  - destruct H as [H | []]. exact H.
  - apply IH. destruct H as [H | [<- | H]].
    + left. now apply contains_grow.
    + left. do 2 apply contains_skip. apply contains_here.
    + now right.
Qed.

(** X18. The prompt of the selector names every candidate index: each key
    of [cv_chunks] occurs in it. *)
Theorem selector_prompt_names_every_candidate (cv_chunks : CvAgent.dict) (name : str) :
  In name (CvAgent.dict_keys cv_chunks) ->
  Str.contains (CvAgent.selector_prompt cv_chunks) name = true.
Proof.
  intros H. unfold CvAgent.selector_prompt. apply contains_grow.
  apply selector_prompt_fold. now right.
Qed.

End Prompts.

(** * More of the scripts: the loops *)

Section Loops.
Context {F : PyFloat} {S : Services}.

Lemma agent_loop_blank (l : str) (rest : list input_event) (s : state) :
  forallb Str.is_space l = true ->
  CvAgent.main_loop (Line l :: rest) s = CvAgent.main_loop rest (snd (write u"Tú: " s)).
Proof.
  intros H. apply strip_blank in H.
  cbn [CvAgent.main_loop]. unfold bind at 1. cbn [write fst snd]. rewrite H.
  reflexivity.
Qed.

(** X19. In the agent's loop, lines that are empty or all whitespace are
    skipped, and a line that is "exit" or "quit" once stripped and lowered
    ends the loop: over such input the loop returns having made no remote
    call and without touching the history, and has written one prompt per
    line read. *)
Theorem agent_loop_skips_blank_lines (blanks : list str) (x : str)
    (rest : list input_event) (s : state) :
  Forall (fun l => forallb Str.is_space l = true) blanks ->
  str_in (Str.lower (Str.strip x)) [u"exit"; u"quit"] = true ->
  fst (CvAgent.main_loop (map Line blanks ++ Line x :: rest) s) = Ok tt
  /\ st_calls (snd (CvAgent.main_loop (map Line blanks ++ Line x :: rest) s)) = st_calls s
  /\ st_messages (snd (CvAgent.main_loop (map Line blanks ++ Line x :: rest) s))
     = st_messages s
  /\ st_out (snd (CvAgent.main_loop (map Line blanks ++ Line x :: rest) s))
     = st_out s ++ repeat u"Tú: " (List.length blanks + 1).
Proof.
  intros Hb Hx. revert s. induction Hb as [|l blanks Hl _ IH]; intros s.
  - cbn [map app CvAgent.main_loop]. unfold bind at 1 2 3 4. cbn [write fst snd].
    rewrite Hx. repeat split.
  - cbn [map app]. rewrite (@agent_loop_blank l _ _ Hl).
    destruct (IH (snd (write u"Tú: " s))) as (H1 & H2 & H3 & H4).
    rewrite H1, H2, H3, H4. cbn [write snd st_calls st_messages st_out].
    rewrite <- app_assoc. repeat split.
Qed.



(** X20. The agent's loop raises only at the end of the input ([EOFError]
    from [input()]), on an interrupt, or with the exception of a streamed
    answer that broke while it was read; no other failure of a turn ends
    the loop. *)
Theorem agent_loop_ends_only_on_input_or_stream (inputs : list input_event)
    (s s' : state) (e : exn) :
  CvAgent.main_loop inputs s = (Raise e, s') ->
  e = EOFError \/ is_Exception e = false \/ broken_stream e.
Proof.
  revert s. induction inputs as [|[l|] rest IH]; intros s H.
  - cbn [CvAgent.main_loop] in H. unfold bind, write, raise in H. simpl in H.
    injection H as <- _. now left.
  - cbn [CvAgent.main_loop] in H. unfold bind at 1 in H. cbn [write fst snd] in H.
    destruct (str_in (Str.lower (Str.strip l)) [u"exit"; u"quit"]); [discriminate|].
    destruct (negb (Str.truthy (Str.strip l))); [exact (IH _ H)|].
    unfold bind at 1 in H. unfold print at 1, write at 1 in H. cbv iota beta in H.
    unfold bind at 1 in H.
    match type of H with
    | context [CvAgent.chat ?m ?q ?st] =>
      destruct (CvAgent.chat m q st) as [[r|e0] s1] eqn:Ec
    end.
    + unfold bind at 1 in H. unfold print at 1, write at 1 in H. cbv iota beta in H.
      exact (IH _ H).
    + injection H as <- _. right. exact (contains_agent_chat _ _ _ Ec).
  - cbn [CvAgent.main_loop] in H. unfold bind, write, raise in H. simpl in H.
    injection H as <- _. right. now left.
Qed.

(** X21. When the index cannot be opened in [ChatSession.__init__], the main
    block of the chat script writes "Error al conectar con Pinecone: ..."
    to stderr and the process ends with status 1. The main block has then
    printed no banner and no prompt, logged nothing, read no input and made
    no remote call but the opening of the index. *)
Theorem session_startup_failure (inputs : list input_event) (s : state) (e : exn)
    (w1 : world) :
  open_index ChatGroq.INDEX_NAME (st_world s) = (Raise e, w1) ->
  is_Exception e = true ->
  fst (ChatGroq.main inputs s) = Exit 1
  /\ st_err (snd (ChatGroq.main inputs s))
     = st_err s ++ [(u"Error al conectar con Pinecone: " ++ exn_str e) ++ nl]
  /\ st_out (snd (ChatGroq.main inputs s)) = st_out s
  /\ st_calls (snd (ChatGroq.main inputs s)) = st_calls s ++ [CallIndex u"cv-index"]
  /\ st_log (snd (ChatGroq.main inputs s)) = st_log s
  /\ ChatGroq.main inputs s = ChatGroq.main [] s.
Proof.
  intros H He.
  assert (Hm : forall inp,
             ChatGroq.main inp s
             = (Exit 1,
                {| st_world := w1; st_calls := st_calls s ++ [CallIndex u"cv-index"];
                   st_log := st_log s; st_out := st_out s;
                   st_err := st_err s
                             ++ [(u"Error al conectar con Pinecone: " ++ exn_str e) ++ nl];
                   st_messages := [] |})).
  { intros inp. unfold ChatGroq.main, ChatGroq.ChatSession_init.
    unfold bind, messages_init, remote. simpl. rewrite H, He. reflexivity. }
  rewrite !Hm. repeat split.
Qed.

Lemma base_consume_breaks (before : list chunk) (bad : chunk) (after : list chunk)
    (failure : option exn) (e : exn) :
  forall (deltas : list str) (response : str) (s : state),
    map ChatGroq.chunk_delta before = map Ok deltas ->
    ChatGroq.chunk_delta bad = Raise e ->
    fst (ChatGroq.consume (before ++ bad :: after) failure response s) = Raise e
    /\ st_out (snd (ChatGroq.consume (before ++ bad :: after) failure response s))
       = st_out s ++ deltas
    /\ st_messages (snd (ChatGroq.consume (before ++ bad :: after) failure response s))
       = st_messages s.
Proof.
  induction before as [|c rest IH]; intros deltas response s Hd Hb.
  - destruct deltas; [| discriminate]. cbn [app ChatGroq.consume].
    unfold bind, lift. rewrite Hb. simpl. rewrite app_nil_r. repeat split.
  - destruct deltas as [|d deltas]; [discriminate|]. simpl in Hd. injection Hd as Hc Hr.
    cbn [app ChatGroq.consume]. unfold bind at 1 3 5, lift. rewrite Hc. cbv iota beta.
    unfold bind at 1 2 3, write. cbv iota beta.
    match goal with
    | |- context [ChatGroq.consume _ failure ?r ?st] =>
      destruct (IH deltas r st Hr Hb) as (H1 & H2 & H3)
    end.
    rewrite H1, H2, H3. simpl. rewrite <- app_assoc. repeat split.
Qed.

(** X22. [ChatSession.chat] reads every chunk unguarded: at a streamed chunk
    that has no choice it raises [IndexError], after the fragments before
    it were printed, and the user message of the turn stays in the history
    without an assistant message. *)
Theorem base_chat_breaks_on_malformed_chunk (idx : index) (model q : str) (s s1 : state)
    (docs : list str) (strm : stream) (w2 : world)
    (before : list chunk) (bad : chunk) (after : list chunk) (deltas : list str) :
  VectorDb.search_similar idx q 3 VectorDb.NAMESPACE false s = (Ok docs, s1) ->
  completions_create_stream
    (ChatGroq.chat_request model
       (st_messages s ++ [msg user (ChatGroq.full_user_message q docs)]))
    (st_world s1)
  = (Ok strm, w2) ->
  stream_chunks strm = before ++ bad :: after ->
  map ChatGroq.chunk_delta before = map Ok deltas ->
  chunk_choices bad = [] ->
  fst (ChatGroq.chat idx model q s) = Raise IndexError
  /\ st_messages (snd (ChatGroq.chat idx model q s))
     = st_messages s ++ [msg user (ChatGroq.full_user_message q docs)]
  /\ st_out (snd (ChatGroq.chat idx model q s)) = st_out s1 ++ deltas.
Proof.
  intros Hs Hcr Hch Hd Hb.
  assert (Hbad : ChatGroq.chunk_delta bad = Raise IndexError).
  { unfold ChatGroq.chunk_delta. now rewrite Hb. }
  pose proof (keeps_base_search idx q 3 VectorDb.NAMESPACE false s) as K1.
  rewrite Hs in K1. simpl in K1.
  destruct (ChatGroq.chat idx model q s) as [res s'] eqn:E.
  unfold ChatGroq.chat in E. rewrite (bind_Ok _ _ _ Hs) in E.
  unfold bind at 1 in E.
  unfold ChatGroq.add_message at 1, messages_append at 1 in E. cbv iota beta in E.
  unfold bind at 1 in E. unfold get_messages at 1 in E. cbv iota beta in E.
  simpl st_messages in E. rewrite K1 in E. cbv zeta in E.
  unfold bind at 1 in E. unfold remote at 1 in E. simpl st_world in E.
  unfold msg in Hcr. rewrite Hcr in E. cbv iota beta in E. rewrite Hch in E.
  unfold bind at 1 in E.
  match type of E with
  | context [ChatGroq.consume _ ?f ?r ?st] =>
    destruct (@base_consume_breaks before bad after f IndexError deltas r st Hd Hbad)
      as (H1 & H2 & H3);
    destruct (ChatGroq.consume (before ++ bad :: after) f r st) as [[r0|e0] s3]
  end; simpl in H1, H2, H3; [discriminate|].
  injection H1 as ->. injection E as <- <-. simpl. rewrite H2, H3. repeat split.
Qed.

End Loops.

(** * More of the scripts: runs over the scripted services *)

(** "cv-index" is listed and is only opened; "otro" is created first. *)
Lemma ensure_index_creates_only_missing_witness :
  st_calls (snd (@VectorDb.ensure_index Scripted.Cents (Scripted.services Scripted.healthy)
                   u"cv-index" (Scripted.start Scripted.healthy)))
  = [CallListIndexes; CallIndex u"cv-index"]
  /\ st_calls (snd (@VectorDb.ensure_index Scripted.Cents (Scripted.services Scripted.healthy)
                      u"otro" (Scripted.start Scripted.healthy)))
     = [CallListIndexes; CallCreateIndex u"otro"; CallIndex u"otro"].
Proof.
  split.
  - apply (@ensure_index_creates_only_missing Scripted.Cents
             (Scripted.services Scripted.healthy) u"cv-index"
             (Scripted.start Scripted.healthy) [u"cv-index"] 1 eq_refl).
    now left.
  - destruct (@ensure_index_creates_only_missing Scripted.Cents
                (Scripted.services Scripted.healthy) u"otro"
                (Scripted.start Scripted.healthy) [u"cv-index"] 1 eq_refl) as [_ H].
    destruct H as [H _].
    + intros [E | []]. discriminate E.
    + apply (H u"otro"). reflexivity.
Defined.

(** A corpus of three chunks: all are upserted when no upsert fails; with
    the second upsert failing, the third chunk is never sent. *)
Lemma load_data_upserts_in_order_witness :
  (exists k,
      k <= 3
      /\ st_calls (snd (@VectorDb.load_data Scripted.Cents (Scripted.corpus None)
                         u"cv-index" (Scripted.corpus_start None)))
         = [] ++ CallReadChunks u"cv1.txt" :: map CallUpsert (chunk_ids 0 k)
      /\ (fst (@VectorDb.load_data Scripted.Cents (Scripted.corpus None)
                 u"cv-index" (Scripted.corpus_start None)) = Ok tt -> k = 3))
  /\ fst (@VectorDb.load_data Scripted.Cents (Scripted.corpus (Some u"cv_chunk_2"))
            u"cv-index" (Scripted.corpus_start (Some u"cv_chunk_2")))
     = Raise (ServiceError u"429 Too Many Requests")
  /\ st_calls (snd (@VectorDb.load_data Scripted.Cents
                      (Scripted.corpus (Some u"cv_chunk_2"))
                      u"cv-index" (Scripted.corpus_start (Some u"cv_chunk_2"))))
     = [CallReadChunks u"cv1.txt"; CallUpsert u"cv_chunk_1"; CallUpsert u"cv_chunk_2"].
Proof.
  split.
  - exact (proj1 (@load_data_upserts_in_order Scripted.Cents (Scripted.corpus None)
                    u"cv-index" (Scripted.corpus_start None) _ 1 eq_refl)).
  - edestruct (proj2 (@load_data_upserts_in_order Scripted.Cents
                        (Scripted.corpus (Some u"cv_chunk_2")) u"cv-index"
                        (Scripted.corpus_start (Some u"cv_chunk_2")) _ 1 eq_refl)
                 [u"Uno. Dos. Tres."] u"Tres. Cuatro. Cinco." [u"Cinco. Seis."])
      as (H1 & H2 & _).
    + reflexivity.
    + vm_compute. reflexivity.
    + vm_compute. reflexivity.
    + split; [exact H1 | rewrite H2; vm_compute; reflexivity].
Defined.

(** With the second upsert failing, the third chunk is never sent. *)
Example load_data_stops_at_failed_upsert :
  st_calls (snd (@VectorDb.load_data Scripted.Cents
                   (Scripted.corpus (Some u"cv_chunk_2"))
                   u"cv-index" (Scripted.corpus_start (Some u"cv_chunk_2"))))
  = [CallReadChunks u"cv1.txt"; CallUpsert u"cv_chunk_1"; CallUpsert u"cv_chunk_2"].
Proof. vm_compute. reflexivity. Qed.

(** One hit, searched with debug output on: its line is returned and
    printed. *)
Lemma base_search_prints_what_it_returns_witness :
  exists line,
    @VectorDb.search_similar Scripted.Cents (Scripted.services Scripted.healthy)
      u"cv-index" u"datos" 3 VectorDb.NAMESPACE true (Scripted.start Scripted.healthy)
    = (Ok [line],
       @searched Scripted.Cents (Scripted.services Scripted.healthy)
         (Scripted.start Scripted.healthy) 2 VectorDb.NAMESPACE 3 u"datos" u"{}"
         [line ++ nl]).
Proof.
  eexists.
  eapply (proj1 (@base_search_prints_what_it_returns Scripted.Cents
                   (Scripted.services Scripted.healthy) u"cv-index" u"datos" 3
                   VectorDb.NAMESPACE true (Scripted.start Scripted.healthy))
            u"{}" 1 _ 2 _ [_]);
    [reflexivity | reflexivity | reflexivity |].
  apply Forall2_cons; [vm_compute; reflexivity | apply Forall2_nil].
Defined.

(** The listing fails while the index is looked for. *)
Lemma search_script_startup_failure_witness :
  fst (@VectorDb.main Scripted.Cents (Scripted.services Scripted.listing_down)
         [Line u"datos"] (Scripted.start Scripted.listing_down)) = Exit 1
  /\ st_out (snd (@VectorDb.main Scripted.Cents (Scripted.services Scripted.listing_down)
                    [Line u"datos"] (Scripted.start Scripted.listing_down))) = [].
Proof.
  edestruct (@search_script_startup_failure Scripted.Cents
               (Scripted.services Scripted.listing_down) [Line u"datos"]
               (Scripted.start Scripted.listing_down)) as (H1 & H2 & _).
  - left. vm_compute. reflexivity.
  - split; [exact H1 | exact H2].
Defined.

(** A search that fails, and a payload without "result". *)
Lemma agent_search_failure_gives_empty_witness :
  fst (@CvAgent.search_similar Scripted.Cents (Scripted.services Scripted.pinecone_down)
         u"cv-index" u"datos" 3 CvAgent.NAMESPACE false
         (Scripted.start Scripted.pinecone_down)) = Ok []
  /\ fst (@CvAgent.search_similar Scripted.Cents (Scripted.services Scripted.empty_payload)
            u"cv-index" u"datos" 3 CvAgent.NAMESPACE false
            (Scripted.start Scripted.empty_payload)) = Ok [].
Proof.
  split.
  - edestruct (proj1 (@agent_search_failure_gives_empty Scripted.Cents
                        (Scripted.services Scripted.pinecone_down) u"cv-index" u"datos" 3
                        CvAgent.NAMESPACE false (Scripted.start Scripted.pinecone_down)))
      as [H _]; [reflexivity | reflexivity | exact H].
  - edestruct (proj2 (@agent_search_failure_gives_empty Scripted.Cents
                        (Scripted.services Scripted.empty_payload) u"cv-index" u"datos" 3
                        CvAgent.NAMESPACE false (Scripted.start Scripted.empty_payload)))
      as [H _]; [reflexivity | reflexivity | exact H].
Defined.

(** Three hits, the second with a null score: one entry comes back. *)
Lemma agent_search_stops_at_malformed_hit_witness :
  exists es,
    fst (@CvAgent.search_similar Scripted.Cents (Scripted.services Scripted.null_score)
           u"cv-index" u"datos" 3 CvAgent.NAMESPACE false
           (Scripted.start Scripted.null_score)) = Ok es
    /\ List.length es = 1.
Proof.
  edestruct (@agent_search_stops_at_malformed_hit Scripted.Cents
               (Scripted.services Scripted.null_score) u"cv-index" u"datos" 3
               CvAgent.NAMESPACE (Scripted.start Scripted.null_score)
               [Scripted.a_hit u"cv_chunk_1" 87 (Some u"cv") (Some u"Ingeniero de datos.")])
    as (es & H1 & H2 & _).
  - reflexivity.
  - repeat constructor. discriminate.
  - reflexivity.
  - exists es. split; [exact H1|]. apply Forall2_length in H2. now rewrite <- H2.
Defined.

(** The selected index cannot be opened. *)
Lemma retriever_open_failure_gives_empty_witness :
  fst (@CvAgent.CVRetrieverTool_run Scripted.Cents (Scripted.services Scripted.index_gone)
         u"cv-index" u"datos" 3 (Scripted.start Scripted.index_gone)) = Ok []
  /\ st_calls (snd (@CvAgent.CVRetrieverTool_run Scripted.Cents
                      (Scripted.services Scripted.index_gone)
                      u"cv-index" u"datos" 3 (Scripted.start Scripted.index_gone)))
     = [CallIndex u"cv-index"].
Proof.
  edestruct (@retriever_open_failure_gives_empty Scripted.Cents
               (Scripted.services Scripted.index_gone) u"cv-index" u"datos" 3
               (Scripted.start Scripted.index_gone)) as (H1 & H2 & _);
    [reflexivity | reflexivity | split; [exact H1 | exact H2]].
Defined.

(** An index listed twice is one candidate. *)
Lemma candidates_are_well_formed_witness :
  exists cv_chunks s',
    @CvAgent.collect_chunks Scripted.Cents (Scripted.services Scripted.healthy)
      u"datos" [u"cv-index"; u"cv-index"] [] (Scripted.start Scripted.healthy)
    = (Ok cv_chunks, s')
    /\ NoDup (CvAgent.dict_keys cv_chunks)
    /\ Forall (fun kv => snd kv <> [] /\ Forall (fun t => t <> []) (snd kv)) cv_chunks.
Proof.
  eexists _, _. split; [vm_compute; reflexivity |].
  edestruct (@candidates_are_well_formed Scripted.Cents (Scripted.services Scripted.healthy)
               u"datos" [u"cv-index"; u"cv-index"] (Scripted.start Scripted.healthy))
    as (H1 & _ & H3); [vm_compute; reflexivity |].
  split; [exact H1 | exact H3].
Defined.

(** Two indexes, both opened. *)
Lemma every_opened_index_is_candidate_witness :
  exists cv_chunks s',
    @CvAgent.collect_chunks Scripted.Cents (Scripted.services Scripted.healthy)
      u"datos" [u"cv-ana"; u"cv-luis"] [] (Scripted.start Scripted.healthy)
    = (Ok cv_chunks, s')
    /\ In u"cv-luis" (CvAgent.dict_keys cv_chunks).
Proof.
  eexists _, _. split; [vm_compute; reflexivity |].
  eapply (@every_opened_index_is_candidate Scripted.Cents
            (Scripted.services Scripted.healthy) u"datos" [u"cv-ana"; u"cv-luis"]
            (Scripted.start Scripted.healthy)).
  - intros name w. now exists name, (Datatypes.S w).
  - vm_compute. reflexivity.
  - right. now left.
Defined.


(** A streamed answer of two fragments, and a request that fails. *)
Lemma responder_prints_what_it_returns_witness :
  (st_out (snd (@CvAgent.LLMResponderTool_run Scripted.Cents
                  (Scripted.services Scripted.healthy)
                  CvAgent.MODEL_NAME [msg user u"hola"] (Scripted.start Scripted.healthy)))
   = [u"Es "; u"ingeniero."; nl]
   /\ fst (@CvAgent.LLMResponderTool_run Scripted.Cents
             (Scripted.services Scripted.healthy)
             CvAgent.MODEL_NAME [msg user u"hola"] (Scripted.start Scripted.healthy))
      = Ok u"Es ingeniero.")
  /\ st_out (snd (@CvAgent.LLMResponderTool_run Scripted.Cents
                    (Scripted.services Scripted.groq_down)
                    CvAgent.MODEL_NAME [msg user u"hola"]
                    (Scripted.start Scripted.groq_down))) = [].
Proof.
  split.
  - edestruct (proj1 (@responder_prints_what_it_returns Scripted.Cents
                        (Scripted.services Scripted.healthy) CvAgent.MODEL_NAME
                        [msg user u"hola"] (Scripted.start Scripted.healthy)))
      as [H1 H2].
    + vm_compute. reflexivity.
    + rewrite H1, H2. split; vm_compute; reflexivity.
  - eapply (proj1 (proj2 (@responder_prints_what_it_returns Scripted.Cents
                            (Scripted.services Scripted.groq_down) CvAgent.MODEL_NAME
                            [msg user u"hola"] (Scripted.start Scripted.groq_down))));
      reflexivity.
Defined.

(** A turn of the agent with the completion service down for the answer. *)
Lemma generation_failure_is_recorded_as_answer_witness :
  fst (@CvAgent.chat Scripted.Cents (Scripted.services Scripted.groq_down)
         CvAgent.MODEL_NAME u"datos" (Scripted.start Scripted.groq_down))
  = Ok u"Ocurrió un error generando la respuesta."
  /\ roles (st_messages
              (snd (@CvAgent.chat Scripted.Cents (Scripted.services Scripted.groq_down)
                      CvAgent.MODEL_NAME u"datos" (Scripted.start Scripted.groq_down))))
     = [system; user; assistant]
  /\ st_out (snd (@CvAgent.chat Scripted.Cents (Scripted.services Scripted.groq_down)
                    CvAgent.MODEL_NAME u"datos" (Scripted.start Scripted.groq_down)))
     = [u"Indice Seleccionado: cv-index" ++ nl].
Proof.
  edestruct (@generation_failure_is_recorded_as_answer Scripted.Cents
               (Scripted.services Scripted.groq_down) CvAgent.MODEL_NAME u"datos"
               (Scripted.start Scripted.groq_down)) as (H1 & H2 & H3 & _).
  - vm_compute. reflexivity.
  - discriminate.
  - vm_compute. reflexivity.
  - vm_compute. reflexivity.
  - reflexivity.
  - split; [exact H1 | split; [rewrite H2; reflexivity | rewrite H3; reflexivity]].
Defined.

(** The last remote call of a healthy turn, in the agent and in the base
    session. *)
Lemma generation_request_carries_history_witness :
  (exists before r,
      st_calls (snd (@CvAgent.chat Scripted.Cents (Scripted.services Scripted.healthy)
                       CvAgent.MODEL_NAME u"datos" (Scripted.start Scripted.healthy)))
      = before ++ [CallCompletion r]
      /\ roles (req_messages r) = [system; user])
  /\ (exists before r,
         st_calls (snd (@ChatGroq.chat Scripted.Cents (Scripted.services Scripted.healthy)
                          u"cv-index" ChatGroq.MODEL_NAME u"datos"
                          (Scripted.start Scripted.healthy)))
         = before ++ [CallCompletion r]
         /\ roles (req_messages r) = [user]).
Proof.
  split.
  - eexists _, _. split.
    + eapply (proj1 (@generation_request_carries_history Scripted.Cents
                       (Scripted.services Scripted.healthy))
                CvAgent.MODEL_NAME u"datos" (Scripted.start Scripted.healthy)).
      * vm_compute. reflexivity.
      * discriminate.
      * vm_compute. reflexivity.
    + reflexivity.
  - eexists _, _. split.
    + eapply (proj2 (@generation_request_carries_history Scripted.Cents
                       (Scripted.services Scripted.healthy))
                u"cv-index" ChatGroq.MODEL_NAME u"datos" (Scripted.start Scripted.healthy)).
      vm_compute. reflexivity.
    + reflexivity.
Defined.

(** Two turns from an empty history. *)
Lemma agent_system_prompt_is_fixed_witness :
  Forall (fun m => msg_role m = system -> msg_content m = CvAgent.system_msg)
    (st_messages
       (snd (@agent_turns Scripted.Cents (Scripted.services Scripted.healthy)
               CvAgent.MODEL_NAME [u"¿Qué hace?"; u"¿Dónde estudió?"]
               (Scripted.start Scripted.healthy)))).
Proof.
  apply (@agent_system_prompt_is_fixed Scripted.Cents (Scripted.services Scripted.healthy)).
  constructor.
Defined.

(** A prompt with one document. *)
Lemma prompts_carry_query_and_context_witness :
  Str.contains
    (@CvAgent.user_msg Scripted.Cents u"¿Qué hace?" u"cv-index"
       [@Build_entry Scripted.Cents u"cv_chunk_1" 87%N u"cv" u"Ingeniero de datos."])
    u"Ingeniero de datos." = true
  /\ Str.contains (ChatGroq.full_user_message u"¿Qué hace?" [u"linea uno"; u"linea dos"])
       u"linea dos" = true.
Proof.
  destruct (@prompts_carry_query_and_context Scripted.Cents) as [P1 P2]. split.
  - destruct (P1 u"¿Qué hace?" u"cv-index"
                [@Build_entry Scripted.Cents u"cv_chunk_1" 87%N u"cv" u"Ingeniero de datos."])
      as (_ & _ & H & _).
    apply H. left. reflexivity.
  - destruct (P2 u"¿Qué hace?" [u"linea uno"; u"linea dos"]) as [_ H].
    apply H. right. now left.
Defined.

(** Two candidates. *)
Lemma selector_prompt_names_every_candidate_witness :
  Str.contains
    (CvAgent.selector_prompt [(u"cv-ana", [u"Abogada."]); (u"cv-luis", [u"Contador."])])
    u"cv-luis" = true.
Proof.
  apply selector_prompt_names_every_candidate. right. now left.
Defined.

(** Two blank lines and then "Quit" with spaces around it. *)
Lemma agent_loop_skips_blank_lines_witness :
  fst (@CvAgent.main_loop Scripted.Cents (Scripted.services Scripted.healthy)
         (map Line [u""; u"   "] ++ Line u"  Quit " :: [Line u"datos"])
         (Scripted.start Scripted.healthy)) = Ok tt
  /\ st_calls (snd (@CvAgent.main_loop Scripted.Cents (Scripted.services Scripted.healthy)
                      (map Line [u""; u"   "] ++ Line u"  Quit " :: [Line u"datos"])
                      (Scripted.start Scripted.healthy))) = [].
Proof.
  edestruct (@agent_loop_skips_blank_lines Scripted.Cents
               (Scripted.services Scripted.healthy) [u""; u"   "] u"  Quit "
               [Line u"datos"] (Scripted.start Scripted.healthy)) as (H1 & H2 & _).
  - repeat constructor.
  - reflexivity.
  - split; [exact H1 | exact H2].
Defined.

(** One healthy turn and then the input ends. *)
Lemma agent_loop_ends_only_on_input_or_stream_witness :
  EOFError = EOFError
  \/ is_Exception EOFError = false
  \/ @broken_stream Scripted.Cents (Scripted.services Scripted.healthy) EOFError.
Proof.
  eapply (@agent_loop_ends_only_on_input_or_stream Scripted.Cents
            (Scripted.services Scripted.healthy) [Line u"datos"]
            (Scripted.start Scripted.healthy)).
  vm_compute. reflexivity.
Defined.

(** The index of the session cannot be opened. *)
Lemma session_startup_failure_witness :
  fst (@ChatGroq.main Scripted.Cents (Scripted.services Scripted.index_gone)
         [Line u"datos"] (Scripted.start Scripted.index_gone)) = Exit 1
  /\ st_out (snd (@ChatGroq.main Scripted.Cents (Scripted.services Scripted.index_gone)
                    [Line u"datos"] (Scripted.start Scripted.index_gone))) = []
  /\ st_log (snd (@ChatGroq.main Scripted.Cents (Scripted.services Scripted.index_gone)
                    [Line u"datos"] (Scripted.start Scripted.index_gone))) = [].
Proof.
  edestruct (@session_startup_failure Scripted.Cents (Scripted.services Scripted.index_gone)
               [Line u"datos"] (Scripted.start Scripted.index_gone))
    as (H1 & _ & H3 & _ & H5 & _);
    [reflexivity | reflexivity | split; [exact H1 | split; [exact H3 | exact H5]]].
Defined.

(** A stream whose second chunk has no choice. *)
Lemma base_chat_breaks_on_malformed_chunk_witness :
  fst (@ChatGroq.chat Scripted.Cents (Scripted.services Scripted.empty_chunk)
         u"cv-index" ChatGroq.MODEL_NAME u"datos" (Scripted.start Scripted.empty_chunk))
  = Raise IndexError
  /\ roles (st_messages
              (snd (@ChatGroq.chat Scripted.Cents (Scripted.services Scripted.empty_chunk)
                      u"cv-index" ChatGroq.MODEL_NAME u"datos"
                      (Scripted.start Scripted.empty_chunk))))
     = [user].
Proof.
  edestruct (@base_chat_breaks_on_malformed_chunk Scripted.Cents
               (Scripted.services Scripted.empty_chunk) u"cv-index" ChatGroq.MODEL_NAME
               u"datos" (Scripted.start Scripted.empty_chunk)) as (H1 & H2 & _).
  - vm_compute. reflexivity.
  - vm_compute. reflexivity.
  - instantiate (3 := stream_chunks (Scripted.says [u"Es "])). reflexivity.
  - instantiate (1 := [u"Es "]). reflexivity.
  - reflexivity.
  - split; [exact H1 | rewrite H2; reflexivity].
Defined.
